(** * The native-activity bridge of the AdMob test application

    A shallow embedding of [admob/testapp/src/android/android_main.cc] and of
    the parts of [admob/testapp/src/common_main.cc] that the bridge calls.

    Each C++ function becomes a function on an explicit [World]: the file-level
    statics of both translation units, the pending managed-runtime exception,
    and the chronological list of calls made to the platform ([trace]).  What
    the platform answers (the looper, the Java VM, the advertising SDK, the
    other threads of the process) is read from a [Platform] oracle.  Functions
    take the identity [self] of the calling thread, which is what
    [pthread_self()] returns in the source.

    The hand-over of the started mutex between two invocations of
    [android_main] is a property of interleavings; it is modelled separately,
    as a labelled step relation, in [Module Restart]. *)

From Stdlib Require Import ZArith String Ascii List Bool Lia Arith.
From Stdlib Require Import DecimalString HexString.
Import ListNotations.
Local Open Scope Z_scope.

(** ** Handles and platform types *)

Definition pthread_t := Z.
Definition pthread_equal (a b : pthread_t) : bool := Z.eqb a b.

(** JNI references and pointers are addresses; [nullptr] is address 0. *)
Definition jobject := Z.
Definition jclass := Z.
Definition jmethodID := Z.
Definition JNIEnv_ptr := Z.
Definition nullptr : Z := 0.
Definition is_null (p : Z) : bool := Z.eqb p nullptr.

Record ANativeActivity := { clazz : jobject; vm : Z }.

(** [APP_CMD_DESTROY] of the NDK's android_native_app_glue.h. *)
Definition APP_CMD_DESTROY : Z := 15.

(** The only function this program ever stores in [android_app::onAppCmd]. *)
Inductive app_cmd_callback := Cb_OnAppCmd.

Record android_app := {
  activity : ANativeActivity;
  onAppCmd : option app_cmd_callback
}.

(** The glue registers two poll sources with the looper: the command pipe,
    whose [process] reads one command and hands it to [app->onAppCmd] when
    that is set, and the input queue. *)
Inductive android_poll_source :=
| CmdSource (cmd : Z)
| InputSource.

(** What one [ALooper_pollAll] call hands back: its return value and the
    [outData] pointer ([None] is nullptr). *)
Record poll_result := {
  looperId : Z;
  source : option android_poll_source
}.

(** ** The advertising SDK's types (firebase/future.h, firebase/admob/types.h) *)

Inductive FutureStatus :=
| kFutureStatusComplete
| kFutureStatusPending
| kFutureStatusInvalid.

Definition FutureStatus_eqb (a b : FutureStatus) : bool :=
  match a, b with
  | kFutureStatusComplete, kFutureStatusComplete => true
  | kFutureStatusPending, kFutureStatusPending => true
  | kFutureStatusInvalid, kFutureStatusInvalid => true
  | _, _ => false
  end.

Definition kAdMobErrorNone : Z := 0.

(** A future is a handle on an operation that completes on its own schedule:
    its accessors are functions of the time at which they are called, counted
    in [ProcessEvents] calls made so far. *)
Record FutureBase := {
  Status : nat -> FutureStatus;
  Error : nat -> Z;
  ErrorMessage : nat -> string
}.

Inductive Gender := kGenderUnknown | kGenderMale | kGenderFemale.
Inductive ChildDirectedTreatmentState :=
| kChildDirectedTreatmentStateUnknown
| kChildDirectedTreatmentStateTagged
| kChildDirectedTreatmentStateNotTagged.

Record AdRequest := {
  gender : Gender;
  tagged_for_child_directed_treatment : ChildDirectedTreatmentState;
  birthday_day : Z;
  birthday_month : Z;
  birthday_year : Z;
  keywords : list string;
  extras : list (string * string);
  test_device_ids : list string
}.

Inductive AdSizeType := kAdSizeStandard.
Record AdSize := { ad_size_type : AdSizeType; width : Z; height : Z }.

(** ** Calls made to the platform *)

Inductive mutex_id := started_mutex | init_mutex.

Inductive event :=
| EvUsleep (usec : Z)
| EvPollAll (timeoutMillis : Z)
| EvSourceProcess (src : android_poll_source)
| EvAndroidLog (text : string)
| EvAttachCurrentThread
| EvAddLogText (cls : jclass) (method : jmethodID) (text : string)
| EvExceptionClear
| EvDeleteGlobalRef (cls : jclass)
| EvNativeActivityFinish (a : ANativeActivity)
| EvDetachCurrentThread (vm : Z)
| EvMutexInit (m : mutex_id)
| EvMutexLock (m : mutex_id)
| EvMutexUnlock (m : mutex_id)
| EvCondSignal
| EvCondTimedWait (tv_sec tv_nsec : Z)
| EvAppCreate (env : JNIEnv_ptr) (activity : jobject)
| EvAdmobInitialize (app : Z)
| EvBannerSetListener
| EvBannerInitialize (ctx : jobject) (ad_unit : string) (size : AdSize)
| EvBannerShow
| EvBannerLoadAd (request : AdRequest).

(** ** The state of the process *)

Record LoggingUtilsData := {
  logging_utils_class_ : jclass;
  logging_utils_add_log_text_ : jmethodID;
  logging_utils_init_log_window_ : jmethodID
}.

Record World := {
  (* statics of android_main.cc *)
  g_app_state : option android_app;
  g_destroy_requested : bool;
  g_started : bool;
  g_restarted : bool;
  g_jni_env : JNIEnv_ptr;
  g_activity : jobject;
  g_main_thread : pthread_t;
  g_initialized : bool;
  g_logging_utils_data : option LoggingUtilsData;
  (* statics of common_main.cc *)
  g_app : Z;
  g_banner : Z;
  g_request : option AdRequest;
  (* the rest of the process *)
  clock : nat;                       (* ProcessEvents calls made so far *)
  jni_pending : option string;       (* pending Java exception, as its toString() *)
  jni_calls : nat;                   (* addLogText calls made so far *)
  trace : list event
}.

Definition set_app_state (v : option android_app) (w : World) : World :=
  {| g_app_state := v; g_destroy_requested := g_destroy_requested w;
     g_started := g_started w; g_restarted := g_restarted w;
     g_jni_env := g_jni_env w; g_activity := g_activity w;
     g_main_thread := g_main_thread w; g_initialized := g_initialized w;
     g_logging_utils_data := g_logging_utils_data w; g_app := g_app w;
     g_banner := g_banner w; g_request := g_request w; clock := clock w;
     jni_pending := jni_pending w; jni_calls := jni_calls w; trace := trace w |}.

Definition set_destroy_requested (v : bool) (w : World) : World :=
  {| g_app_state := g_app_state w; g_destroy_requested := v;
     g_started := g_started w; g_restarted := g_restarted w;
     g_jni_env := g_jni_env w; g_activity := g_activity w;
     g_main_thread := g_main_thread w; g_initialized := g_initialized w;
     g_logging_utils_data := g_logging_utils_data w; g_app := g_app w;
     g_banner := g_banner w; g_request := g_request w; clock := clock w;
     jni_pending := jni_pending w; jni_calls := jni_calls w; trace := trace w |}.

Definition set_started (v : bool) (w : World) : World :=
  {| g_app_state := g_app_state w; g_destroy_requested := g_destroy_requested w;
     g_started := v; g_restarted := g_restarted w;
     g_jni_env := g_jni_env w; g_activity := g_activity w;
     g_main_thread := g_main_thread w; g_initialized := g_initialized w;
     g_logging_utils_data := g_logging_utils_data w; g_app := g_app w;
     g_banner := g_banner w; g_request := g_request w; clock := clock w;
     jni_pending := jni_pending w; jni_calls := jni_calls w; trace := trace w |}.

Definition set_restarted (v : bool) (w : World) : World :=
  {| g_app_state := g_app_state w; g_destroy_requested := g_destroy_requested w;
     g_started := g_started w; g_restarted := v;
     g_jni_env := g_jni_env w; g_activity := g_activity w;
     g_main_thread := g_main_thread w; g_initialized := g_initialized w;
     g_logging_utils_data := g_logging_utils_data w; g_app := g_app w;
     g_banner := g_banner w; g_request := g_request w; clock := clock w;
     jni_pending := jni_pending w; jni_calls := jni_calls w; trace := trace w |}.

Definition set_jni_env (v : JNIEnv_ptr) (w : World) : World :=
  {| g_app_state := g_app_state w; g_destroy_requested := g_destroy_requested w;
     g_started := g_started w; g_restarted := g_restarted w;
     g_jni_env := v; g_activity := g_activity w;
     g_main_thread := g_main_thread w; g_initialized := g_initialized w;
     g_logging_utils_data := g_logging_utils_data w; g_app := g_app w;
     g_banner := g_banner w; g_request := g_request w; clock := clock w;
     jni_pending := jni_pending w; jni_calls := jni_calls w; trace := trace w |}.

Definition set_activity (v : jobject) (w : World) : World :=
  {| g_app_state := g_app_state w; g_destroy_requested := g_destroy_requested w;
     g_started := g_started w; g_restarted := g_restarted w;
     g_jni_env := g_jni_env w; g_activity := v;
     g_main_thread := g_main_thread w; g_initialized := g_initialized w;
     g_logging_utils_data := g_logging_utils_data w; g_app := g_app w;
     g_banner := g_banner w; g_request := g_request w; clock := clock w;
     jni_pending := jni_pending w; jni_calls := jni_calls w; trace := trace w |}.

Definition set_main_thread (v : pthread_t) (w : World) : World :=
  {| g_app_state := g_app_state w; g_destroy_requested := g_destroy_requested w;
     g_started := g_started w; g_restarted := g_restarted w;
     g_jni_env := g_jni_env w; g_activity := g_activity w;
     g_main_thread := v; g_initialized := g_initialized w;
     g_logging_utils_data := g_logging_utils_data w; g_app := g_app w;
     g_banner := g_banner w; g_request := g_request w; clock := clock w;
     jni_pending := jni_pending w; jni_calls := jni_calls w; trace := trace w |}.

Definition set_initialized (v : bool) (w : World) : World :=
  {| g_app_state := g_app_state w; g_destroy_requested := g_destroy_requested w;
     g_started := g_started w; g_restarted := g_restarted w;
     g_jni_env := g_jni_env w; g_activity := g_activity w;
     g_main_thread := g_main_thread w; g_initialized := v;
     g_logging_utils_data := g_logging_utils_data w; g_app := g_app w;
     g_banner := g_banner w; g_request := g_request w; clock := clock w;
     jni_pending := jni_pending w; jni_calls := jni_calls w; trace := trace w |}.

Definition set_logging_utils_data (v : option LoggingUtilsData) (w : World) : World :=
  {| g_app_state := g_app_state w; g_destroy_requested := g_destroy_requested w;
     g_started := g_started w; g_restarted := g_restarted w;
     g_jni_env := g_jni_env w; g_activity := g_activity w;
     g_main_thread := g_main_thread w; g_initialized := g_initialized w;
     g_logging_utils_data := v; g_app := g_app w;
     g_banner := g_banner w; g_request := g_request w; clock := clock w;
     jni_pending := jni_pending w; jni_calls := jni_calls w; trace := trace w |}.

Definition set_app (v : Z) (w : World) : World :=
  {| g_app_state := g_app_state w; g_destroy_requested := g_destroy_requested w;
     g_started := g_started w; g_restarted := g_restarted w;
     g_jni_env := g_jni_env w; g_activity := g_activity w;
     g_main_thread := g_main_thread w; g_initialized := g_initialized w;
     g_logging_utils_data := g_logging_utils_data w; g_app := v;
     g_banner := g_banner w; g_request := g_request w; clock := clock w;
     jni_pending := jni_pending w; jni_calls := jni_calls w; trace := trace w |}.

Definition set_banner (v : Z) (w : World) : World :=
  {| g_app_state := g_app_state w; g_destroy_requested := g_destroy_requested w;
     g_started := g_started w; g_restarted := g_restarted w;
     g_jni_env := g_jni_env w; g_activity := g_activity w;
     g_main_thread := g_main_thread w; g_initialized := g_initialized w;
     g_logging_utils_data := g_logging_utils_data w; g_app := g_app w;
     g_banner := v; g_request := g_request w; clock := clock w;
     jni_pending := jni_pending w; jni_calls := jni_calls w; trace := trace w |}.

Definition set_request (v : option AdRequest) (w : World) : World :=
  {| g_app_state := g_app_state w; g_destroy_requested := g_destroy_requested w;
     g_started := g_started w; g_restarted := g_restarted w;
     g_jni_env := g_jni_env w; g_activity := g_activity w;
     g_main_thread := g_main_thread w; g_initialized := g_initialized w;
     g_logging_utils_data := g_logging_utils_data w; g_app := g_app w;
     g_banner := g_banner w; g_request := v; clock := clock w;
     jni_pending := jni_pending w; jni_calls := jni_calls w; trace := trace w |}.

Definition tick (w : World) : World :=
  {| g_app_state := g_app_state w; g_destroy_requested := g_destroy_requested w;
     g_started := g_started w; g_restarted := g_restarted w;
     g_jni_env := g_jni_env w; g_activity := g_activity w;
     g_main_thread := g_main_thread w; g_initialized := g_initialized w;
     g_logging_utils_data := g_logging_utils_data w; g_app := g_app w;
     g_banner := g_banner w; g_request := g_request w; clock := S (clock w);
     jni_pending := jni_pending w; jni_calls := jni_calls w; trace := trace w |}.

Definition set_jni_pending (v : option string) (w : World) : World :=
  {| g_app_state := g_app_state w; g_destroy_requested := g_destroy_requested w;
     g_started := g_started w; g_restarted := g_restarted w;
     g_jni_env := g_jni_env w; g_activity := g_activity w;
     g_main_thread := g_main_thread w; g_initialized := g_initialized w;
     g_logging_utils_data := g_logging_utils_data w; g_app := g_app w;
     g_banner := g_banner w; g_request := g_request w; clock := clock w;
     jni_pending := v; jni_calls := jni_calls w; trace := trace w |}.

Definition count_jni_call (w : World) : World :=
  {| g_app_state := g_app_state w; g_destroy_requested := g_destroy_requested w;
     g_started := g_started w; g_restarted := g_restarted w;
     g_jni_env := g_jni_env w; g_activity := g_activity w;
     g_main_thread := g_main_thread w; g_initialized := g_initialized w;
     g_logging_utils_data := g_logging_utils_data w; g_app := g_app w;
     g_banner := g_banner w; g_request := g_request w; clock := clock w;
     jni_pending := jni_pending w; jni_calls := S (jni_calls w); trace := trace w |}.

Definition emit (e : event) (w : World) : World :=
  {| g_app_state := g_app_state w; g_destroy_requested := g_destroy_requested w;
     g_started := g_started w; g_restarted := g_restarted w;
     g_jni_env := g_jni_env w; g_activity := g_activity w;
     g_main_thread := g_main_thread w; g_initialized := g_initialized w;
     g_logging_utils_data := g_logging_utils_data w; g_app := g_app w;
     g_banner := g_banner w; g_request := g_request w; clock := clock w;
     jni_pending := jni_pending w; jni_calls := jni_calls w;
     trace := trace w ++ [e] |}.

(** The process as the loader leaves it: every static zero-initialised. *)
Definition initial_world : World :=
  {| g_app_state := None; g_destroy_requested := false;
     g_started := false; g_restarted := false;
     g_jni_env := nullptr; g_activity := nullptr;
     g_main_thread := 0; g_initialized := false;
     g_logging_utils_data := None; g_app := nullptr;
     g_banner := nullptr; g_request := None; clock := 0%nat;
     jni_pending := None; jni_calls := 0%nat; trace := [] |}.

(** An argument of a variadic call: what [va_arg] reads for [%d] and [%x],
    and for [%s]. *)
Inductive fmt_arg :=
| ArgInt (v : Z)
| ArgStr (s : string).

(** ** What the platform answers *)

Record Platform := {
  (* outcome of the ALooper_pollAll call made at a given time *)
  poll : nat -> poll_result;
  (* whether, while the ProcessEvents call made at a given time is suspended,
     a newer invocation of android_main stores g_restarted = true *)
  restart_signal : nat -> bool;
  (* whether nativeInit stores g_initialized = true during the
     pthread_cond_timedwait that follows the ProcessEvents call of that time *)
  early_init_signal : nat -> bool;
  (* CLOCK_REALTIME as read at a given time: (tv_sec, tv_nsec) *)
  realtime : nat -> Z * Z;
  (* JavaVM::AttachCurrentThread: whether it returns JNI_OK, and the env *)
  attach_ok : bool;
  attach_env : JNIEnv_ptr;
  (* whether the n-th call of LoggingUtils.addLogText throws, and what *)
  add_log_text_throws : nat -> option string;
  (* what firebase::App::Create returns *)
  app_create : Z;
  (* what new firebase::admob::BannerView() returns *)
  banner_new : Z;
  (* the futures of the banner view *)
  banner_InitializeLastResult : FutureBase;
  banner_ShowLastResult : FutureBase;
  (* what __android_log_vprint does with a va_list that vsnprintf has already
     read to its end, in the call made when the trace has the given length,
     for the given format and arguments: the entry it writes, or None when
     the read faults.  Where the ABI passes va_list by value the entry is
     the formatted message; elsewhere the conversions read what lies behind
     the arguments. *)
  log_vprint_spent : nat -> string -> list fmt_arg -> option string
}.

(** ** Outcomes of a call

    A call returns ([Ret]), brings the process down ([Stop]: a failed
    [assert], a dereference of nullptr, or a read through a [va_list] that
    is spent), or is still inside one of its
    loops when the fuel of the model runs out ([Spin]). *)

Inductive fault := AssertionFailed | NullDereference | InvalidRead.

Inductive res (A : Type) :=
| Ret (a : A) (w : World)
| Stop (f : fault) (w : World)
| Spin.
Arguments Ret {A} a w.
Arguments Stop {A} f w.
Arguments Spin {A}.

Definition M (A : Type) := World -> res A.

Definition ret {A} (a : A) : M A := fun w => Ret a w.

Definition bind {A B} (m : M A) (k : A -> M B) : M B :=
  fun w => match m w with
           | Ret a w' => k a w'
           | Stop f w' => Stop f w'
           | Spin => Spin
           end.

Definition act (f : World -> World) : M unit := fun w => Ret tt (f w).
Definition read {A} (f : World -> A) : M A := fun w => Ret (f w) w.
Definition stop {A} (f : fault) : M A := fun w => Stop f w.

(** [assert(c)] of <cassert>, compiled without NDEBUG. *)
Definition assert (c : bool) : M unit :=
  fun w => if c then Ret tt w else Stop AssertionFailed w.

Declare Scope bridge_scope.
Delimit Scope bridge_scope with bridge.
Notation "x <- m ;; k" := (bind m (fun x => k))
  (at level 61, m at next level, right associativity) : bridge_scope.
Notation "m ;; k" := (bind m (fun _ => k))
  (at level 61, right associativity) : bridge_scope.
Local Open Scope bridge_scope.

(** ** Formatting *)

Definition fmt_d (v : Z) : string := NilZero.string_of_int (Z.to_int v).

(** [%x] applied to a pointer cast to a 32-bit int. *)
Definition fmt_x (v : Z) : string :=
  match v mod 2 ^ 32 with
  | Zpos p => HexString.Raw.of_pos p EmptyString
  | _ => "0"%string
  end.

Definition dquote : string := String (ascii_of_nat 34) EmptyString.

(** What [vsnprintf] makes of a format and its arguments, for the
    conversions this program uses: [%d], [%x] and [%s].  A conversion
    without a matching argument is left as it stands. *)
Fixpoint format_message (format : string) (args : list fmt_arg) : string :=
  match format with
  | EmptyString => EmptyString
  | String c rest =>
      if Ascii.eqb c "%" then
        match rest, args with
        | String k rest', ArgInt v :: args' =>
            if Ascii.eqb k "d" then (fmt_d v ++ format_message rest' args')%string
            else if Ascii.eqb k "x" then (fmt_x v ++ format_message rest' args')%string
            else String c (format_message rest args)
        | String k rest', ArgStr t :: args' =>
            if Ascii.eqb k "s" then (t ++ format_message rest' args')%string
            else String c (format_message rest args)
        | _, _ => String c (format_message rest args)
        end
      else String c (format_message rest args)
  end.

Definition kLineBufferSize : nat := 100.

(** The C string left in [buffer] by [LogMessage]: [vsnprintf] keeps at most
    [kLineBufferSize - 1] characters and terminates them; the line break goes
    to index [min(len, kLineBufferSize)], which is behind that terminator once
    the message was cut. *)
Definition line_buffer (msg : string) : string :=
  if Nat.ltb (String.length msg) kLineBufferSize
  then (msg ++ String (ascii_of_nat 10) EmptyString)%string
  else substring 0 (kLineBufferSize - 1) msg.

(** ** android_main.cc *)

Section Bridge.

Variable P : Platform.

(** [static void OnAppCmd(struct android_app* app, int32_t cmd)] *)
Definition OnAppCmd (cmd : Z) (w : World) : World :=
  set_destroy_requested (g_destroy_requested w || (cmd =? APP_CMD_DESTROY)) w.

(** [source->process(g_app_state, source)]: the glue's command source calls
    [app->onAppCmd] when it is set; its input source calls [app->onInputEvent],
    which this program never sets. *)
Definition source_process (app : option android_app)
    (src : android_poll_source) (w : World) : World :=
  match src with
  | CmdSource cmd =>
      match app with
      | Some a => match onAppCmd a with
                  | Some Cb_OnAppCmd => OnAppCmd cmd w
                  | None => w
                  end
      | None => w
      end
  | InputSource => w
  end.

(** [useconds_t] is 32 bits wide: the argument [1000 * msec] arrives modulo
    [2^32]. *)
Definition useconds (v : Z) : Z := v mod 2 ^ 32.

(** The calling thread is suspended (in [usleep] or in [ALooper_pollAll]):
    time advances and a newer invocation of [android_main] may request a
    restart meanwhile. *)
Definition suspend (w : World) : World :=
  tick (set_restarted (g_restarted w || restart_signal P (clock w)) w).

(** [bool ProcessEvents(int msec)] *)
Definition ProcessEvents (self : pthread_t) (msec : Z) (w : World) : bool * World :=
  if negb (pthread_equal (g_main_thread w) self) then
    let w1 := suspend (emit (EvUsleep (useconds (1000 * msec))) w) in
    (g_destroy_requested w1 || g_restarted w1, w1)
  else
    let r := poll P (clock w) in
    let w1 := suspend (emit (EvPollAll msec) w) in
    let w2 :=
      match source r with
      | Some src =>
          if 0 <=? looperId r
          then source_process (g_app_state w1) src (emit (EvSourceProcess src) w1)
          else w1
      | None => w1
      end in
    (g_destroy_requested w2 || g_restarted w2, w2).

Definition ProcessEventsM (self : pthread_t) (msec : Z) : M bool :=
  fun w => let (r, w') := ProcessEvents self msec w in Ret r w'.

(** [jobject GetActivity()]; [None] stands for the dereference of a null
    [g_app_state]. *)
Definition GetActivity (self : pthread_t) (w : World) : option jobject :=
  if negb (pthread_equal (g_main_thread w) self) then Some (g_activity w)
  else match g_app_state w with
       | Some a => Some (clazz (activity a))
       | None => None
       end.

(** [jobject GetWindowContext()] *)
Definition GetWindowContext (self : pthread_t) (w : World) : option jobject :=
  GetActivity self w.

Definition GetActivityM (self : pthread_t) : M jobject :=
  fun w => match GetActivity self w with
           | Some a => Ret a w
           | None => Stop NullDereference w
           end.

Definition GetWindowContextM (self : pthread_t) : M jobject :=
  GetActivityM self.

(** [JNIEnv* GetJniEnv()] *)
Definition GetJniEnv (self : pthread_t) : M JNIEnv_ptr :=
  fun w =>
    if negb (pthread_equal (g_main_thread w) self) then Ret (g_jni_env w) w
    else match g_app_state w with
         | Some _ =>
             Ret (if attach_ok P then attach_env P else nullptr)
                 (emit EvAttachCurrentThread w)
         | None => Stop NullDereference w
         end.

(** [env->CallStaticVoidMethod(logging_utils_class_,
    logging_utils_add_log_text_, text_string)]: the Java method runs and may
    leave an exception pending. *)
Definition call_addLogText (d : LoggingUtilsData) (text : string) (w : World) : World :=
  let w1 := emit (EvAddLogText (logging_utils_class_ d)
                               (logging_utils_add_log_text_ d) text) w in
  let w2 := match jni_pending w1 with
            | Some _ => w1
            | None => set_jni_pending (add_log_text_throws P (jni_calls w1)) w1
            end in
  count_jni_call w2.

(** [void LoggingUtilsData::AppendText(const char* text)] *)
Definition AppendText (self : pthread_t) (d : LoggingUtilsData) (text : string) : M unit :=
  if is_null (logging_utils_class_ d) then ret tt
  else
    env <- GetJniEnv self ;;
    assert (negb (is_null env)) ;;
    act (call_addLogText d text).

(** [void CheckJNIException()] *)
Definition CheckJNIException (self : pthread_t) : M unit :=
  env <- GetJniEnv self ;;
  if is_null env then stop NullDereference
  else
    pending <- read jni_pending ;;
    match pending with
    | Some exception_text =>
        act (emit EvExceptionClear) ;;
        act (set_jni_pending None) ;;
        act (emit (EvAndroidLog "-------------------JNI exception:"%string)) ;;
        act (emit (EvAndroidLog exception_text)) ;;
        act (emit (EvAndroidLog "-------------------"%string)) ;;
        assert false
    | None => ret tt
    end.

(** [void LogMessage(const char* format, ...)] called with a format and no
    further argument, as in [LogMessage("Early init called.")]: no
    conversion reads the [va_list], so [vsnprintf] and
    [__android_log_vprint] both produce the format itself. *)
Definition LogMessage (self : pthread_t) (msg : string) : M unit :=
  act (emit (EvAndroidLog msg)) ;;
  main_thread <- read g_main_thread ;;
  if pthread_equal main_thread self then
    data <- read g_logging_utils_data ;;
    match data with
    | Some d => AppendText self d (line_buffer msg) ;; CheckJNIException self
    | None => ret tt
    end
  else ret tt.

(** Lines 262 to 272 of [LogMessage]: the line in [buffer] goes to the
    on-screen view. *)
Definition LogMessage_view (self : pthread_t) (msg : string) : M unit :=
  main_thread <- read g_main_thread ;;
  if pthread_equal main_thread self then
    data <- read g_logging_utils_data ;;
    match data with
    | Some d => AppendText self d (line_buffer msg) ;; CheckJNIException self
    | None => ret tt
    end
  else ret tt.

(** [void LogMessage(const char* format, ...)] called with arguments.
    [vsnprintf] (line 255) reads [list] to its end and fills [buffer] with
    the formatted message.  Line 261 hands the same [list] to
    [__android_log_vprint], with no [va_end] and [va_start] and no
    [va_copy] in between: what the system log receives, and whether the
    read faults, is the platform's answer.  The view receives [buffer]. *)
Definition LogMessage_va (self : pthread_t) (format : string)
    (args : list fmt_arg) : M unit :=
  match args with
  | [] => LogMessage self format
  | _ :: _ =>
      position <- read (fun w => length (trace w)) ;;
      match log_vprint_spent P position format args with
      | Some entry =>
          act (emit (EvAndroidLog entry)) ;;
          LogMessage_view self (format_message format args)
      | None => stop InvalidRead
      end
  end.

(** [LoggingUtilsData::~LoggingUtilsData()] *)
Definition LoggingUtilsData_destroy (self : pthread_t) (d : LoggingUtilsData) : M unit :=
  env <- GetJniEnv self ;;
  assert (negb (is_null env)) ;;
  if negb (is_null (logging_utils_class_ d))
  then act (emit (EvDeleteGlobalRef (logging_utils_class_ d)))
  else ret tt.

(** *** android_main, after the started mutex is taken *)

(** Lines 303 to 310: the thread becomes the main thread of the session. *)
Definition android_main_enter (self : pthread_t) (state : android_app) (w : World) : World :=
  let w := set_main_thread self w in
  let w := set_started true w in
  let w := set_destroy_requested false w in
  set_app_state (Some {| activity := activity state;
                         onAppCmd := Some Cb_OnAppCmd |}) w.

Definition nsec_per_sec : Z := 1000000000.
Definition nsec_per_ms : Z := Z.quot nsec_per_sec 1000.

(** The deadline handed to [pthread_cond_timedwait]. *)
Definition time_to_wait_for (now : Z * Z) : Z * Z :=
  let nsec := snd now + nsec_per_ms * 10 in
  (fst now + Z.quot nsec nsec_per_sec, Z.rem nsec nsec_per_sec).

(** [pthread_cond_timedwait(&g_init_cond, &g_init_mutex, &time_to_wait_for)]:
    [g_init_mutex] is released for the duration of the wait, which is when
    [nativeInit] can store [g_initialized]. *)
Definition cond_timedwait (w : World) : World :=
  let deadline := time_to_wait_for (realtime P (clock w)) in
  let w1 := emit (EvCondTimedWait (fst deadline) (snd deadline)) w in
  set_initialized (g_initialized w1 || early_init_signal P (clock w1)) w1.

(** The loop of lines 325 to 338. *)
Fixpoint wait_for_nativeInit_loop (fuel : nat) (self : pthread_t) (w : World) : res unit :=
  match fuel with
  | O => Spin
  | S fuel' =>
      if negb (g_initialized w) then
        let (exit_requested, w1) := ProcessEvents self 10 w in
        if exit_requested then Ret tt w1
        else wait_for_nativeInit_loop fuel' self (cond_timedwait w1)
      else Ret tt w
  end.

(** Lines 323 to 339. *)
Definition wait_for_nativeInit (fuel : nat) (self : pthread_t) : M unit :=
  act (emit (EvMutexLock init_mutex)) ;;
  wait_for_nativeInit_loop fuel self ;;
  act (emit (EvMutexUnlock init_mutex)).

(** Lines 363 to 379: what [android_main] does once [common_main] is back. *)
Definition android_main_leave (self : pthread_t) (state : android_app) : M unit :=
  ProcessEventsM self 10 ;;
  data <- read g_logging_utils_data ;;
  match data with
  | Some d => LoggingUtilsData_destroy self d
  | None => ret tt
  end ;;
  act (set_logging_utils_data None) ;;
  act (set_initialized false) ;;
  restarted <- read g_restarted ;;
  (if negb restarted then act (emit (EvNativeActivityFinish (activity state)))
   else ret tt) ;;
  app <- read g_app_state ;;
  match app with
  | Some a => act (emit (EvDetachCurrentThread (vm (activity a))))
  | None => stop NullDereference
  end ;;
  act (set_started false) ;;
  act (set_restarted false) ;;
  act (emit (EvMutexUnlock started_mutex)).

End Bridge.

(** ** common_main.cc *)

Definition kBannerAdUnit : string := "ca-app-pub-3940256099942544/6300978111".
Definition kBannerWidth : Z := 320.
Definition kBannerHeight : Z := 50.
Definition kKeywords : list string := ["AdMob"; "C++"; "Fun"]%string.
Definition kTestDeviceIDs : list string :=
  ["2077ef9a63d2b398840261c8221a0c9b"; "098fe087d987c9a878965454a65654d7"]%string.
Definition kBirthdayDay : Z := 10.
Definition kBirthdayMonth : Z := 11.
Definition kBirthdayYear : Z := 1976.
Definition kRequestExtras : list (string * string) :=
  [("the_name_of_an_extra", "the_value_for_that_extra")]%string.

(** The fields [InitializeFirebase] stores in [g_request]. *)
Definition sample_request : AdRequest :=
  {| gender := kGenderUnknown;
     tagged_for_child_directed_treatment := kChildDirectedTreatmentStateTagged;
     birthday_day := kBirthdayDay;
     birthday_month := kBirthdayMonth;
     birthday_year := kBirthdayYear;
     keywords := kKeywords;
     extras := kRequestExtras;
     test_device_ids := kTestDeviceIDs |}.

(** ["Action failed with error code %d and message \"%s\"."] *)
Definition action_failed_format : string :=
  ("Action failed with error code %d and message " ++ dquote ++ "%s" ++ dquote
   ++ ".")%string.

(** The message that format makes of an error code and its text. *)
Definition action_failed_message (code : Z) (message : string) : string :=
  ("Action failed with error code " ++ fmt_d code ++ " and message "
   ++ dquote ++ message ++ dquote ++ ".")%string.

Section CommonMain.

Variable P : Platform.

(** The [while] loop of [WaitForFutureCompletion]. *)
Fixpoint WaitForFutureCompletion_loop (fuel : nat) (self : pthread_t)
    (future : FutureBase) (w : World) : res unit :=
  match fuel with
  | O => Spin
  | S fuel' =>
      let (exit_requested, w1) := ProcessEvents P self 1000 w in
      if negb exit_requested then
        if negb (FutureStatus_eqb (Status future (clock w1)) kFutureStatusPending)
        then Ret tt w1
        else WaitForFutureCompletion_loop fuel' self future w1
      else Ret tt w1
  end.

(** The [if] that follows the loop. *)
Definition report_future_error (self : pthread_t) (future : FutureBase) : M unit :=
  now <- read clock ;;
  if negb (Error future now =? kAdMobErrorNone)
  then LogMessage_va P self action_failed_format
         [ArgInt (Error future now); ArgStr (ErrorMessage future now)]
  else ret tt.

(** [static void WaitForFutureCompletion(firebase::FutureBase future)] *)
Definition WaitForFutureCompletion (fuel : nat) (self : pthread_t)
    (future : FutureBase) : M unit :=
  WaitForFutureCompletion_loop fuel self future ;;
  report_future_error self future.

(** Everything in [InitializeFirebase] below [if (g_app) return;]. *)
Definition InitializeFirebase_body (fuel : nat) (self : pthread_t) : M unit :=
  env <- GetJniEnv P self ;;
  activity <- GetActivityM self ;;
  act (emit (EvAppCreate env activity)) ;;
  act (set_app (app_create P)) ;;
  app <- read g_app ;;
  LogMessage_va P self "Created the Firebase App %x." [ArgInt app] ;;
  LogMessage P self "Initializing the AdMob with Firebase API." ;;
  app <- read g_app ;;
  (if is_null app then stop NullDereference
   else act (emit (EvAdmobInitialize app))) ;;
  act (set_request (Some sample_request)) ;;
  LogMessage P self "Creating the BannerView." ;;
  act (set_banner (banner_new P)) ;;
  act (emit EvBannerSetListener) ;;
  ctx <- GetWindowContextM self ;;
  act (emit (EvBannerInitialize ctx kBannerAdUnit
               {| ad_size_type := kAdSizeStandard;
                  width := kBannerWidth; height := kBannerHeight |})) ;;
  WaitForFutureCompletion fuel self (banner_InitializeLastResult P) ;;
  LogMessage P self "Showing the banner ad." ;;
  act (emit EvBannerShow) ;;
  WaitForFutureCompletion fuel self (banner_ShowLastResult P) ;;
  LogMessage P self "Loading a banner ad." ;;
  request <- read g_request ;;
  match request with
  | Some r => act (emit (EvBannerLoadAd r))
  | None => stop NullDereference
  end.

(** [void InitializeFirebase()] *)
Definition InitializeFirebase (fuel : nat) (self : pthread_t) : M unit :=
  app <- read g_app ;;
  if negb (is_null app) then ret tt
  else InitializeFirebase_body fuel self.

(** [Java_com_google_firebase_example_TestappNativeActivity_nativeInit],
    built with [INIT_IN_ACTIVITY_ON_CREATE] set to 1. *)
Definition nativeInit (fuel : nat) (self : pthread_t)
    (env : JNIEnv_ptr) (thiz activity : jobject) : M unit :=
  LogMessage P self "Early init called." ;;
  act (set_jni_env env) ;;
  act (set_activity activity) ;;
  InitializeFirebase fuel self ;;
  act (emit (EvMutexLock init_mutex)) ;;
  act (set_initialized true) ;;
  act (emit (EvMutexUnlock init_mutex)) ;;
  act (set_jni_env nullptr) ;;
  act (set_activity nullptr) ;;
  LogMessage P self "Early init complete" ;;
  act (emit EvCondSignal).

(** The last loop of [common_main], [while (!ProcessEvents(1000)) {}]:
    the only way out of the session once the demonstration is over. *)
Fixpoint common_main_wait_for_kill (fuel : nat) (self : pthread_t) (w : World) : res unit :=
  match fuel with
  | O => Spin
  | S fuel' =>
      let (exit_requested, w1) := ProcessEvents P self 1000 w in
      if negb exit_requested then common_main_wait_for_kill fuel' self w1
      else Ret tt w1
  end.

(** The managed runtime calling [nativeInit] once per element of [calls]. *)
Fixpoint nativeInit_calls (fuel : nat) (self : pthread_t)
    (calls : list (JNIEnv_ptr * jobject * jobject)) : M unit :=
  match calls with
  | [] => ret tt
  | (env, thiz, activity) :: rest =>
      nativeInit fuel self env thiz activity ;;
      nativeInit_calls fuel self rest
  end.

End CommonMain.

(** ** The restart gate of android_main, as an interleaving of threads

    The glue starts one thread per [onCreate], each running [android_main].
    The threads share [g_started], [g_restarted], [g_destroy_requested] and
    [g_started_mutex]; every other statement of [android_main] leaves these
    four alone.  A thread is at a label when the statement of that source line
    is the next one it executes; statements are atomic and take effect in
    the order in which the threads execute them.

    Two systems are built from the same statements.  In [step_any] the
    platform may invoke [android_main] on a fresh thread at any moment.  In
    [step] it does so only when no invocation is alive or while an instance
    has [g_started] set (it has executed line 305 and not yet line 377), and
    the new thread tests [g_started] at once: these are the restarts the
    comment above line 293 describes.  An invocation that arrives while the
    old instance is at line 378 or 379 is not among them. *)

Module Restart.

Definition tid := nat.

Inductive label :=
| NotInvoked
| L293   (* if (g_started) *)
| L294   (* g_restarted = true; *)
| L296   (* pthread_mutex_lock(&g_started_mutex); *)
| L297   (* pthread_mutex_unlock(&g_started_mutex); *)
| L299   (* g_started_mutex = PTHREAD_MUTEX_INITIALIZER; *)
| L301   (* pthread_mutex_lock(&g_started_mutex); *)
| L305   (* g_main_thread = pthread_self(); g_started = true; *)
| L308   (* g_destroy_requested = false; g_app_state = state; ... *)
| InSession  (* lines 313 to 361, the last loop of common_main included *)
| L363   (* ProcessEvents(10); ... DetachCurrentThread(); *)
| L377   (* g_started = false; *)
| L378   (* g_restarted = false; *)
| L379   (* pthread_mutex_unlock(&g_started_mutex); *)
| Exited.

Record shared := {
  g_started : bool;
  g_restarted : bool;
  g_destroy_requested : bool;
  g_started_mutex : option tid        (* the owner, when locked *)
}.

Definition with_started (v : bool) (m : shared) : shared :=
  {| g_started := v; g_restarted := g_restarted m;
     g_destroy_requested := g_destroy_requested m;
     g_started_mutex := g_started_mutex m |}.

Definition with_restarted (v : bool) (m : shared) : shared :=
  {| g_started := g_started m; g_restarted := v;
     g_destroy_requested := g_destroy_requested m;
     g_started_mutex := g_started_mutex m |}.

Definition with_destroy_requested (v : bool) (m : shared) : shared :=
  {| g_started := g_started m; g_restarted := g_restarted m;
     g_destroy_requested := v;
     g_started_mutex := g_started_mutex m |}.

Definition with_mutex (v : option tid) (m : shared) : shared :=
  {| g_started := g_started m; g_restarted := g_restarted m;
     g_destroy_requested := g_destroy_requested m;
     g_started_mutex := v |}.

(** [pthread_mutex_lock]: [None] when the caller has to wait. *)
Definition mutex_lock (t : tid) (m : shared) : option shared :=
  match g_started_mutex m with
  | None => Some (with_mutex (Some t) m)
  | Some _ => None
  end.

(** Thread [t] executes the statement at label [l]: the label it reaches and
    the shared variables it leaves, or [None] when it cannot move.

    No destroy command is delivered in this model, so nothing sets
    [g_destroy_requested]; [common_main] ends in
    [while (!ProcessEvents(1000)) {}] and [ProcessEvents] returns
    [g_destroy_requested | g_restarted], which is the test at [InSession]. *)
Definition exec (t : tid) (l : label) (m : shared) : option (label * shared) :=
  match l with
  | NotInvoked => None
  | L293 => Some (if g_started m then L294 else L299, m)
  | L294 => Some (L296, with_restarted true m)
  | L296 => option_map (fun m' => (L297, m')) (mutex_lock t m)
  | L297 => Some (L301, with_mutex None m)
  | L299 => Some (L301, with_mutex None m)
  | L301 => option_map (fun m' => (L305, m')) (mutex_lock t m)
  | L305 => Some (L308, with_started true m)
  | L308 => Some (InSession, with_destroy_requested false m)
  | InSession =>
      Some (if g_destroy_requested m || g_restarted m then L363 else InSession, m)
  | L363 => Some (L377, m)
  | L377 => Some (L378, with_started false m)
  | L378 => Some (L379, with_restarted false m)
  | L379 => Some (Exited, with_mutex None m)
  | Exited => None
  end.

Record state := {
  mem : shared;
  at_label : tid -> label
}.

Definition move (t : tid) (l : label) (f : tid -> label) : tid -> label :=
  fun u => if Nat.eqb u t then l else f u.

Definition initial : state :=
  {| mem := {| g_started := false; g_restarted := false;
               g_destroy_requested := false; g_started_mutex := None |};
     at_label := fun _ => NotInvoked |}.

(** The instance of thread [t] is running: it has stored [g_started = true]
    and has not cleared it yet. *)
Definition running (l : label) : bool :=
  match l with
  | L308 | InSession | L363 | L377 => true
  | _ => false
  end.

(** The thread is inside the region bracketed by lines 301 and 379. *)
Definition in_instance (l : label) : bool :=
  match l with
  | L305 | L308 | InSession | L363 | L377 | L378 | L379 => true
  | _ => false
  end.

(** The thread is past one of its two acquisitions of [g_started_mutex] and
    before the release that follows it. *)
Definition past_acquisition (l : label) : bool :=
  match l with
  | L297 => true
  | _ => in_instance l
  end.

Definition alive (l : label) : bool :=
  match l with
  | NotInvoked | Exited => false
  | _ => true
  end.

(** The platform invokes [android_main] on the fresh thread [t], which tests
    [g_started] at once.  It does so when no invocation is alive, or while
    the instance of some thread has [g_started] set. *)
Inductive invoke (t : tid) (s s' : state) : Prop :=
| invoke_intro l' m' :
    at_label s t = NotInvoked ->
    ((forall u, alive (at_label s u) = false) \/
     (exists u, running (at_label s u) = true)) ->
    exec t L293 (mem s) = Some (l', m') ->
    s' = {| mem := m'; at_label := move t l' (at_label s) |} ->
    invoke t s s'.

(** An invoked thread executes its next statement. *)
Inductive advance (t : tid) (s s' : state) : Prop :=
| advance_intro l' m' :
    exec t (at_label s t) (mem s) = Some (l', m') ->
    s' = {| mem := m'; at_label := move t l' (at_label s) |} ->
    advance t s s'.

Inductive step (s s' : state) : Prop :=
| step_invoke t : invoke t s s' -> step s s'
| step_advance t : advance t s s' -> step s s'.

Inductive steps (s : state) : state -> Prop :=
| steps_refl : steps s s
| steps_more s1 s2 : steps s s1 -> step s1 s2 -> steps s s2.

Definition reachable (s : state) : Prop := steps initial s.

(** The platform invokes [android_main] on the fresh thread [t], whenever. *)
Inductive arrive (t : tid) (s s' : state) : Prop :=
| arrive_intro :
    at_label s t = NotInvoked ->
    s' = {| mem := mem s; at_label := move t L293 (at_label s) |} ->
    arrive t s s'.

Inductive step_any (s s' : state) : Prop :=
| step_arrive t : arrive t s s' -> step_any s s'
| step_run t : advance t s s' -> step_any s s'.

Inductive steps_any (s : state) : state -> Prop :=
| steps_any_refl : steps_any s s
| steps_any_more s1 s2 : steps_any s s1 -> step_any s1 s2 -> steps_any s s2.

(** The state after thread [t] executes the statement at [l], for running
    schedules. *)
Definition after_exec (t : tid) (l : label) (s : state) : state :=
  match exec t l (mem s) with
  | Some (l', m') => {| mem := m'; at_label := move t l' (at_label s) |}
  | None => s
  end.

Definition after_invoke (t : tid) (s : state) : state := after_exec t L293 s.

Definition after_advance (t : tid) (s : state) : state :=
  after_exec t (at_label s t) s.

(** Thread 0 is invoked first and reaches its session. *)
Definition first_session : state :=
  after_advance 0%nat (after_advance 0%nat (after_advance 0%nat
    (after_advance 0%nat (after_invoke 0%nat initial)))).

Definition after_arrive (t : tid) (s : state) : state :=
  {| mem := mem s; at_label := move t L293 (at_label s) |}.

(** One scheduling decision, and the state a list of them leads to. *)
Inductive decision := Arrive (t : tid) | Run (t : tid).

Definition decide (d : decision) (s : state) : state :=
  match d with
  | Arrive t => after_arrive t s
  | Run t => after_advance t s
  end.

Definition schedule (ds : list decision) (s : state) : state :=
  fold_left (fun s d => decide d s) ds s.

(** Whether the platform or the thread can take the decision in [s]. *)
Definition enabled (d : decision) (s : state) : bool :=
  match d with
  | Arrive t => match at_label s t with NotInvoked => true | _ => false end
  | Run t => match exec t (at_label s t) (mem s) with Some _ => true | None => false end
  end.

Fixpoint all_enabled (ds : list decision) (s : state) : bool :=
  match ds with
  | [] => true
  | d :: rest => enabled d s && all_enabled rest (decide d s)
  end.

(** Two invocations that both test [g_started] before either sets it. *)
Definition racing_pair : list decision :=
  [Arrive 0; Arrive 1; Run 0; Run 1;       (* both read g_started = false *)
   Run 0; Run 0;                           (* 0: lines 299 and 301 *)
   Run 1; Run 1;                           (* 1: lines 299 and 301 *)
   Run 0; Run 0; Run 1; Run 1]%nat.        (* both: lines 305 and 308 *)

(** Thread 2 tests [g_started] while thread 0 starts up and then stalls in
    front of line 299; thread 0 reaches its session. *)
Definition stalled_third : list decision :=
  [Arrive 0; Run 0; Run 0;                 (* 0: lines 293 and 299 *)
   Arrive 2; Run 2;                        (* 2 reads g_started = false *)
   Run 0; Run 0; Run 0]%nat.               (* 0: lines 301, 305 and 308 *)

(** Thread 1 is invoked while the instance of thread 0 is running. *)
Definition restart_arrives : list decision :=
  [Arrive 1; Run 1]%nat.                   (* 1 reads g_started = true *)

(** Thread 1 asks for the restart, thread 2 wakes up and runs line 299, and
    thread 1 takes the mutex at line 296. *)
Definition restart_overtakes : list decision :=
  [Run 1; Run 2; Run 1]%nat.

(** What every reachable state satisfies: the threads past an acquisition
    are exactly the owner of the mutex; [g_started] is set while an instance
    is running; a thread about to re-initialise the mutex is the only one
    alive; and no thread rests at line 293. *)
Record gate_invariant (s : state) : Prop := {
  gate_owner : forall t,
    past_acquisition (at_label s t) = true <-> g_started_mutex (mem s) = Some t;
  gate_started : forall t,
    running (at_label s t) = true -> g_started (mem s) = true;
  gate_alone : forall t u,
    at_label s t = L299 -> u <> t -> alive (at_label s u) = false;
  gate_tested : forall t, at_label s t <> L293
}.

End Restart.

(** ** What a session does between lines 310 and 377

    Between the reset of line 308 and the end of the session the program
    reaches the bridge state through these calls only, made from the worker
    thread or from the thread of the managed runtime. *)

Inductive session_call :=
| CallProcessEvents (self : pthread_t) (msec : Z)
| CallCondTimedWait
| CallLogMessage (self : pthread_t) (msg : string)
| CallWaitForFutureCompletion (fuel : nat) (self : pthread_t) (future : FutureBase).

(** Runs the calls in order and collects what each [ProcessEvents] call made
    directly by the session returned; the run ends where a call does not
    return. *)
Fixpoint run_session (P : Platform) (calls : list session_call) (w : World) : list bool :=
  match calls with
  | [] => []
  | CallProcessEvents self msec :: rest =>
      let (r, w') := ProcessEvents P self msec w in
      r :: run_session P rest w'
  | CallCondTimedWait :: rest => run_session P rest (cond_timedwait P w)
  | CallLogMessage self msg :: rest =>
      match LogMessage P self msg w with
      | Ret _ w' => run_session P rest w'
      | _ => []
      end
  | CallWaitForFutureCompletion fuel self future :: rest =>
      match WaitForFutureCompletion P fuel self future w with
      | Ret _ w' => run_session P rest w'
      | _ => []
      end
  end.

(** ** The rest of the two files

    [FindClass], [LoggingUtilsData::Init] and [common_main] talk to the Java
    runtime and to the advertising SDK through calls that [event] has no
    constructor for.  They run on a [Process]: the [World], and beside it the
    list of these further calls, each with the length the trace had when the
    call was made, which places it among the events of the trace. *)

Inductive Position :=
| kPositionTop
| kPositionBottom
| kPositionTopLeft
| kPositionTopRight
| kPositionBottomLeft
| kPositionBottomRight.

Inductive PresentationState :=
| kPresentationStateHidden
| kPresentationStateCoveringUI.

Definition PresentationState_eqb (a b : PresentationState) : bool :=
  match a, b with
  | kPresentationStateHidden, kPresentationStateHidden => true
  | kPresentationStateCoveringUI, kPresentationStateCoveringUI => true
  | _, _ => false
  end.

Inductive call :=
| JniFindClass (name : string)
| JniGetMethodID (cls : jclass) (name sig : string)
| JniGetStaticMethodID (cls : jclass) (name sig : string)
| JniCallObjectMethod (obj : jobject) (method : jmethodID) (args : list jobject)
| JniNewStringUTF (text : string)
| JniNewGlobalRef (ref : jobject)
| JniDeleteLocalRef (ref : jobject)
| JniCallInitLogWindow (cls : jclass) (method : jmethodID) (activity : jobject)
| SdkBannerMoveTo (position : Position)
| SdkBannerMoveToXY (x y : Z)
| SdkBannerHide
| SdkInterstitialSetListener
| SdkInterstitialInitialize (ctx : jobject) (ad_unit : string)
| SdkInterstitialLoadAd (request : option AdRequest)
| SdkInterstitialShow
| SdkBannerDelete (banner : Z)
| SdkInterstitialDelete (interstitial : Z)
| SdkAdmobTerminate
| SdkAppDelete (app : Z).

Record Process := {
  world : World;
  noted : list (nat * call)
}.

(** What the Java runtime answers: the value a JNI function returns and the
    exception it leaves pending, if any. *)
Record JavaRuntime := {
  find_class : string -> jclass * option string;
  get_method_id : jclass -> string -> string -> jmethodID * option string;
  get_static_method_id : jclass -> string -> string -> jmethodID * option string;
  call_object_method : jobject -> jmethodID -> list jobject -> jobject * option string;
  new_string_utf : string -> jobject;
  new_global_ref : jobject -> jobject;
  init_log_window_throws : option string
}.

(** What the advertising SDK answers to [common_main]: the future handed to
    its n-th wait, the interstitial it allocates, and the presentation state
    of that interstitial at a given time. *)
Record AdSdk := {
  wait_future : nat -> FutureBase;
  interstitial_new : Z;
  interstitial_presentation : nat -> PresentationState
}.

Inductive pres (A : Type) :=
| PRet (a : A) (p : Process)
| PStop (f : fault) (p : Process)
| PSpin.
Arguments PRet {A} a p.
Arguments PStop {A} f p.
Arguments PSpin {A}.

Definition PM (A : Type) := Process -> pres A.

Definition pret {A} (a : A) : PM A := fun p => PRet a p.

Definition pbind {A B} (m : PM A) (k : A -> PM B) : PM B :=
  fun p => match m p with
           | PRet a p' => k a p'
           | PStop f p' => PStop f p'
           | PSpin => PSpin
           end.

(** A call of the first part of the model, made from the second. *)
Definition lift {A} (m : M A) : PM A :=
  fun p => match m (world p) with
           | Ret a w => PRet a {| world := w; noted := noted p |}
           | Stop f w => PStop f {| world := w; noted := noted p |}
           | Spin => PSpin
           end.

Definition note (c : call) : PM unit :=
  fun p => PRet tt {| world := world p;
                      noted := noted p ++ [(length (trace (world p)), c)] |}.

Definition pstop {A} (f : fault) : PM A := fun p => PStop f p.

Definition passert (c : bool) : PM unit :=
  fun p => if c then PRet tt p else PStop AssertionFailed p.

Declare Scope process_scope.
Delimit Scope process_scope with process.
Notation "x <- m ;; k" := (pbind m (fun x => k))
  (at level 61, m at next level, right associativity) : process_scope.
Notation "m ;; k" := (pbind m (fun _ => k))
  (at level 61, right associativity) : process_scope.

(** A JNI function raises: the exception becomes pending unless one is
    pending already. *)
Definition jni_throw (exc : option string) (w : World) : World :=
  match jni_pending w with
  | Some _ => w
  | None => set_jni_pending exc w
  end.

Definition kInterstitialAdUnit : string := "ca-app-pub-3940256099942544/1033173712".

Section Rest.

Variable P : Platform.
Variable J : JavaRuntime.
Variable A : AdSdk.

Local Open Scope process_scope.

(** One call of a JNI function that may raise. *)
Definition jni (c : call) (exc : option string) : PM unit :=
  note c ;; lift (act (jni_throw exc)).

(** [if (env->ExceptionCheck()) { env->ExceptionClear(); ... }]: whether an
    exception was pending; it no longer is. *)
Definition clear_if_pending : PM bool :=
  pending <- lift (read jni_pending) ;;
  match pending with
  | Some _ =>
      lift (act (emit EvExceptionClear)) ;;
      lift (act (set_jni_pending None)) ;;
      pret true
  | None => pret false
  end.

(** [jclass FindClass(JNIEnv* env, jobject activity_object,
    const char* class_name)] *)
Definition FindClass (env : JNIEnv_ptr) (activity_object : jobject)
    (class_name : string) : PM jclass :=
  if is_null env then pstop NullDereference
  else
    let class_object := find_class J class_name in
    jni (JniFindClass class_name) (snd class_object) ;;
    not_found <- clear_if_pending ;;
    if not_found then
      let activity_class := find_class J "android/app/Activity" in
      jni (JniFindClass "android/app/Activity") (snd activity_class) ;;
      passert (negb (is_null (fst activity_class))) ;;
      let activity_get_class_loader :=
        get_method_id J (fst activity_class) "getClassLoader"
          "()Ljava/lang/ClassLoader;" in
      jni (JniGetMethodID (fst activity_class) "getClassLoader"
             "()Ljava/lang/ClassLoader;") (snd activity_get_class_loader) ;;
      passert (negb (is_null (fst activity_get_class_loader))) ;;
      let class_loader_object :=
        call_object_method J activity_object (fst activity_get_class_loader) [] in
      jni (JniCallObjectMethod activity_object (fst activity_get_class_loader) [])
          (snd class_loader_object) ;;
      passert (negb (is_null (fst class_loader_object))) ;;
      let class_loader_class := find_class J "java/lang/ClassLoader" in
      jni (JniFindClass "java/lang/ClassLoader") (snd class_loader_class) ;;
      passert (negb (is_null (fst class_loader_class))) ;;
      let class_loader_load_class :=
        get_method_id J (fst class_loader_class) "loadClass"
          "(Ljava/lang/String;)Ljava/lang/Class;" in
      jni (JniGetMethodID (fst class_loader_class) "loadClass"
             "(Ljava/lang/String;)Ljava/lang/Class;") (snd class_loader_load_class) ;;
      passert (negb (is_null (fst class_loader_load_class))) ;;
      let class_name_object := new_string_utf J class_name in
      note (JniNewStringUTF class_name) ;;
      passert (negb (is_null class_name_object)) ;;
      let loaded :=
        call_object_method J (fst class_loader_object)
          (fst class_loader_load_class) [class_name_object] in
      jni (JniCallObjectMethod (fst class_loader_object)
             (fst class_loader_load_class) [class_name_object]) (snd loaded) ;;
      passert (negb (is_null (fst loaded))) ;;
      failed <- clear_if_pending ;;
      note (JniDeleteLocalRef class_name_object) ;;
      note (JniDeleteLocalRef (fst class_loader_object)) ;;
      pret (if failed then nullptr else fst loaded)
    else pret (fst class_object).

(** [void LoggingUtilsData::Init()]; the result is the object as [Init]
    leaves it. *)
Definition LoggingUtilsData_Init (self : pthread_t) : PM LoggingUtilsData :=
  lift (LogMessage P self "get env") ;;
  env <- lift (GetJniEnv P self) ;;
  passert (negb (is_null env)) ;;
  lift (LogMessage P self "find logging utils") ;;
  activity <- lift (GetActivityM self) ;;
  logging_utils_class <-
    FindClass env activity "com/google/firebase/example/LoggingUtils" ;;
  lift (CheckJNIException P self) ;;
  passert (negb (is_null logging_utils_class)) ;;
  lift (LogMessage P self "reference class") ;;
  let class_ := new_global_ref J logging_utils_class in
  note (JniNewGlobalRef logging_utils_class) ;;
  note (JniDeleteLocalRef logging_utils_class) ;;
  lift (LogMessage P self "get init log window") ;;
  let init_log_window :=
    get_static_method_id J class_ "initLogWindow" "(Landroid/app/Activity;)V" in
  jni (JniGetStaticMethodID class_ "initLogWindow" "(Landroid/app/Activity;)V")
      (snd init_log_window) ;;
  lift (LogMessage P self "get add log text") ;;
  let add_log_text :=
    get_static_method_id J class_ "addLogText" "(Ljava/lang/String;)V" in
  jni (JniGetStaticMethodID class_ "addLogText" "(Ljava/lang/String;)V")
      (snd add_log_text) ;;
  lift (LogMessage P self "call init") ;;
  activity <- lift (GetActivityM self) ;;
  jni (JniCallInitLogWindow class_ (fst init_log_window) activity)
      (init_log_window_throws J) ;;
  pret {| logging_utils_class_ := class_;
          logging_utils_add_log_text_ := fst add_log_text;
          logging_utils_init_log_window_ := fst init_log_window |}.

(** Lines 313 to 317 of [android_main]. *)
Definition create_logging_display (self : pthread_t) : PM unit :=
  logging_utils_data <- LoggingUtilsData_Init self ;;
  lift (act (set_logging_utils_data (Some logging_utils_data))).

(** [while (interstitial->GetPresentationState() != kPresentationStateHidden)
    { ProcessEvents(1000); }] *)
Fixpoint wait_until_hidden (fuel : nat) (self : pthread_t) (w : World) : res unit :=
  match fuel with
  | O => Spin
  | S fuel' =>
      if negb (PresentationState_eqb (interstitial_presentation A (clock w))
                 kPresentationStateHidden)
      then wait_until_hidden fuel' self (snd (ProcessEvents P self 1000 w))
      else Ret tt w
  end.

(** The n-th [WaitForFutureCompletion] of [common_main]. *)
Definition wait (fuel : nat) (self : pthread_t) (n : nat) : PM unit :=
  lift (WaitForFutureCompletion P fuel self (wait_future A n)).

Definition log (self : pthread_t) (msg : string) : PM unit :=
  lift (LogMessage P self msg).

(** [extern "C" int common_main(int argc, const char* argv[])] *)
Definition common_main (fuel : nat) (self : pthread_t) : PM Z :=
  log self "Initializing the AdMob library." ;;
  lift (InitializeFirebase P fuel self) ;;
  banner <- lift (read g_banner) ;;
  (if is_null banner then pstop NullDereference else pret tt) ;;
  wait fuel self 0 ;;
  log self "Moving the banner ad to top-center." ;;
  note (SdkBannerMoveTo kPositionTop) ;;
  log self "Moving the banner ad to top-center." ;;
  note (SdkBannerMoveTo kPositionTop) ;;
  wait fuel self 1 ;;
  log self "Moving the banner ad to top-left." ;;
  note (SdkBannerMoveTo kPositionTopLeft) ;;
  wait fuel self 2 ;;
  log self "Moving the banner ad to top-right." ;;
  note (SdkBannerMoveTo kPositionTopRight) ;;
  wait fuel self 3 ;;
  log self "Moving the banner ad to bottom-center." ;;
  note (SdkBannerMoveTo kPositionBottom) ;;
  wait fuel self 4 ;;
  log self "Moving the banner ad to bottom-left." ;;
  note (SdkBannerMoveTo kPositionBottomLeft) ;;
  wait fuel self 5 ;;
  log self "Moving the banner ad to bottom-right." ;;
  note (SdkBannerMoveTo kPositionBottomRight) ;;
  wait fuel self 6 ;;
  log self "Moving the banner ad to (100, 300)." ;;
  note (SdkBannerMoveToXY 100 300) ;;
  wait fuel self 7 ;;
  log self "Moving the banner ad to (100, 400)." ;;
  note (SdkBannerMoveToXY 100 400) ;;
  wait fuel self 8 ;;
  log self "Hiding the banner ad." ;;
  note SdkBannerHide ;;
  wait fuel self 9 ;;
  log self "Showing the banner ad." ;;
  lift (act (emit EvBannerShow)) ;;
  wait fuel self 10 ;;
  log self "Moving the banner ad to (100, 300)." ;;
  note (SdkBannerMoveToXY 100 300) ;;
  wait fuel self 11 ;;
  log self "Moving the banner ad to (100, 400)." ;;
  note (SdkBannerMoveToXY 100 400) ;;
  wait fuel self 12 ;;
  log self "Hiding the banner ad now that we're done with it." ;;
  note SdkBannerHide ;;
  wait fuel self 13 ;;
  log self "Creating the InterstitialAd." ;;
  let interstitial := interstitial_new A in
  note SdkInterstitialSetListener ;;
  ctx <- lift (GetWindowContextM self) ;;
  note (SdkInterstitialInitialize ctx kInterstitialAdUnit) ;;
  wait fuel self 14 ;;
  log self "Loading an interstitial ad." ;;
  request <- lift (read g_request) ;;
  note (SdkInterstitialLoadAd request) ;;
  wait fuel self 15 ;;
  log self "Showing the interstitial ad." ;;
  note SdkInterstitialShow ;;
  wait fuel self 16 ;;
  lift (wait_until_hidden fuel self) ;;
  log self "Done!" ;;
  lift (common_main_wait_for_kill P fuel self) ;;
  banner <- lift (read g_banner) ;;
  note (SdkBannerDelete banner) ;;
  lift (act (set_banner nullptr)) ;;
  note (SdkInterstitialDelete interstitial) ;;
  note SdkAdmobTerminate ;;
  app <- lift (read g_app) ;;
  note (SdkAppDelete app) ;;
  lift (act (set_app nullptr)) ;;
  pret 0.

(** [android_main] from line 303 on, that is once the started mutex is
    taken. *)
Definition android_main_session (fuel : nat) (self : pthread_t)
    (state : android_app) : PM unit :=
  lift (act (android_main_enter self state)) ;;
  create_logging_display self ;;
  log self "Logging display up" ;;
  lift (wait_for_nativeInit P fuel self) ;;
  common_main fuel self ;;
  lift (android_main_leave P self state).

End Rest.

(** ** Specifications of calls

    [spec Pre m Post Err]: started in a world satisfying [Pre], the call [m]
    either returns a value and a world satisfying [Post], or stops the
    process in a world satisfying [Err], or is still running when the fuel is
    spent.  [pspec] is the same for calls on a [Process]. *)

Definition spec {A} (Pre : World -> Prop) (m : M A)
    (Post : A -> World -> Prop) (Err : World -> Prop) : Prop :=
  forall w, Pre w ->
    match m w with
    | Ret a w' => Post a w'
    | Stop _ w' => Err w'
    | Spin => True
    end.

Definition ensures {A} (I : World -> Prop) (m : M A) : Prop :=
  spec I m (fun _ => I) I.

Definition pspec {A} (Pre : Process -> Prop) (m : PM A)
    (Post : A -> Process -> Prop) (Err : Process -> Prop) : Prop :=
  forall p, Pre p ->
    match m p with
    | PRet a p' => Post a p'
    | PStop _ p' => Err p'
    | PSpin => True
    end.

Definition pensures {A} (I : Process -> Prop) (m : PM A) : Prop :=
  pspec I m (fun _ => I) I.

(** The call needs no fuel: it returns or stops. *)
Definition halts {A} (m : M A) : Prop := forall w, m w <> Spin.

(** [total Pre m Post Err]: started in a world satisfying [Pre], the call [m]
    returns a value and a world satisfying [Post] or stops with a fault and a
    world satisfying [Err]; it does not run out of fuel.  [ptotal] is the
    same for calls on a [Process]. *)
Definition total {A} (Pre : World -> Prop) (m : M A)
    (Post : A -> World -> Prop) (Err : fault -> World -> Prop) : Prop :=
  forall w, Pre w ->
    match m w with
    | Ret a w' => Post a w'
    | Stop f w' => Err f w'
    | Spin => False
    end.

Definition ptotal {A} (Pre : Process -> Prop) (m : PM A)
    (Post : A -> Process -> Prop) (Err : fault -> Process -> Prop) : Prop :=
  forall p, Pre p ->
    match m p with
    | PRet a p' => Post a p'
    | PStop f p' => Err f p'
    | PSpin => False
    end.

(** The events the logging sink can emit, and those [ProcessEvents] can. *)
Definition sink_event (e : event) : Prop :=
  match e with
  | EvAndroidLog _ | EvAttachCurrentThread | EvAddLogText _ _ _
  | EvExceptionClear => True
  | _ => False
  end.

Definition pump_event (e : event) : Prop :=
  match e with
  | EvUsleep _ | EvPollAll _ | EvSourceProcess _ => True
  | _ => False
  end.

(** An invariant that survives the emission of the events in [E] and the
    bookkeeping of the model. *)
Record stable_for (P : Platform) (E : event -> Prop) (I : World -> Prop) : Prop := {
  sf_emit : forall e w, E e -> I w -> I (emit e w);
  sf_jni_pending : forall v w, I w -> I (set_jni_pending v w);
  sf_jni_call : forall w, I w -> I (count_jni_call w);
  sf_suspend : forall w, I w -> I (suspend P w);
  sf_OnAppCmd : forall cmd w, I w -> I (OnAppCmd cmd w)
}.

(** The trace is [tr0] followed by events that all satisfy [Q]. *)
Definition grown (tr0 : list event) (Q : event -> Prop) (w : World) : Prop :=
  exists evs, trace w = tr0 ++ evs /\ Forall Q evs.

(** ** Vocabulary of the statements *)

(** What a call of [ProcessEvents] never touches. *)
Definition same_handles (w w' : World) : Prop :=
  g_app_state w' = g_app_state w
  /\ g_main_thread w' = g_main_thread w
  /\ g_logging_utils_data w' = g_logging_utils_data w
  /\ g_initialized w' = g_initialized w
  /\ g_started w' = g_started w
  /\ g_jni_env w' = g_jni_env w
  /\ g_activity w' = g_activity w
  /\ g_app w' = g_app w
  /\ g_banner w' = g_banner w
  /\ g_request w' = g_request w
  /\ jni_pending w' = jni_pending w
  /\ jni_calls w' = jni_calls w.

(** The calls the destructor of [LoggingUtilsData] makes on the main thread. *)
Definition logging_teardown (data : option LoggingUtilsData) : list event :=
  match data with
  | Some d =>
      EvAttachCurrentThread ::
      (if is_null (logging_utils_class_ d) then []
       else [EvDeleteGlobalRef (logging_utils_class_ d)])
  | None => []
  end.

(** Line 374. *)
Definition finish_unless_restarted (restarted : bool) (state : android_app) : list event :=
  if restarted then [] else [EvNativeActivityFinish (activity state)].

(** A call keeps an invariant of the world whenever it returns. *)
Definition preserves {A} (I : World -> Prop) (m : M A) : Prop :=
  forall w, I w -> match m w with
                   | Ret _ w' => I w'
                   | Stop _ _ | Spin => True
                   end.

(** An invariant that none of the bookkeeping updates of the model breaks. *)
Record stable (P : Platform) (I : World -> Prop) : Prop := {
  stable_emit : forall e w, I w -> I (emit e w);
  stable_jni_pending : forall v w, I w -> I (set_jni_pending v w);
  stable_jni_call : forall w, I w -> I (count_jni_call w);
  stable_suspend : forall w, I w -> I (suspend P w);
  stable_OnAppCmd : forall cmd w, I w -> I (OnAppCmd cmd w)
}.

(** The destroy request has been observed. *)
Definition destroy_seen (w : World) : Prop := g_destroy_requested w = true.

(** The poll hands the main thread the command source with a destroy
    command to read. *)
Definition delivers_destroy (r : poll_result) : bool :=
  match source r with
  | Some (CmdSource cmd) => (0 <=? looperId r) && (cmd =? APP_CMD_DESTROY)
  | _ => false
  end.

(** The state in which the worker thread waits for [nativeInit]: it is the
    main thread of a session with the callback of line 310 installed, and
    neither early initialisation nor a destroy or restart request has been
    seen. *)
Definition waiting (self : pthread_t) (w : World) : Prop :=
  self = g_main_thread w
  /\ (exists app, g_app_state w = Some app /\ onAppCmd app = Some Cb_OnAppCmd)
  /\ g_initialized w = false
  /\ g_destroy_requested w = false
  /\ g_restarted w = false.

(** The world after [k] consecutive calls of [ProcessEvents(1000)]. *)
Fixpoint pump (P : Platform) (self : pthread_t) (k : nat) (w : World) : World :=
  match k with
  | O => w
  | S k' => pump P self k' (snd (ProcessEvents P self 1000 w))
  end.

(** Whether the iteration of the loop of [WaitForFutureCompletion] that
    starts in [w] is the last: [ProcessEvents] reports termination, or the
    future is no longer pending when its status is read. *)
Definition last_iteration (P : Platform) (self : pthread_t) (future : FutureBase)
    (w : World) : bool :=
  fst (ProcessEvents P self 1000 w)
  || negb (FutureStatus_eqb
             (Status future (clock (snd (ProcessEvents P self 1000 w))))
             kFutureStatusPending).

Definition emit_all (evs : list event) (w : World) : World :=
  fold_left (fun w e => emit e w) evs w.

(** What a call of [nativeInit] adds to the trace once Firebase is
    initialised. *)
Definition early_init_again : list event :=
  [EvAndroidLog "Early init called."; EvMutexLock init_mutex;
   EvMutexUnlock init_mutex; EvAndroidLog "Early init complete"; EvCondSignal].

(** Counting calls in a trace. *)
Definition is_cond_signal (e : event) : bool :=
  match e with EvCondSignal => true | _ => false end.

Definition is_app_create (e : event) : bool :=
  match e with EvAppCreate _ _ => true | _ => false end.

Definition count_events (p : event -> bool) (l : list event) : nat :=
  length (filter p l).

(** What the system log receives from a call of [LogMessage] made in [w]:
    the format when there is no argument to read, otherwise the platform's
    reading of the spent [va_list]; [None] when that read faults. *)
Definition system_log_entry (P : Platform) (format : string)
    (args : list fmt_arg) (w : World) : option string :=
  match args with
  | [] => Some format
  | _ :: _ => log_vprint_spent P (length (trace w)) format args
  end.

(** The platform's [__android_log_vprint] returns when it is handed a spent
    [va_list]: it writes some entry and does not fault. *)
Definition vprint_returns (P : Platform) : Prop :=
  forall position format args, log_vprint_spent P position format args <> None.

(** Neither a signal of [g_init_cond] nor a creation of the Firebase app. *)
Definition plain (e : event) : Prop :=
  is_cond_signal e = false /\ is_app_create e = false.

(** Since the trace was [tr0], the process has signalled [g_init_cond]
    [signals] times and called [firebase::App::Create] [creates] times. *)
Definition counted (tr0 : list event) (signals creates : nat) (w : World) : Prop :=
  exists evs,
    trace w = tr0 ++ evs
    /\ count_events is_cond_signal evs = signals
    /\ count_events is_app_create evs = creates.

(** From time [T] on the future is no longer pending. *)
Definition resolves_by (future : FutureBase) (T : nat) : Prop :=
  forall t, (T <= t)%nat -> Status future t <> kFutureStatusPending.

(** [w'] is [w] after calls that leave the handles alone and reach the
    platform with plain calls only. *)
Definition advanced (w w' : World) : Prop :=
  same_handles w w'
  /\ exists evs, trace w' = trace w ++ evs /\ Forall plain evs.

(** A Java runtime in which a function that raises returns null, as the JNI
    specification has it for the functions [FindClass] calls. *)
Record raises_null (J : JavaRuntime) : Prop := {
  find_class_raises_null : forall name,
    snd (find_class J name) <> None -> fst (find_class J name) = nullptr;
  get_method_id_raises_null : forall cls name sig,
    snd (get_method_id J cls name sig) <> None ->
    fst (get_method_id J cls name sig) = nullptr;
  call_object_method_raises_null : forall obj method args,
    snd (call_object_method J obj method args) <> None ->
    fst (call_object_method J obj method args) = nullptr
}.

(** The statics of the two files are in [w'] as they are in [w]. *)
Definition same_statics (w w' : World) : Prop :=
  g_app_state w' = g_app_state w
  /\ g_destroy_requested w' = g_destroy_requested w
  /\ g_started w' = g_started w
  /\ g_restarted w' = g_restarted w
  /\ g_jni_env w' = g_jni_env w
  /\ g_activity w' = g_activity w
  /\ g_main_thread w' = g_main_thread w
  /\ g_initialized w' = g_initialized w
  /\ g_logging_utils_data w' = g_logging_utils_data w
  /\ g_app w' = g_app w
  /\ g_banner w' = g_banner w
  /\ g_request w' = g_request w.

Definition is_exception_clear (e : event) : Prop := e = EvExceptionClear.

Definition no_exception (p : Process) : Prop := jni_pending (world p) = None.

(** How [FindClass] can stop: at one of its asserts, or at its first line
    when [env] is null. *)
Definition FindClass_fault (I : World -> Prop) (env : JNIEnv_ptr)
    (f : fault) (p : Process) : Prop :=
  I (world p) /\ (f = AssertionFailed \/ (f = NullDereference /\ env = nullptr)).

(** The messages of [LoggingUtilsData::Init], and the events it can emit
    while [g_logging_utils_data] is null. *)
Definition init_messages : list string :=
  ["get env"; "find logging utils"; "reference class"; "get init log window";
   "get add log text"; "call init"]%string.

Definition init_event (e : event) : Prop :=
  match e with
  | EvAndroidLog msg => In msg init_messages
  | EvAttachCurrentThread | EvExceptionClear => True
  | _ => False
  end.

(** While the log window is built: [g_logging_utils_data] is still null and
    the trace has grown from [tr0] by events of [Init] only. *)
Definition building (tr0 : list event) (w : World) : Prop :=
  g_logging_utils_data w = None /\ grown tr0 init_event w.

(** The thread [self] is the main thread of a session whose log view is
    [data], with [pending] as the pending Java exception. *)
Definition in_session (self : pthread_t) (app : android_app)
    (data : option LoggingUtilsData) (pending : option string) (w : World) : Prop :=
  g_main_thread w = self
  /\ g_app_state w = Some app
  /\ g_logging_utils_data w = data
  /\ jni_pending w = pending.



(** The exception that stays pending when a second one is raised. *)
Definition first_raised (pending exc : option string) : option string :=
  match pending with
  | Some _ => pending
  | None => exc
  end.

(** The exception that is pending when [LoggingUtilsData::Init] returns: the
    first one raised by the two [GetStaticMethodID] calls and the call of
    [initLogWindow], none of which is followed by a check. *)
Definition Init_exception (J : JavaRuntime) (class_ : jclass) : option string :=
  match snd (get_static_method_id J class_ "initLogWindow"
               "(Landroid/app/Activity;)V") with
  | Some exc => Some exc
  | None =>
      match snd (get_static_method_id J class_ "addLogText"
                   "(Ljava/lang/String;)V") with
      | Some exc => Some exc
      | None => init_log_window_throws J
      end
  end.

(** The events of the demonstration once Firebase is initialised. *)
Definition demo_event (e : event) : Prop :=
  sink_event e \/ pump_event e \/ e = EvBannerShow.


(** ** Concrete platforms and worlds, for running the model *)

Definition ALOOPER_POLL_TIMEOUT : Z := -3.
Definition LOOPER_ID_MAIN : Z := 1.

Definition resolved_future : FutureBase :=
  {| Status := fun _ => kFutureStatusComplete;
     Error := fun _ => kAdMobErrorNone;
     ErrorMessage := fun _ => EmptyString |}.

(** A platform on which nothing happens: every poll times out, nobody
    restarts or initialises, Java never throws. *)
Definition quiet_platform : Platform :=
  {| poll := fun _ => {| looperId := ALOOPER_POLL_TIMEOUT; source := None |};
     restart_signal := fun _ => false;
     early_init_signal := fun _ => false;
     realtime := fun t => (1700000000, 995000000);
     attach_ok := true;
     attach_env := 4096;
     add_log_text_throws := fun _ => None;
     app_create := 8192;
     banner_new := 12288;
     banner_InitializeLastResult := resolved_future;
     banner_ShowLastResult := resolved_future;
     log_vprint_spent := fun _ format args => Some (format_message format args) |}.

Definition APP_CMD_START : Z := 10.

(** The platform of a short-lived activity: the looper hands over a start
    command on the first poll and the destroy command on the third. *)
Definition destroying_platform : Platform :=
  {| poll := fun t =>
       match t with
       | 0%nat => {| looperId := LOOPER_ID_MAIN; source := Some (CmdSource APP_CMD_START) |}
       | 2%nat => {| looperId := LOOPER_ID_MAIN; source := Some (CmdSource APP_CMD_DESTROY) |}
       | _ => {| looperId := ALOOPER_POLL_TIMEOUT; source := None |}
       end;
     restart_signal := fun _ => false;
     early_init_signal := fun _ => false;
     realtime := fun t => (1700000000, 995000000);
     attach_ok := true;
     attach_env := 4096;
     add_log_text_throws := fun _ => None;
     app_create := 8192;
     banner_new := 12288;
     banner_InitializeLastResult := resolved_future;
     banner_ShowLastResult := resolved_future;
     log_vprint_spent := fun _ format args => Some (format_message format args) |}.

Definition worker_thread : pthread_t := 41.
Definition ui_thread : pthread_t := 7.

Definition sample_state : android_app :=
  {| activity := {| clazz := 500; vm := 600 |}; onAppCmd := None |}.

(** The world right after line 310 of the first session. *)
Definition session_world : World :=
  android_main_enter worker_thread sample_state initial_world.

(** A platform whose log view throws on the first line it is given. *)
Definition throwing_platform : Platform :=
  {| poll := fun _ => {| looperId := ALOOPER_POLL_TIMEOUT; source := None |};
     restart_signal := fun _ => false;
     early_init_signal := fun _ => false;
     realtime := fun t => (1700000000, 995000000);
     attach_ok := true;
     attach_env := 4096;
     add_log_text_throws := fun n =>
       match n with
       | 0%nat => Some "java.lang.IllegalStateException"%string
       | _ => None
       end;
     app_create := 8192;
     banner_new := 12288;
     banner_InitializeLastResult := resolved_future;
     banner_ShowLastResult := resolved_future;
     log_vprint_spent := fun _ format args => Some (format_message format args) |}.

Definition sample_logging_utils : LoggingUtilsData :=
  {| logging_utils_class_ := 900;
     logging_utils_add_log_text_ := 901;
     logging_utils_init_log_window_ := 902 |}.

(** The world right after line 316 of the first session. *)
Definition logging_world : World :=
  set_logging_utils_data (Some sample_logging_utils) session_world.

(** The calls [CheckJNIException] makes once it has found an exception. *)
Definition surfaced (text : string) : list event :=
  [EvExceptionClear;
   EvAndroidLog "-------------------JNI exception:";
   EvAndroidLog text;
   EvAndroidLog "-------------------"].

(** A load that fails after two seconds: pending at the first two status
    reads, then complete with an error. *)
Definition failed_future : FutureBase :=
  {| Status := fun t => if Nat.ltb t 3 then kFutureStatusPending else kFutureStatusComplete;
     Error := fun t => if Nat.ltb t 3 then 0 else 3;
     ErrorMessage := fun t => if Nat.ltb t 3 then EmptyString else "No fill"%string |}.

(** [nativeInit] completes during the second timed wait. *)
Definition initialising_platform : Platform :=
  {| poll := fun _ => {| looperId := ALOOPER_POLL_TIMEOUT; source := None |};
     restart_signal := fun _ => false;
     early_init_signal := fun t => Nat.eqb t 2;
     realtime := fun t => (1700000000, 995000000);
     attach_ok := true;
     attach_env := 4096;
     add_log_text_throws := fun _ => None;
     app_create := 8192;
     banner_new := 12288;
     banner_InitializeLastResult := resolved_future;
     banner_ShowLastResult := resolved_future;
     log_vprint_spent := fun _ format args => Some (format_message format args) |}.

(** The Java VM refuses to attach the thread. *)
Definition detached_platform : Platform :=
  {| poll := fun _ => {| looperId := ALOOPER_POLL_TIMEOUT; source := None |};
     restart_signal := fun _ => false;
     early_init_signal := fun _ => false;
     realtime := fun t => (1700000000, 995000000);
     attach_ok := false;
     attach_env := 4096;
     add_log_text_throws := fun _ => None;
     app_create := 8192;
     banner_new := 12288;
     banner_InitializeLastResult := resolved_future;
     banner_ShowLastResult := resolved_future;
     log_vprint_spent := fun _ format args => Some (format_message format args) |}.

(** [firebase::App::Create] fails. *)
Definition appless_platform : Platform :=
  {| poll := fun _ => {| looperId := ALOOPER_POLL_TIMEOUT; source := None |};
     restart_signal := fun _ => false;
     early_init_signal := fun _ => false;
     realtime := fun t => (1700000000, 995000000);
     attach_ok := true;
     attach_env := 4096;
     add_log_text_throws := fun _ => None;
     app_create := nullptr;
     banner_new := 12288;
     banner_InitializeLastResult := resolved_future;
     banner_ShowLastResult := resolved_future;
     log_vprint_spent := fun _ format args => Some (format_message format args) |}.

(** A platform on which the read of a spent [va_list] faults. *)
Definition unreadable_platform : Platform :=
  {| poll := fun _ => {| looperId := ALOOPER_POLL_TIMEOUT; source := None |};
     restart_signal := fun _ => false;
     early_init_signal := fun _ => false;
     realtime := fun t => (1700000000, 995000000);
     attach_ok := true;
     attach_env := 4096;
     add_log_text_throws := fun _ => None;
     app_create := 8192;
     banner_new := 12288;
     banner_InitializeLastResult := resolved_future;
     banner_ShowLastResult := resolved_future;
     log_vprint_spent := fun _ _ _ => None |}.


Definition logging_utils_name : string := "com/google/firebase/example/LoggingUtils".

(** A runtime whose class path has only system classes, as under
    NativeActivity: the first lookup of the logging class raises and the
    class loader of the activity finds it. *)
Definition fallback_java : JavaRuntime :=
  {| find_class := fun name =>
       if String.eqb name logging_utils_name
       then (nullptr, Some "java.lang.ClassNotFoundException"%string)
       else (700, None);
     get_method_id := fun _ _ _ => (710, None);
     get_static_method_id := fun _ _ _ => (720, None);
     call_object_method := fun _ _ _ => (730, None);
     new_string_utf := fun _ => 740;
     new_global_ref := fun ref => ref + 1;
     init_log_window_throws := None |}.

(** A runtime that finds every class, and whose [initLogWindow] throws. *)
Definition windowless_java : JavaRuntime :=
  {| find_class := fun _ => (700, None);
     get_method_id := fun _ _ _ => (710, None);
     get_static_method_id := fun _ _ _ => (720, None);
     call_object_method := fun _ _ _ => (730, None);
     new_string_utf := fun _ => 740;
     new_global_ref := fun ref => ref + 1;
     init_log_window_throws := Some "java.lang.RuntimeException"%string |}.

(** An interstitial that is closed at once, and one that never is. *)
Definition closing_sdk : AdSdk :=
  {| wait_future := fun _ => resolved_future;
     interstitial_new := 16384;
     interstitial_presentation := fun _ => kPresentationStateHidden |}.

Definition covering_sdk : AdSdk :=
  {| wait_future := fun _ => resolved_future;
     interstitial_new := 16384;
     interstitial_presentation := fun _ => kPresentationStateCoveringUI |}.

Definition fresh_process : Process := {| world := initial_world; noted := [] |}.

(** The first session right after line 310. *)
Definition session_process : Process := {| world := session_world; noted := [] |}.

(** The first session when [nativeInit] has run: the log view is up, the
    Firebase app and the banner view exist. *)
Definition initialised_world : World :=
  set_request (Some sample_request)
    (set_banner 12288 (set_app 8192 (set_initialized true logging_world))).

Definition initialised_process : Process :=
  {| world := initialised_world; noted := [] |}.


(** * Properties *)

(** ** ProcessEvents *)

Lemma pthread_equal_true (a b : pthread_t) : pthread_equal a b = true <-> a = b.
Proof. unfold pthread_equal. apply Z.eqb_eq. Qed.

Lemma pthread_equal_false (a b : pthread_t) : pthread_equal a b = false <-> a <> b.
Proof. unfold pthread_equal. apply Z.eqb_neq. Qed.

Lemma pthread_equal_refl (a : pthread_t) : pthread_equal a a = true.
Proof. apply pthread_equal_true. reflexivity. Qed.

Lemma useconds_exact (msec : Z) :
  0 <= msec <= 2147483 -> useconds (1000 * msec) = 1000 * msec.
Proof. intros H. unfold useconds. apply Z.mod_small. lia. Qed.

(** Off the main thread the call is a sleep: nothing else reaches the
    platform and only the clock and the restart request move. *)
Lemma ProcessEvents_off_main (P : Platform) (self : pthread_t) (msec : Z) (w : World) :
  self <> g_main_thread w ->
  ProcessEvents P self msec w =
    (g_destroy_requested w || (g_restarted w || restart_signal P (clock w)),
     suspend P (emit (EvUsleep (useconds (1000 * msec))) w)).
Proof.
  intros H. unfold ProcessEvents.
  assert (E : pthread_equal (g_main_thread w) self = false)
    by (apply pthread_equal_false; congruence).
  rewrite E. reflexivity.
Qed.

(** C2: a call of [ProcessEvents(msec)] made off the canonical main thread
    polls and dispatches nothing, sleeps [1000 * msec] microseconds (the
    given timeout, for every [msec] whose product fits the argument of
    [usleep]), and returns true exactly when the destroy-requested flag or
    the restarted flag is set. *)
Theorem ProcessEvents_off_main_thread_sleeps
    (P : Platform) (self : pthread_t) (msec : Z) (w : World) :
  self <> g_main_thread w ->
  let r := fst (ProcessEvents P self msec w) in
  let w' := snd (ProcessEvents P self msec w) in
  trace w' = trace w ++ [EvUsleep (useconds (1000 * msec))]
  /\ (0 <= msec <= 2147483 -> useconds (1000 * msec) = 1000 * msec)
  /\ (r = true <-> g_destroy_requested w' = true \/ g_restarted w' = true)
  /\ g_destroy_requested w' = g_destroy_requested w.
Proof.
  intros H. cbv zeta. rewrite (ProcessEvents_off_main P self msec w H). cbn.
  repeat split.
  - apply useconds_exact.
  - intros E. apply orb_true_iff in E. exact E.
  - intros E. apply orb_true_iff. exact E.
Qed.

Lemma ProcessEvents_off_main_thread_sleeps_witness :
  trace (snd (ProcessEvents quiet_platform 7 10 initial_world)) = [EvUsleep 10000]
  /\ fst (ProcessEvents quiet_platform 7 10 initial_world) = false.
Proof.
  pose proof (ProcessEvents_off_main_thread_sleeps quiet_platform 7 10 initial_world) as H.
  cbv zeta in H. destruct H as (Ht & Hu & Hr & _).
  - cbn. lia.
  - split.
    + rewrite Ht, Hu by lia. reflexivity.
    + reflexivity.
Defined.

(** On the main thread the call is one poll, followed by the dispatch of the
    source the poll handed back, if it handed one back. *)
Lemma ProcessEvents_on_main (P : Platform) (msec : Z) (w : World) :
  ProcessEvents P (g_main_thread w) msec w =
    let r := poll P (clock w) in
    let w1 := suspend P (emit (EvPollAll msec) w) in
    let w2 := match source r with
              | Some src =>
                  if 0 <=? looperId r
                  then source_process (g_app_state w1) src (emit (EvSourceProcess src) w1)
                  else w1
              | None => w1
              end in
    (g_destroy_requested w2 || g_restarted w2, w2).
Proof. unfold ProcessEvents. rewrite pthread_equal_refl. reflexivity. Qed.

Lemma source_process_trace (app : option android_app) (src : android_poll_source) (w : World) :
  trace (source_process app src w) = trace w.
Proof.
  destruct src as [cmd|]; cbn; [|reflexivity].
  destruct app as [a|]; [|reflexivity].
  destruct (onAppCmd a) as [[]|]; reflexivity.
Qed.

(** C3: a call of [ProcessEvents(msec)] made on the canonical main thread
    polls the looper once, with timeout [msec]; when the poll hands back a
    ready source (an identifier that is not negative and a source pointer
    that is not null) it dispatches that source and no other, otherwise it
    dispatches nothing; and it returns true exactly when the
    destroy-requested flag or the restarted flag is set on return. *)
Theorem ProcessEvents_main_thread_dispatches_one
    (P : Platform) (self : pthread_t) (msec : Z) (w : World) :
  self = g_main_thread w ->
  let r := fst (ProcessEvents P self msec w) in
  let w' := snd (ProcessEvents P self msec w) in
  (forall src, source (poll P (clock w)) = Some src -> 0 <= looperId (poll P (clock w)) ->
     trace w' = trace w ++ [EvPollAll msec; EvSourceProcess src])
  /\ (source (poll P (clock w)) = None \/ looperId (poll P (clock w)) < 0 ->
     trace w' = trace w ++ [EvPollAll msec])
  /\ (r = true <-> g_destroy_requested w' = true \/ g_restarted w' = true).
Proof.
  intros ->. cbv zeta. rewrite ProcessEvents_on_main. cbv zeta.
  cbn [fst snd]. split; [|split].
  - intros src Hs Hid. rewrite Hs.
    apply Z.leb_le in Hid. rewrite Hid.
    rewrite source_process_trace. cbn. rewrite <- app_assoc. reflexivity.
  - intros [Hs | Hid].
    + rewrite Hs. reflexivity.
    + apply Z.leb_gt in Hid. rewrite Hid.
      destruct (source (poll P (clock w))); reflexivity.
  - rewrite orb_true_iff. reflexivity.
Qed.

Lemma ProcessEvents_main_thread_dispatches_one_witness :
  trace (snd (ProcessEvents destroying_platform worker_thread 10 session_world))
    = [EvPollAll 10; EvSourceProcess (CmdSource APP_CMD_START)]
  /\ fst (ProcessEvents destroying_platform worker_thread 10 session_world) = false.
Proof.
  pose proof (ProcessEvents_main_thread_dispatches_one
                destroying_platform worker_thread 10 session_world) as H.
  cbv zeta in H. destruct H as (Hready & _ & _).
  - reflexivity.
  - split.
    + apply (Hready (CmdSource APP_CMD_START)).
      * reflexivity.
      * cbv. discriminate.
    + reflexivity.
Defined.

(** ** GetActivity and GetWindowContext *)

Lemma GetJniEnv_off_main (P : Platform) (self : pthread_t) (w : World) :
  self <> g_main_thread w -> GetJniEnv P self w = Ret (g_jni_env w) w.
Proof.
  intros H. unfold GetJniEnv.
  assert (E : pthread_equal (g_main_thread w) self = false)
    by (apply pthread_equal_false; congruence).
  rewrite E. reflexivity.
Qed.

Lemma GetActivity_off_main (self : pthread_t) (w : World) :
  self <> g_main_thread w -> GetActivity self w = Some (g_activity w).
Proof.
  intros H. unfold GetActivity.
  assert (E : pthread_equal (g_main_thread w) self = false)
    by (apply pthread_equal_false; congruence).
  rewrite E. reflexivity.
Qed.

Lemma GetActivityM_off_main (self : pthread_t) (w : World) :
  self <> g_main_thread w -> GetActivityM self w = Ret (g_activity w) w.
Proof.
  intros H. unfold GetActivityM. rewrite GetActivity_off_main by assumption.
  reflexivity.
Qed.


(** ** Invariants carried through calls *)

Lemma preserves_bind {A B} (I : World -> Prop) (m : M A) (k : A -> M B) :
  preserves I m -> (forall a, preserves I (k a)) -> preserves I (bind m k).
Proof.
  intros Hm Hk w Hw. unfold bind. specialize (Hm w Hw).
  destruct (m w) as [a w'| |]; auto. apply Hk. exact Hm.
Qed.

Lemma preserves_ret {A} (I : World -> Prop) (a : A) : preserves I (ret a).
Proof. intros w Hw. exact Hw. Qed.

Lemma preserves_read {A} (I : World -> Prop) (f : World -> A) : preserves I (read f).
Proof. intros w Hw. exact Hw. Qed.

Lemma preserves_stop {A} (I : World -> Prop) (f : fault) : preserves I (@stop A f).
Proof. intros w Hw. exact Logic.I. Qed.

Lemma preserves_assert (I : World -> Prop) (c : bool) : preserves I (assert c).
Proof. intros w Hw. unfold assert. destruct c; auto. Qed.

Lemma preserves_act (I : World -> Prop) (f : World -> World) :
  (forall w, I w -> I (f w)) -> preserves I (act f).
Proof. intros Hf w Hw. apply Hf. exact Hw. Qed.

Lemma source_process_stable (P : Platform) (I : World -> Prop) app src w :
  stable P I -> I w -> I (source_process app src w).
Proof.
  intros HI Hw. destruct src as [cmd|]; cbn; auto.
  destruct app as [a|]; auto. destruct (onAppCmd a) as [[]|]; auto.
  apply (stable_OnAppCmd P I HI). exact Hw.
Qed.

Lemma ProcessEvents_stable (P : Platform) (I : World -> Prop) self msec w :
  stable P I -> I w -> I (snd (ProcessEvents P self msec w)).
Proof.
  intros HI Hw. unfold ProcessEvents.
  destruct (negb (pthread_equal (g_main_thread w) self)); cbn [snd].
  - apply (stable_suspend P I HI), (stable_emit P I HI), Hw.
  - assert (H1 : I (suspend P (emit (EvPollAll msec) w)))
      by (apply (stable_suspend P I HI), (stable_emit P I HI), Hw).
    destruct (source (poll P (clock w))) as [src|]; auto.
    destruct (0 <=? looperId (poll P (clock w))); auto.
    apply (source_process_stable P); auto.
    apply (stable_emit P I HI), H1.
Qed.

Lemma ProcessEventsM_preserves (P : Platform) (I : World -> Prop) self msec :
  stable P I -> preserves I (ProcessEventsM P self msec).
Proof.
  intros HI w Hw. unfold ProcessEventsM.
  pose proof (ProcessEvents_stable P I self msec w HI Hw) as H.
  destruct (ProcessEvents P self msec w). exact H.
Qed.

Lemma GetJniEnv_preserves (P : Platform) (I : World -> Prop) self :
  stable P I -> preserves I (GetJniEnv P self).
Proof.
  intros HI w Hw. unfold GetJniEnv.
  destruct (negb (pthread_equal (g_main_thread w) self)); auto.
  destruct (g_app_state w); auto.
  apply (stable_emit P I HI), Hw.
Qed.

Lemma AppendText_preserves (P : Platform) (I : World -> Prop) self d text :
  stable P I -> preserves I (AppendText P self d text).
Proof.
  intros HI. unfold AppendText.
  destruct (is_null (logging_utils_class_ d)); [apply preserves_ret|].
  apply preserves_bind; [apply GetJniEnv_preserves, HI|intros env].
  apply preserves_bind; [apply preserves_assert|intros _].
  apply preserves_act. intros w Hw. unfold call_addLogText.
  apply (stable_jni_call P I HI).
  cbn [jni_pending emit].
  destruct (jni_pending w).
  - apply (stable_emit P I HI), Hw.
  - apply (stable_jni_pending P I HI), (stable_emit P I HI), Hw.
Qed.

Lemma CheckJNIException_preserves (P : Platform) (I : World -> Prop) self :
  stable P I -> preserves I (CheckJNIException P self).
Proof.
  intros HI. unfold CheckJNIException.
  apply preserves_bind; [apply GetJniEnv_preserves, HI|intros env].
  destruct (is_null env); [apply preserves_stop|].
  apply preserves_bind; [apply preserves_read|intros pending].
  destruct pending as [text|]; [|apply preserves_ret].
  repeat (apply preserves_bind;
          [apply preserves_act; intros w Hw;
           first [apply (stable_emit P I HI), Hw
                 |apply (stable_jni_pending P I HI), Hw]
          |intros _]).
  apply preserves_assert.
Qed.

Lemma LogMessage_preserves (P : Platform) (I : World -> Prop) self msg :
  stable P I -> preserves I (LogMessage P self msg).
Proof.
  intros HI. unfold LogMessage.
  apply preserves_bind;
    [apply preserves_act; intros w Hw; apply (stable_emit P I HI), Hw|intros _].
  apply preserves_bind; [apply preserves_read|intros main_thread].
  destruct (pthread_equal main_thread self); [|apply preserves_ret].
  apply preserves_bind; [apply preserves_read|intros data].
  destruct data as [d|]; [|apply preserves_ret].
  apply preserves_bind; [apply AppendText_preserves, HI|intros _].
  apply CheckJNIException_preserves, HI.
Qed.

Lemma LogMessage_view_preserves (P : Platform) (I : World -> Prop) self msg :
  stable P I -> preserves I (LogMessage_view P self msg).
Proof.
  intros HI. unfold LogMessage_view.
  apply preserves_bind; [apply preserves_read|intros main_thread].
  destruct (pthread_equal main_thread self); [|apply preserves_ret].
  apply preserves_bind; [apply preserves_read|intros data].
  destruct data as [d|]; [|apply preserves_ret].
  apply preserves_bind; [apply AppendText_preserves, HI|intros _].
  apply CheckJNIException_preserves, HI.
Qed.

Lemma LogMessage_va_preserves (P : Platform) (I : World -> Prop) self format args :
  stable P I -> preserves I (LogMessage_va P self format args).
Proof.
  intros HI. unfold LogMessage_va.
  destruct args as [|arg args]; [apply LogMessage_preserves, HI|].
  apply preserves_bind; [apply preserves_read|intros position].
  destruct (log_vprint_spent P position format (arg :: args)) as [entry|];
    [|apply preserves_stop].
  apply preserves_bind;
    [apply preserves_act; intros w Hw; apply (stable_emit P I HI), Hw|intros _].
  apply LogMessage_view_preserves, HI.
Qed.

Lemma WaitForFutureCompletion_loop_preserves (P : Platform) (I : World -> Prop)
    fuel self future :
  stable P I -> preserves I (WaitForFutureCompletion_loop P fuel self future).
Proof.
  intros HI. induction fuel as [|fuel IH]; intros w Hw; cbn; auto.
  pose proof (ProcessEvents_stable P I self 1000 w HI Hw) as H.
  destruct (ProcessEvents P self 1000 w) as [r w1]. cbn [snd] in H.
  destruct r; cbn; auto.
  destruct (negb (FutureStatus_eqb (Status future (clock w1)) kFutureStatusPending)); auto.
  apply IH. exact H.
Qed.

Lemma WaitForFutureCompletion_preserves (P : Platform) (I : World -> Prop)
    fuel self future :
  stable P I -> preserves I (WaitForFutureCompletion P fuel self future).
Proof.
  intros HI. unfold WaitForFutureCompletion.
  apply preserves_bind; [apply WaitForFutureCompletion_loop_preserves, HI|intros _].
  unfold report_future_error.
  apply preserves_bind; [apply preserves_read|intros now].
  destruct (negb (Error future now =? kAdMobErrorNone)).
  - apply LogMessage_va_preserves, HI.
  - apply preserves_ret.
Qed.

(** ** The destroy-requested flag *)

Lemma destroy_seen_stable (P : Platform) : stable P destroy_seen.
Proof.
  split; unfold destroy_seen; cbn; auto.
  intros cmd w ->. reflexivity.
Qed.

Lemma ProcessEvents_destroy_seen (P : Platform) self msec w :
  destroy_seen w ->
  fst (ProcessEvents P self msec w) = true
  /\ destroy_seen (snd (ProcessEvents P self msec w)).
Proof.
  intros Hw.
  pose proof (ProcessEvents_stable P destroy_seen self msec w
                (destroy_seen_stable P) Hw) as H.
  split; [|exact H].
  unfold ProcessEvents in *.
  destruct (negb (pthread_equal (g_main_thread w) self)); cbn [fst snd] in *.
  - unfold destroy_seen in H. rewrite H. reflexivity.
  - unfold destroy_seen in H. rewrite H. reflexivity.
Qed.

Lemma cond_timedwait_destroy_seen (P : Platform) w :
  destroy_seen w -> destroy_seen (cond_timedwait P w).
Proof. unfold destroy_seen. cbn. auto. Qed.

Lemma wait_for_nativeInit_loop_destroy_seen (P : Platform) fuel self :
  preserves destroy_seen (wait_for_nativeInit_loop P fuel self).
Proof.
  induction fuel as [|fuel IH]; intros w Hw; cbn; auto.
  destruct (negb (g_initialized w)); auto.
  destruct (ProcessEvents_destroy_seen P self 10 w Hw) as [Hr Hd].
  destruct (ProcessEvents P self 10 w) as [r w1]. cbn [fst snd] in *.
  subst r. exact Hd.
Qed.

Lemma wait_for_nativeInit_destroy_seen (P : Platform) fuel self :
  preserves destroy_seen (wait_for_nativeInit P fuel self).
Proof.
  unfold wait_for_nativeInit.
  apply preserves_bind; [apply preserves_act; cbn; auto|intros _].
  apply preserves_bind; [apply wait_for_nativeInit_loop_destroy_seen|intros _].
  apply preserves_act; cbn; auto.
Qed.

Lemma android_main_leave_destroy_seen (P : Platform) self state :
  preserves destroy_seen (android_main_leave P self state).
Proof.
  unfold android_main_leave.
  apply preserves_bind;
    [apply ProcessEventsM_preserves, destroy_seen_stable|intros _].
  apply preserves_bind; [apply preserves_read|intros data].
  apply preserves_bind.
  { destruct data as [d|]; [|apply preserves_ret].
    unfold LoggingUtilsData_destroy.
    apply preserves_bind;
      [apply GetJniEnv_preserves, destroy_seen_stable|intros env].
    apply preserves_bind; [apply preserves_assert|intros _].
    destruct (negb (is_null (logging_utils_class_ d)));
      [apply preserves_act; cbn; auto|apply preserves_ret]. }
  intros _.
  apply preserves_bind; [apply preserves_act; cbn; auto|intros _].
  apply preserves_bind; [apply preserves_act; cbn; auto|intros _].
  apply preserves_bind; [apply preserves_read|intros restarted].
  apply preserves_bind.
  { destruct (negb restarted); [apply preserves_act; cbn; auto|apply preserves_ret]. }
  intros _.
  apply preserves_bind; [apply preserves_read|intros app].
  apply preserves_bind.
  { destruct app; [apply preserves_act; cbn; auto|apply preserves_stop]. }
  intros _.
  apply preserves_bind; [apply preserves_act; cbn; auto|intros _].
  apply preserves_bind; [apply preserves_act; cbn; auto|intros _].
  apply preserves_act; cbn; auto.
Qed.

Lemma run_session_destroy_seen (P : Platform) (calls : list session_call) (w : World) :
  destroy_seen w -> Forall (fun r => r = true) (run_session P calls w).
Proof.
  revert w. induction calls as [|c calls IH]; intros w Hw; [constructor|].
  destruct c as [self msec| |self msg|fuel self future]; cbn [run_session].
  - destruct (ProcessEvents_destroy_seen P self msec w Hw) as [Hr Hd].
    destruct (ProcessEvents P self msec w) as [r w1]. cbn [fst snd] in *.
    constructor; auto.
  - apply IH, cond_timedwait_destroy_seen, Hw.
  - pose proof (LogMessage_preserves P destroy_seen self msg
                  (destroy_seen_stable P) w Hw) as H.
    destruct (LogMessage P self msg w); auto.
  - pose proof (WaitForFutureCompletion_preserves P destroy_seen fuel self future
                  (destroy_seen_stable P) w Hw) as H.
    destruct (WaitForFutureCompletion P fuel self future w); auto.
Qed.

(** A destroy command that the looper hands to the main thread sets the
    flag, once the callback of line 310 is installed. *)
Lemma ProcessEvents_observes_destroy (P : Platform) (msec : Z) (w : World) app :
  g_app_state w = Some app ->
  onAppCmd app = Some Cb_OnAppCmd ->
  source (poll P (clock w)) = Some (CmdSource APP_CMD_DESTROY) ->
  0 <= looperId (poll P (clock w)) ->
  fst (ProcessEvents P (g_main_thread w) msec w) = true
  /\ g_destroy_requested (snd (ProcessEvents P (g_main_thread w) msec w)) = true
  /\ trace (snd (ProcessEvents P (g_main_thread w) msec w))
     = trace w ++ [EvPollAll msec; EvSourceProcess (CmdSource APP_CMD_DESTROY)].
Proof.
  intros Happ Hcb Hsrc Hid. rewrite ProcessEvents_on_main. cbv zeta.
  rewrite Hsrc. apply Z.leb_le in Hid. rewrite Hid.
  cbn [fst snd]. cbn [source_process g_app_state suspend emit tick set_restarted].
  rewrite Happ, Hcb. cbn. rewrite orb_true_r.
  rewrite <- app_assoc. repeat split.
Qed.

(** C10: within a session the destroy-requested flag only goes up.  Line 308
    clears it when the session begins; [OnAppCmd] ors the comparison with
    [APP_CMD_DESTROY] into it; [ProcessEvents], the wait for [nativeInit] and
    the teardown keep it once it is set; a destroy command dispatched on the
    main thread sets it; and from then on every [ProcessEvents] call of the
    session, from whichever thread, returns true. *)
Theorem destroy_requested_monotone (P : Platform) :
  (forall self state w, g_destroy_requested (android_main_enter self state w) = false)
  /\ (forall cmd w,
        g_destroy_requested (OnAppCmd cmd w)
        = g_destroy_requested w || (cmd =? APP_CMD_DESTROY))
  /\ (forall self msec w,
        g_destroy_requested w = true ->
        fst (ProcessEvents P self msec w) = true
        /\ g_destroy_requested (snd (ProcessEvents P self msec w)) = true)
  /\ (forall fuel self w w',
        g_destroy_requested w = true ->
        wait_for_nativeInit P fuel self w = Ret tt w' ->
        g_destroy_requested w' = true)
  /\ (forall self state w w',
        g_destroy_requested w = true ->
        android_main_leave P self state w = Ret tt w' ->
        g_destroy_requested w' = true)
  /\ (forall msec w app calls,
        g_app_state w = Some app ->
        onAppCmd app = Some Cb_OnAppCmd ->
        source (poll P (clock w)) = Some (CmdSource APP_CMD_DESTROY) ->
        0 <= looperId (poll P (clock w)) ->
        Forall (fun r => r = true)
          (run_session P (CallProcessEvents (g_main_thread w) msec :: calls) w))
  /\ (forall calls w,
        g_destroy_requested w = true ->
        Forall (fun r => r = true) (run_session P calls w)).
Proof.
  split; [reflexivity|].
  split; [reflexivity|].
  split; [intros; apply ProcessEvents_destroy_seen; assumption|].
  split.
  { intros fuel self w w' Hw E.
    pose proof (wait_for_nativeInit_destroy_seen P fuel self w Hw) as H.
    rewrite E in H. exact H. }
  split.
  { intros self state w w' Hw E.
    pose proof (android_main_leave_destroy_seen P self state w Hw) as H.
    rewrite E in H. exact H. }
  split.
  { intros msec w app calls Happ Hcb Hsrc Hid. cbn [run_session].
    destruct (ProcessEvents_observes_destroy P msec w app Happ Hcb Hsrc Hid)
      as (Hr & Hd & _).
    destruct (ProcessEvents P (g_main_thread w) msec w) as [r w1].
    cbn [fst snd] in *. constructor; [exact Hr|].
    apply run_session_destroy_seen. exact Hd. }
  intros calls w Hw. apply run_session_destroy_seen. exact Hw.
Qed.

Lemma destroy_requested_monotone_witness :
  Forall (fun r => r = true)
    (run_session destroying_platform
       [CallProcessEvents worker_thread 10; CallProcessEvents ui_thread 1000;
        CallCondTimedWait; CallProcessEvents worker_thread 10]
       (snd (ProcessEvents destroying_platform worker_thread 10
               (snd (ProcessEvents destroying_platform worker_thread 10 session_world))))).
Proof.
  destruct (destroy_requested_monotone destroying_platform)
    as (_ & _ & _ & _ & _ & Hobserve & _).
  refine (Hobserve 10
            (snd (ProcessEvents destroying_platform worker_thread 10
                    (snd (ProcessEvents destroying_platform worker_thread 10
                            session_world))))
            {| activity := activity sample_state; onAppCmd := Some Cb_OnAppCmd |}
            [CallProcessEvents ui_thread 1000; CallCondTimedWait;
             CallProcessEvents worker_thread 10] _ _ _ _).
  - reflexivity.
  - reflexivity.
  - reflexivity.
  - cbv. discriminate.
Defined.

(** ** The logging sink *)

Lemma GetJniEnv_on_main (P : Platform) (w : World) app :
  g_app_state w = Some app ->
  GetJniEnv P (g_main_thread w) w =
    Ret (if attach_ok P then attach_env P else nullptr) (emit EvAttachCurrentThread w).
Proof.
  intros H. unfold GetJniEnv. rewrite pthread_equal_refl, H. reflexivity.
Qed.

Lemma LogMessage_off_main (P : Platform) (self : pthread_t) (msg : string) (w : World) :
  self <> g_main_thread w ->
  LogMessage P self msg w = Ret tt (emit (EvAndroidLog msg) w).
Proof.
  intros H. unfold LogMessage, bind, act, read. cbn [g_main_thread emit].
  assert (E : pthread_equal (g_main_thread w) self = false)
    by (apply pthread_equal_false; congruence).
  rewrite E. reflexivity.
Qed.

Lemma LogMessage_without_view (P : Platform) (self : pthread_t) (msg : string) (w : World) :
  g_logging_utils_data w = None ->
  LogMessage P self msg w = Ret tt (emit (EvAndroidLog msg) w).
Proof.
  intros H. unfold LogMessage, bind, act, read.
  cbn [g_main_thread emit].
  destruct (pthread_equal (g_main_thread w) self); [|reflexivity].
  cbn [g_logging_utils_data emit]. rewrite H. reflexivity.
Qed.

Lemma CheckJNIException_on_main (P : Platform) (w : World) app :
  g_app_state w = Some app ->
  attach_ok P = true ->
  attach_env P <> nullptr ->
  CheckJNIException P (g_main_thread w) w =
    match jni_pending w with
    | Some text =>
        Stop AssertionFailed
          (emit (EvAndroidLog "-------------------")
             (emit (EvAndroidLog text)
                (emit (EvAndroidLog "-------------------JNI exception:")
                   (set_jni_pending None
                      (emit EvExceptionClear (emit EvAttachCurrentThread w))))))
    | None => Ret tt (emit EvAttachCurrentThread w)
    end.
Proof.
  intros Happ Hok Henv. unfold CheckJNIException, bind.
  rewrite (GetJniEnv_on_main P w app Happ), Hok.
  assert (E : is_null (attach_env P) = false) by (apply Z.eqb_neq; exact Henv).
  rewrite E. unfold read. cbn [jni_pending emit].
  destruct (jni_pending w); reflexivity.
Qed.

Lemma AppendText_on_main (P : Platform) (w : World) app d text :
  g_app_state w = Some app ->
  attach_ok P = true ->
  attach_env P <> nullptr ->
  logging_utils_class_ d <> nullptr ->
  AppendText P (g_main_thread w) d text w =
    Ret tt (call_addLogText P d text (emit EvAttachCurrentThread w)).
Proof.
  intros Happ Hok Henv Hcls. unfold AppendText.
  assert (Ec : is_null (logging_utils_class_ d) = false) by (apply Z.eqb_neq; exact Hcls).
  assert (Ee : is_null (attach_env P) = false) by (apply Z.eqb_neq; exact Henv).
  rewrite Ec. unfold bind.
  rewrite (GetJniEnv_on_main P w app Happ), Hok, Ee. reflexivity.
Qed.

Lemma LogMessage_on_main (P : Platform) (msg : string) (w : World) app d :
  g_app_state w = Some app ->
  g_logging_utils_data w = Some d ->
  attach_ok P = true ->
  attach_env P <> nullptr ->
  logging_utils_class_ d <> nullptr ->
  LogMessage P (g_main_thread w) msg w =
    CheckJNIException P (g_main_thread w)
      (call_addLogText P d (line_buffer msg)
         (emit EvAttachCurrentThread (emit (EvAndroidLog msg) w))).
Proof.
  intros Happ Hdata Hok Henv Hcls. unfold LogMessage, bind at 1 2 3, act, read.
  cbn [g_main_thread emit].
  rewrite pthread_equal_refl. cbn [g_logging_utils_data emit].
  rewrite Hdata. unfold bind.
  pose proof (AppendText_on_main P (emit (EvAndroidLog msg) w) app d (line_buffer msg))
    as H.
  cbn [g_main_thread g_app_state emit] in H.
  rewrite H by assumption. reflexivity.
Qed.

(** On the main thread, with the view in place, the sink is the call of
    [addLogText] followed by the exception check. *)
Lemma LogMessage_on_main_outcome (P : Platform) (msg : string) (w : World) app d :
  g_app_state w = Some app ->
  g_logging_utils_data w = Some d ->
  logging_utils_class_ d <> nullptr ->
  attach_ok P = true ->
  attach_env P <> nullptr ->
  let w1 := call_addLogText P d (line_buffer msg)
              (emit EvAttachCurrentThread (emit (EvAndroidLog msg) w)) in
  trace w1 = trace w ++ [EvAndroidLog msg; EvAttachCurrentThread;
                         EvAddLogText (logging_utils_class_ d)
                           (logging_utils_add_log_text_ d) (line_buffer msg)]
  /\ match jni_pending w1 with
     | Some text =>
         exists w2,
           LogMessage P (g_main_thread w) msg w = Stop AssertionFailed w2
           /\ jni_pending w2 = None
           /\ trace w2 = trace w1 ++ EvAttachCurrentThread :: surfaced text
     | None =>
         LogMessage P (g_main_thread w) msg w = Ret tt (emit EvAttachCurrentThread w1)
     end.
Proof.
  intros Happ Hdata Hcls Hok Henv w1.
  split.
  { subst w1. unfold call_addLogText. cbn [trace count_jni_call].
    cbn [jni_pending emit].
    destruct (jni_pending w); cbn; rewrite <- !app_assoc; reflexivity. }
  rewrite (LogMessage_on_main P msg w app d Happ Hdata Hok Henv Hcls).
  fold w1.
  assert (Happ1 : g_app_state w1 = Some app).
  { subst w1. unfold call_addLogText. cbn [jni_pending emit].
    destruct (jni_pending w); cbn; exact Happ. }
  assert (Hmain : g_main_thread w1 = g_main_thread w).
  { subst w1. unfold call_addLogText. cbn [jni_pending emit].
    destruct (jni_pending w); reflexivity. }
  rewrite <- Hmain.
  rewrite (CheckJNIException_on_main P w1 app Happ1 Hok Henv).
  destruct (jni_pending w1) as [text|]; [|reflexivity].
  eexists. split; [reflexivity|]. split; [reflexivity|].
  cbn. rewrite <- !app_assoc. reflexivity.
Qed.

(** The same call, seen as the system log entry followed by the view. *)
Lemma LogMessage_entry_view (P : Platform) (self : pthread_t) (msg : string) (w : World) :
  LogMessage P self msg w = LogMessage_view P self msg (emit (EvAndroidLog msg) w).
Proof. reflexivity. Qed.

Lemma LogMessage_va_entry (P : Platform) (self : pthread_t) (format : string)
    (arg : fmt_arg) (args : list fmt_arg) (entry : string) (w : World) :
  log_vprint_spent P (length (trace w)) format (arg :: args) = Some entry ->
  LogMessage_va P self format (arg :: args) w
  = LogMessage_view P self (format_message format (arg :: args))
      (emit (EvAndroidLog entry) w).
Proof.
  intros H. unfold LogMessage_va, bind at 1, read. rewrite H. reflexivity.
Qed.

Lemma LogMessage_va_fault (P : Platform) (self : pthread_t) (format : string)
    (arg : fmt_arg) (args : list fmt_arg) (w : World) :
  log_vprint_spent P (length (trace w)) format (arg :: args) = None ->
  LogMessage_va P self format (arg :: args) w = Stop InvalidRead w.
Proof.
  intros H. unfold LogMessage_va, bind at 1, read. rewrite H. reflexivity.
Qed.

Lemma LogMessage_view_off_main (P : Platform) (self : pthread_t) (msg : string) (w : World) :
  self <> g_main_thread w -> LogMessage_view P self msg w = Ret tt w.
Proof.
  intros H. unfold LogMessage_view, bind, read.
  assert (E : pthread_equal (g_main_thread w) self = false)
    by (apply pthread_equal_false; congruence).
  rewrite E. reflexivity.
Qed.

Lemma LogMessage_view_without_view (P : Platform) (self : pthread_t) (msg : string)
    (w : World) :
  g_logging_utils_data w = None -> LogMessage_view P self msg w = Ret tt w.
Proof.
  intros H. unfold LogMessage_view, bind, read.
  destruct (pthread_equal (g_main_thread w) self); [|reflexivity].
  rewrite H. reflexivity.
Qed.

(** On the main thread, with the view in place, the view part is the call
    of [addLogText] followed by the exception check. *)
Lemma LogMessage_view_on_main (P : Platform) (msg : string) (w : World) app d :
  g_app_state w = Some app ->
  g_logging_utils_data w = Some d ->
  logging_utils_class_ d <> nullptr ->
  attach_ok P = true ->
  attach_env P <> nullptr ->
  let w1 := call_addLogText P d (line_buffer msg) (emit EvAttachCurrentThread w) in
  trace w1 = trace w ++ [EvAttachCurrentThread;
                         EvAddLogText (logging_utils_class_ d)
                           (logging_utils_add_log_text_ d) (line_buffer msg)]
  /\ match jni_pending w1 with
     | Some text =>
         exists w2,
           LogMessage_view P (g_main_thread w) msg w = Stop AssertionFailed w2
           /\ jni_pending w2 = None
           /\ trace w2 = trace w1 ++ EvAttachCurrentThread :: surfaced text
     | None =>
         LogMessage_view P (g_main_thread w) msg w
         = Ret tt (emit EvAttachCurrentThread w1)
     end.
Proof.
  intros Happ Hdata Hcls Hok Henv w1.
  split.
  { subst w1. unfold call_addLogText. cbn [trace count_jni_call].
    cbn [jni_pending emit].
    destruct (jni_pending w); cbn; rewrite <- !app_assoc; reflexivity. }
  assert (Hview : LogMessage_view P (g_main_thread w) msg w
                  = CheckJNIException P (g_main_thread w) w1).
  { unfold LogMessage_view, bind at 1 2, read.
    rewrite pthread_equal_refl, Hdata. unfold bind.
    rewrite (AppendText_on_main P w app d (line_buffer msg) Happ Hok Henv Hcls).
    reflexivity. }
  rewrite Hview.
  assert (Happ1 : g_app_state w1 = Some app).
  { subst w1. unfold call_addLogText. cbn [jni_pending emit].
    destruct (jni_pending w); cbn; exact Happ. }
  assert (Hmain : g_main_thread w1 = g_main_thread w).
  { subst w1. unfold call_addLogText. cbn [jni_pending emit].
    destruct (jni_pending w); reflexivity. }
  rewrite <- Hmain.
  rewrite (CheckJNIException_on_main P w1 app Happ1 Hok Henv).
  destruct (jni_pending w1) as [text|]; [|reflexivity].
  eexists. split; [reflexivity|]. split; [reflexivity|].
  cbn. rewrite <- !app_assoc. reflexivity.
Qed.

Lemma action_failed_message_format (code : Z) (message : string) :
  format_message action_failed_format [ArgInt code; ArgStr message]
  = action_failed_message code message.
Proof.
  reflexivity.
Qed.





(** ** Teardown *)

Lemma source_process_same_handles app src w : same_handles w (source_process app src w).
Proof.
  destruct src as [cmd|]; cbn; [|repeat split].
  destruct app as [a|]; [|repeat split].
  destruct (onAppCmd a) as [[]|]; repeat split.
Qed.

Lemma ProcessEvents_same_handles (P : Platform) self msec w :
  same_handles w (snd (ProcessEvents P self msec w))
  /\ clock (snd (ProcessEvents P self msec w)) = S (clock w).
Proof.
  unfold ProcessEvents.
  destruct (negb (pthread_equal (g_main_thread w) self)); cbn [snd].
  - split; [repeat split|reflexivity].
  - destruct (source (poll P (clock w))) as [src|]; [|split; [repeat split|reflexivity]].
    destruct (0 <=? looperId (poll P (clock w))); [|split; [repeat split|reflexivity]].
    split.
    + pose proof (source_process_same_handles
                    (g_app_state (suspend P (emit (EvPollAll msec) w))) src
                    (emit (EvSourceProcess src) (suspend P (emit (EvPollAll msec) w)))) as H.
      unfold same_handles in *. cbn in H. exact H.
    + destruct src as [cmd|]; cbn; [|reflexivity].
      destruct (g_app_state w) as [a|]; [|reflexivity].
      destruct (onAppCmd a) as [[]|]; reflexivity.
Qed.

Lemma LoggingUtilsData_destroy_on_main (P : Platform) (w : World) app d :
  g_app_state w = Some app ->
  attach_ok P = true ->
  attach_env P <> nullptr ->
  exists w',
    LoggingUtilsData_destroy P (g_main_thread w) d w = Ret tt w'
    /\ trace w' = trace w ++ logging_teardown (Some d)
    /\ same_handles w w'
    /\ g_restarted w' = g_restarted w
    /\ clock w' = clock w.
Proof.
  intros Happ Hok Henv. unfold LoggingUtilsData_destroy, bind.
  rewrite (GetJniEnv_on_main P w app Happ), Hok.
  assert (Ee : is_null (attach_env P) = false) by (apply Z.eqb_neq; exact Henv).
  rewrite Ee. cbn [negb assert]. unfold logging_teardown.
  destruct (is_null (logging_utils_class_ d)); cbn [negb].
  - eexists. split; [reflexivity|]. cbn. repeat split.
  - eexists. split; [reflexivity|]. cbn. rewrite <- app_assoc. repeat split.
Qed.

(** C5: once [common_main] has returned, and provided the thread can still
    obtain its runtime environment (otherwise the destructor's assertion
    stops the process), [android_main] runs its whole teardown and returns:
    one more [ProcessEvents(10)], the destructor of the logging data,
    [ANativeActivity_finish] exactly when [g_restarted] is clear at line 374,
    [DetachCurrentThread], then [g_started] and [g_restarted] cleared and
    [g_started_mutex] released as the last call. *)
Theorem android_main_leave_tears_down
    (P : Platform) (self : pthread_t) (state app : android_app) (w : World) :
  self = g_main_thread w ->
  g_app_state w = Some app ->
  attach_ok P = true ->
  attach_env P <> nullptr ->
  let w1 := snd (ProcessEvents P self 10 w) in
  exists w',
    android_main_leave P self state w = Ret tt w'
    /\ clock w' = S (clock w)
    /\ trace w' = trace w1
                  ++ logging_teardown (g_logging_utils_data w)
                  ++ finish_unless_restarted (g_restarted w1) state
                  ++ [EvDetachCurrentThread (vm (activity app));
                      EvMutexUnlock started_mutex]
    /\ (In (EvNativeActivityFinish (activity state))
           (finish_unless_restarted (g_restarted w1) state)
        <-> g_restarted w1 = false)
    /\ g_logging_utils_data w' = None
    /\ g_initialized w' = false
    /\ g_started w' = false
    /\ g_restarted w' = false.
Proof.
  intros -> Happ Hok Henv w1.
  destruct (ProcessEvents_same_handles P (g_main_thread w) 10 w) as [Hsame Hclock].
  fold w1 in Hsame, Hclock.
  unfold android_main_leave, bind at 1, ProcessEventsM.
  destruct (ProcessEvents P (g_main_thread w) 10 w) as [r w1'] eqn:E.
  cbn [snd] in w1. subst w1. rename w1' into w1.
  destruct Hsame as (Hs_app & Hs_main & Hs_data & _).
  assert (Hfin : In (EvNativeActivityFinish (activity state))
                   (finish_unless_restarted (g_restarted w1) state)
                 <-> g_restarted w1 = false).
  { unfold finish_unless_restarted. destruct (g_restarted w1); cbn.
    - split; [tauto|discriminate].
    - split; auto. }
  unfold bind at 1, read. rewrite Hs_data.
  destruct (g_logging_utils_data w) as [d|].
  - assert (Happ1 : g_app_state w1 = Some app) by congruence.
    destruct (LoggingUtilsData_destroy_on_main P w1 app d Happ1 Hok Henv)
      as (w2 & E2 & Ht2 & Hsame2 & Hr2 & Hc2).
    rewrite Hs_main in E2. unfold bind at 1. rewrite E2.
    destruct Hsame2 as (Hs2_app & _).
    assert (Happ2 : g_app_state w2 = Some app) by congruence.
    unfold bind, act, read, ret. cbn. rewrite Hr2.
    destruct (g_restarted w1) eqn:Er; cbn; rewrite Happ2;
      eexists; (split; [reflexivity|]);
      cbn; rewrite Ht2, Hc2, Hclock; cbn; rewrite <- ?app_assoc; cbn;
      repeat split; auto; try discriminate; try tauto.
  - unfold bind, act, read, ret. cbn.
    assert (Happ1 : g_app_state w1 = Some app) by congruence.
    destruct (g_restarted w1) eqn:Er; cbn; rewrite Happ1;
      eexists; (split; [reflexivity|]);
      cbn; rewrite Hclock; cbn; rewrite <- ?app_assoc; cbn;
      repeat split; auto; try discriminate; try tauto.
Qed.

Lemma android_main_leave_tears_down_witness :
  exists w',
    android_main_leave quiet_platform worker_thread sample_state logging_world = Ret tt w'
    /\ trace w' = [EvPollAll 10; EvAttachCurrentThread; EvDeleteGlobalRef 900;
                   EvNativeActivityFinish (activity sample_state);
                   EvDetachCurrentThread 600; EvMutexUnlock started_mutex]
    /\ g_started w' = false.
Proof.
  destruct (android_main_leave_tears_down quiet_platform worker_thread sample_state
              {| activity := activity sample_state; onAppCmd := Some Cb_OnAppCmd |}
              logging_world)
    as (w' & E & _ & Ht & _ & _ & _ & Hs & _).
  - reflexivity.
  - reflexivity.
  - reflexivity.
  - cbv. discriminate.
  - exists w'. split; [exact E|]. split; [exact Ht|exact Hs].
Defined.

(** ** The wait for nativeInit *)

(** The deadline of the timed wait is the time read plus ten milliseconds,
    with [tv_nsec] back in range. *)
Lemma time_to_wait_for_bounded (sec nsec : Z) :
  0 <= nsec < nsec_per_sec ->
  let deadline := time_to_wait_for (sec, nsec) in
  fst deadline * nsec_per_sec + snd deadline = sec * nsec_per_sec + nsec + 10000000
  /\ 0 <= snd deadline < nsec_per_sec.
Proof.
  intros H. unfold time_to_wait_for, nsec_per_ms, nsec_per_sec in *. cbn [fst snd].
  change (Z.quot 1000000000 1000 * 10) with 10000000.
  rewrite Z.quot_div_nonneg, Z.rem_mod_nonneg by lia.
  pose proof (Z.div_mod (nsec + 10000000) 1000000000 ltac:(lia)) as Hdm.
  pose proof (Z.mod_pos_bound (nsec + 10000000) 1000000000 ltac:(lia)) as Hb.
  split; lia.
Qed.

Lemma cond_timedwait_waiting (P : Platform) self w :
  (forall t, early_init_signal P t = false) ->
  waiting self w -> waiting self (cond_timedwait P w).
Proof.
  intros Hnone (Hm & Happ & Hi & Hd & Hr). unfold waiting, cond_timedwait.
  cbn. rewrite Hi, Hnone. repeat split; assumption.
Qed.

Lemma delivers_destroy_inv (r : poll_result) :
  delivers_destroy r = true ->
  source r = Some (CmdSource APP_CMD_DESTROY) /\ 0 <= looperId r.
Proof.
  unfold delivers_destroy. destruct (source r) as [[cmd|]|]; try discriminate.
  intros H. apply andb_true_iff in H. destruct H as [Hid Hcmd].
  apply Z.leb_le in Hid. apply Z.eqb_eq in Hcmd. subst cmd. split; auto.
Qed.

(** An iteration whose poll does not deliver the destroy command leaves the
    worker waiting. *)
Lemma ProcessEvents_waiting (P : Platform) self w :
  (forall t, restart_signal P t = false) ->
  waiting self w ->
  delivers_destroy (poll P (clock w)) = false ->
  fst (ProcessEvents P self 10 w) = false
  /\ waiting self (snd (ProcessEvents P self 10 w))
  /\ exists evs, trace (snd (ProcessEvents P self 10 w)) = trace w ++ evs.
Proof.
  intros Hnone (Hm & (app & Happ & Hcb) & Hi & Hd & Hr) Hdel. subst self.
  rewrite ProcessEvents_on_main. cbv zeta. cbn [fst snd].
  unfold delivers_destroy in Hdel. unfold waiting.
  destruct (source (poll P (clock w))) as [src|].
  - destruct (0 <=? looperId (poll P (clock w))).
    + destruct src as [cmd|]; cbn in Hdel |- *.
      * rewrite Happ, Hcb. cbn. rewrite Hd, Hr, Hnone, Hdel. cbn.
        repeat split; eauto. rewrite <- app_assoc. eauto.
      * rewrite Hd, Hr, Hnone. cbn. repeat split; eauto.
        rewrite <- app_assoc. eauto.
    + cbn. rewrite Hd, Hr, Hnone. cbn. repeat split; eauto.
  - cbn. rewrite Hd, Hr, Hnone. cbn. repeat split; eauto.
Qed.

(** The iteration whose poll delivers the destroy command is the last one. *)
Lemma wait_for_nativeInit_loop_exits_now (P : Platform) self w :
  (forall t, restart_signal P t = false) ->
  waiting self w ->
  delivers_destroy (poll P (clock w)) = true ->
  exists w',
    (forall fuel, (0 < fuel)%nat -> wait_for_nativeInit_loop P fuel self w = Ret tt w')
    /\ clock w' = S (clock w)
    /\ g_destroy_requested w' = true
    /\ g_initialized w' = false
    /\ g_restarted w' = false
    /\ trace w' = trace w ++ [EvPollAll 10; EvSourceProcess (CmdSource APP_CMD_DESTROY)].
Proof.
  intros Hrestart Hw Hnow.
  destruct (delivers_destroy_inv _ Hnow) as [Hsrc Hid].
  destruct Hw as (Hm & (app & Happ & Hcb) & Hi & Hd & Hr). subst self.
  destruct (ProcessEvents_observes_destroy P 10 w app Happ Hcb Hsrc Hid)
    as (Hret & Hflag & Htrace).
  destruct (ProcessEvents_same_handles P (g_main_thread w) 10 w)
    as [(_ & _ & _ & Hi' & _) Hclock].
  exists (snd (ProcessEvents P (g_main_thread w) 10 w)).
  split.
  { intros [|fuel] Hf; [lia|]. cbn [wait_for_nativeInit_loop].
    rewrite Hi. cbn [negb].
    destruct (ProcessEvents P (g_main_thread w) 10 w) as [r w1].
    cbn [fst snd] in *. rewrite Hret. reflexivity. }
  split; [exact Hclock|].
  split; [exact Hflag|].
  split; [congruence|].
  split; [|exact Htrace].
  rewrite ProcessEvents_on_main. cbv zeta. cbn [snd].
  rewrite Hsrc. apply Z.leb_le in Hid. rewrite Hid.
  cbn. rewrite Happ, Hcb. cbn. rewrite Hr, Hrestart. reflexivity.
Qed.

Lemma wait_for_nativeInit_loop_exits (P : Platform) self :
  (forall t, early_init_signal P t = false) ->
  (forall t, restart_signal P t = false) ->
  forall k w,
    waiting self w ->
    delivers_destroy (poll P (clock w + k)) = true ->
    exists n w' mid,
      (n <= k)%nat
      /\ (forall fuel, (n < fuel)%nat -> wait_for_nativeInit_loop P fuel self w = Ret tt w')
      /\ clock w' = (clock w + S n)%nat
      /\ delivers_destroy (poll P (clock w + n)) = true
      /\ (forall j, (j < n)%nat -> delivers_destroy (poll P (clock w + j)) = false)
      /\ g_destroy_requested w' = true
      /\ g_initialized w' = false
      /\ g_restarted w' = false
      /\ trace w' = trace w ++ mid
                    ++ [EvPollAll 10; EvSourceProcess (CmdSource APP_CMD_DESTROY)].
Proof.
  intros Hinit Hrestart k. induction k as [|k IH]; intros w Hw Hk.
  - rewrite Nat.add_0_r in Hk.
    destruct (wait_for_nativeInit_loop_exits_now P self w Hrestart Hw Hk)
      as (w' & Hrun & Hcl & Hflag & Hi' & Hr' & Htr).
    exists 0%nat, w', []. rewrite Nat.add_0_r.
    repeat split; auto; try lia.
  - destruct (delivers_destroy (poll P (clock w))) eqn:Hnow.
    + destruct (wait_for_nativeInit_loop_exits_now P self w Hrestart Hw Hnow)
        as (w' & Hrun & Hcl & Hflag & Hi' & Hr' & Htr).
      exists 0%nat, w', []. rewrite Nat.add_0_r.
      repeat split; auto; try lia.
    + (* this iteration times out or dispatches something else *)
      destruct (ProcessEvents_waiting P self w Hrestart Hw Hnow)
        as (Hret & Hw1 & evs & Htrace).
      destruct (ProcessEvents_same_handles P self 10 w) as [_ Hclock].
      pose proof (cond_timedwait_waiting P self _ Hinit Hw1) as Hw2.
      set (w1 := snd (ProcessEvents P self 10 w)) in *.
      assert (Hc2 : clock (cond_timedwait P w1) = S (clock w))
        by (cbn; exact Hclock).
      destruct (IH (cond_timedwait P w1) Hw2) as
        (n & w' & mid & Hn & Hrun & Hcl & Hdel & Hfirst & Hflag & Hi' & Hr' & Htr).
      { rewrite Hc2. replace (S (clock w) + k)%nat with (clock w + S k)%nat by lia.
        exact Hk. }
      exists (S n), w'.
      eexists (evs ++ EvCondTimedWait _ _ :: mid).
      split; [lia|]. split.
      { intros [|fuel] Hf; [lia|]. cbn [wait_for_nativeInit_loop].
        destruct Hw as (_ & _ & Hi & _). rewrite Hi. cbn [negb].
        fold w1 in Hret.
        destruct (ProcessEvents P self 10 w) as [r w1'] eqn:E.
        cbn [fst snd] in *. subst w1. rewrite Hret.
        apply Hrun. lia. }
      split; [rewrite Hcl, Hc2; lia|].
      split.
      { rewrite Hc2 in Hdel.
        replace (clock w + S n)%nat with (S (clock w) + n)%nat by lia. exact Hdel. }
      split.
      { intros [|j] Hj.
        - rewrite Nat.add_0_r. exact Hnow.
        - rewrite Hc2 in Hfirst.
          replace (clock w + S j)%nat with (S (clock w) + j)%nat by lia.
          apply Hfirst. lia. }
      split; [exact Hflag|]. split; [exact Hi'|]. split; [exact Hr'|].
      rewrite Htr. cbn [cond_timedwait trace emit set_initialized].
      rewrite Htrace. rewrite <- !app_assoc. cbn. reflexivity.
Qed.

(** C6: when [nativeInit] is never called, so that [g_initialized] stays
    false, and no restart is requested, but the looper delivers a destroy
    command at some poll, the wait loop of lines 323 to 339 ends.  It runs up
    to the first poll that delivers the command, the iteration [n]; the
    dispatch of that poll runs [OnAppCmd], which sets [g_destroy_requested],
    so that [ProcessEvents] returns true and the loop is left by its [break],
    with [g_initialized] still false; [g_init_mutex] is released after it. *)
Theorem wait_for_nativeInit_exits_on_destroy
    (P : Platform) (self : pthread_t) (w : World) (k : nat) :
  waiting self w ->
  (forall t, early_init_signal P t = false) ->
  (forall t, restart_signal P t = false) ->
  delivers_destroy (poll P (clock w + k)) = true ->
  exists n w' mid,
    (n <= k)%nat
    /\ (forall fuel, (n < fuel)%nat -> wait_for_nativeInit P fuel self w = Ret tt w')
    /\ clock w' = (clock w + S n)%nat
    /\ delivers_destroy (poll P (clock w + n)) = true
    /\ (forall j, (j < n)%nat -> delivers_destroy (poll P (clock w + j)) = false)
    /\ g_destroy_requested w' = true
    /\ g_initialized w' = false
    /\ g_restarted w' = false
    /\ trace w' = trace w ++ EvMutexLock init_mutex :: mid
                  ++ [EvPollAll 10; EvSourceProcess (CmdSource APP_CMD_DESTROY);
                      EvMutexUnlock init_mutex].
Proof.
  intros Hw Hinit Hrestart Hk.
  assert (Hw0 : waiting self (emit (EvMutexLock init_mutex) w)) by exact Hw.
  destruct (wait_for_nativeInit_loop_exits P self Hinit Hrestart k
              (emit (EvMutexLock init_mutex) w) Hw0 Hk)
    as (n & w1 & mid & Hn & Hrun & Hcl & Hdel & Hfirst & Hflag & Hi & Hr & Htr).
  exists n, (emit (EvMutexUnlock init_mutex) w1), mid.
  split; [exact Hn|]. split.
  { intros fuel Hf. unfold wait_for_nativeInit, bind, act.
    rewrite (Hrun fuel Hf). reflexivity. }
  cbn [clock g_destroy_requested g_initialized g_restarted trace emit] in *.
  repeat split; auto.
  rewrite Htr. rewrite <- !app_assoc. reflexivity.
Qed.

Lemma wait_for_nativeInit_exits_on_destroy_witness :
  exists w',
    wait_for_nativeInit destroying_platform 3 worker_thread session_world = Ret tt w'
    /\ clock w' = 3%nat
    /\ g_destroy_requested w' = true
    /\ g_initialized w' = false.
Proof.
  destruct (wait_for_nativeInit_exits_on_destroy
              destroying_platform worker_thread session_world 2)
    as (n & w' & mid & Hn & Hrun & Hcl & Hdel & Hfirst & Hflag & Hi & _).
  - unfold waiting. cbn. repeat split; eauto.
  - reflexivity.
  - reflexivity.
  - reflexivity.
  - assert (n = 2%nat) as ->.
    { destruct n as [|[|[|n]]]; try lia; discriminate Hdel. }
    exists w'. split; [apply Hrun; lia|]. repeat split; assumption.
Defined.

(** ** WaitForFutureCompletion *)

Lemma same_handles_trans (a b c : World) :
  same_handles a b -> same_handles b c -> same_handles a c.
Proof. unfold same_handles. intuition congruence. Qed.

Lemma same_handles_refl (a : World) : same_handles a a.
Proof. unfold same_handles. repeat split. Qed.

Lemma pump_same_handles (P : Platform) self k w :
  same_handles w (pump P self k w)
  /\ clock (pump P self k w) = (clock w + k)%nat.
Proof.
  revert w. induction k as [|k IH]; intros w; cbn [pump].
  - split; [apply same_handles_refl|lia].
  - destruct (ProcessEvents_same_handles P self 1000 w) as [H1 C1].
    destruct (IH (snd (ProcessEvents P self 1000 w))) as [H2 C2].
    split; [eapply same_handles_trans; eassumption|lia].
Qed.

Lemma pump_S (P : Platform) self k w :
  pump P self (S k) w = snd (ProcessEvents P self 1000 (pump P self k w)).
Proof.
  revert w. induction k as [|k IH]; intros w; [reflexivity|].
  cbn [pump] in *. rewrite <- IH. reflexivity.
Qed.

(** The loop stops at the first iteration that is a last one, and not
    before. *)
Lemma WaitForFutureCompletion_loop_stops (P : Platform) self future :
  forall k w,
    (forall j, (j < k)%nat -> last_iteration P self future (pump P self j w) = false) ->
    last_iteration P self future (pump P self k w) = true ->
    forall fuel, (k < fuel)%nat ->
      WaitForFutureCompletion_loop P fuel self future w = Ret tt (pump P self (S k) w).
Proof.
  induction k as [|k IH]; intros w Hbefore Hlast fuel Hfuel;
    (destruct fuel as [|fuel]; [lia|]); cbn [WaitForFutureCompletion_loop].
  - cbn [pump] in *. unfold last_iteration in Hlast.
    destruct (ProcessEvents P self 1000 w) as [r w1]. cbn [fst snd] in *.
    destruct r; cbn [negb]; [reflexivity|].
    cbn [orb] in Hlast. rewrite Hlast. reflexivity.
  - pose proof (Hbefore 0%nat ltac:(lia)) as H0. cbn [pump] in H0.
    unfold last_iteration in H0. apply orb_false_iff in H0. destruct H0 as [Hr Hs].
    cbn [pump] in Hlast |- *.
    destruct (ProcessEvents P self 1000 w) as [r w1] eqn:E. cbn [fst snd] in *.
    subst r. cbn [negb]. rewrite Hs.
    apply IH; [|exact Hlast|lia].
    intros j Hj. specialize (Hbefore (S j) ltac:(lia)).
    cbn [pump] in Hbefore. rewrite E in Hbefore. exact Hbefore.
Qed.

(** C7, as amended: [WaitForFutureCompletion] calls [ProcessEvents(1000)]
    until a call reports termination or the future is found no longer
    pending, and not once more.  If the future's error code then differs
    from [kAdMobErrorNone], the function hands the code and the message to
    [LogMessage], and it ends as this one logging call ends.  Where the
    system log takes its entry: off the main thread, or before the log view
    exists, the function returns and the caller goes on; on the main thread
    with the view in place it returns when the view takes the line without
    a Java exception, and when the view throws the logging sink surfaces the
    exception and stops the process at its [assert(false)].  With the
    success code it returns without logging. *)
Theorem WaitForFutureCompletion_logs_and_returns
    (P : Platform) (self : pthread_t) (future : FutureBase) (w : World)
    (k fuel : nat) :
  (forall j, (j < k)%nat -> last_iteration P self future (pump P self j w) = false) ->
  last_iteration P self future (pump P self k w) = true ->
  (k < fuel)%nat ->
  let w' := pump P self (S k) w in
  let code := Error future (clock w') in
  let args := [ArgInt code; ArgStr (ErrorMessage future (clock w'))] in
  let text := action_failed_message code (ErrorMessage future (clock w')) in
  WaitForFutureCompletion_loop P fuel self future w = Ret tt w'
  /\ clock w' = (clock w + S k)%nat
  /\ (code = kAdMobErrorNone ->
      WaitForFutureCompletion P fuel self future w = Ret tt w')
  /\ (code <> kAdMobErrorNone ->
      WaitForFutureCompletion P fuel self future w
      = LogMessage_va P self action_failed_format args w'
      /\ forall entry,
           log_vprint_spent P (length (trace w')) action_failed_format args
           = Some entry ->
           (self <> g_main_thread w \/ g_logging_utils_data w = None ->
            WaitForFutureCompletion P fuel self future w
            = Ret tt (emit (EvAndroidLog entry) w'))
           /\ (forall app d,
                 self = g_main_thread w ->
                 g_app_state w = Some app ->
                 g_logging_utils_data w = Some d ->
                 logging_utils_class_ d <> nullptr ->
                 attach_ok P = true ->
                 attach_env P <> nullptr ->
                 jni_pending w = None ->
                 let mirrored :=
                   [EvAndroidLog entry; EvAttachCurrentThread;
                    EvAddLogText (logging_utils_class_ d)
                      (logging_utils_add_log_text_ d) (line_buffer text);
                    EvAttachCurrentThread] in
                 match add_log_text_throws P (jni_calls w) with
                 | None =>
                     exists w'',
                       WaitForFutureCompletion P fuel self future w = Ret tt w''
                       /\ trace w'' = trace w' ++ mirrored
                 | Some exc =>
                     exists w'',
                       WaitForFutureCompletion P fuel self future w
                       = Stop AssertionFailed w''
                       /\ trace w'' = trace w' ++ mirrored ++ surfaced exc
                 end)).
Proof.
  intros Hbefore Hlast Hfuel w' code args text.
  pose proof (WaitForFutureCompletion_loop_stops P self future k w Hbefore Hlast fuel Hfuel)
    as Hloop. fold w' in Hloop.
  destruct (pump_same_handles P self (S k) w) as [Hsame Hclock]. fold w' in Hsame, Hclock.
  split; [exact Hloop|]. split; [exact Hclock|].
  assert (Hwait : WaitForFutureCompletion P fuel self future w
                  = report_future_error P self future w').
  { unfold WaitForFutureCompletion, bind. rewrite Hloop. reflexivity. }
  split.
  { intros Hcode. rewrite Hwait. unfold report_future_error, bind, read.
    fold code. rewrite Hcode. reflexivity. }
  intros Hcode.
  assert (Hlog : WaitForFutureCompletion P fuel self future w
                 = LogMessage_va P self action_failed_format args w').
  { rewrite Hwait. unfold report_future_error, bind, read. fold code.
    apply Z.eqb_neq in Hcode. rewrite Hcode. reflexivity. }
  destruct Hsame as (Hs_app & Hs_main & Hs_data & _ & _ & _ & _ & _ & _ & _ & Hs_pend & Hs_calls).
  split; [exact Hlog|]. intros entry Hentry.
  assert (Hview : WaitForFutureCompletion P fuel self future w
                  = LogMessage_view P self text (emit (EvAndroidLog entry) w')).
  { rewrite Hlog. unfold args.
    rewrite (LogMessage_va_entry P self _ _ _ entry w' Hentry).
    rewrite action_failed_message_format. reflexivity. }
  split.
  { intros [Hoff | Hnone]; rewrite Hview.
    - apply LogMessage_view_off_main. cbn [g_main_thread emit]. congruence.
    - apply LogMessage_view_without_view. cbn [g_logging_utils_data emit]. congruence. }
  intros app d Hmain Happ Hdata Hcls Hok Henv Hpend mirrored.
  destruct (LogMessage_view_on_main P text (emit (EvAndroidLog entry) w') app d)
    as (Ht & Hres); try (cbn [g_app_state g_logging_utils_data emit]; congruence).
  set (w1 := call_addLogText P d (line_buffer text)
                 (emit EvAttachCurrentThread (emit (EvAndroidLog entry) w'))) in *.
  assert (Hp1 : jni_pending w1 = add_log_text_throws P (jni_calls w)).
  { subst w1. unfold call_addLogText. cbn [jni_pending emit count_jni_call].
    rewrite Hs_pend, Hpend. cbn [jni_pending jni_calls set_jni_pending emit].
    rewrite Hs_calls. reflexivity. }
  rewrite Hp1 in Hres. cbn [g_main_thread emit] in Hres.
  subst self. rewrite <- Hs_main in Hview.
  destruct (add_log_text_throws P (jni_calls w)) as [exc|].
  - destruct Hres as (w2 & Hstop & _ & Ht2).
    exists w2. split; [congruence|].
    rewrite Ht2, Ht. cbn [trace emit]. unfold mirrored.
    rewrite <- !app_assoc. reflexivity.
  - exists (emit EvAttachCurrentThread w1). split; [congruence|].
    cbn [trace emit]. rewrite Ht. cbn [trace emit]. unfold mirrored.
    rewrite <- !app_assoc. reflexivity.
Qed.

Lemma WaitForFutureCompletion_logs_and_returns_witness :
  WaitForFutureCompletion quiet_platform 5 ui_thread failed_future session_world
  = Ret tt (emit (EvAndroidLog (action_failed_message 3 "No fill"))
              (pump quiet_platform ui_thread 3 session_world))
  /\ trace (pump quiet_platform ui_thread 3 session_world)
     = [EvUsleep 1000000; EvUsleep 1000000; EvUsleep 1000000].
Proof.
  destruct (WaitForFutureCompletion_logs_and_returns
              quiet_platform ui_thread failed_future session_world 2 5)
    as (_ & _ & _ & Hfail).
  - intros [|[|j]] Hj; [reflexivity|reflexivity|lia].
  - reflexivity.
  - lia.
  - destruct Hfail as (_ & Hentry).
    + cbv. discriminate.
    + destruct (Hentry (action_failed_message 3 "No fill")) as (Hoff & _).
      * reflexivity.
      * split; [|reflexivity]. apply Hoff. left. cbv. discriminate.
Defined.

(** C7, the claim as written: a future that fails while the log view throws
    does not come back to the caller.  On the main thread of a session
    whose view raises on the line it is given, the wait for a future that
    resolves with an error stops the process in [CheckJNIException]. *)
Lemma WaitForFutureCompletion_aborts_when_view_throws :
  Error failed_future
    (clock (pump throwing_platform worker_thread 3 logging_world))
  <> kAdMobErrorNone
  /\ (forall w', WaitForFutureCompletion throwing_platform 5 worker_thread
                   failed_future logging_world <> Ret tt w')
  /\ exists w',
       WaitForFutureCompletion throwing_platform 5 worker_thread failed_future
         logging_world = Stop AssertionFailed w'.
Proof.
  assert (H : exists w',
             WaitForFutureCompletion throwing_platform 5 worker_thread
               failed_future logging_world = Stop AssertionFailed w').
  { eexists. vm_compute. reflexivity. }
  split; [vm_compute; discriminate|].
  split; [|exact H].
  intros w' E. destruct H as [w'' H]. rewrite H in E. discriminate.
Qed.

(** ** Early initialisation *)

Lemma bind_Ret {A B} (m : M A) (k : A -> M B) (w w1 : World) (a : A) :
  m w = Ret a w1 -> bind m k w = k a w1.
Proof. intros H. unfold bind. rewrite H. reflexivity. Qed.

Lemma advanced_refl (w : World) : advanced w w.
Proof.
  split; [apply same_handles_refl|]. exists []. rewrite app_nil_r. auto.
Qed.

Lemma advanced_trans (a b c : World) : advanced a b -> advanced b c -> advanced a c.
Proof.
  intros [H1 (l1 & T1 & F1)] [H2 (l2 & T2 & F2)].
  split; [eapply same_handles_trans; eassumption|].
  exists (l1 ++ l2). split.
  - rewrite T2, T1, app_assoc. reflexivity.
  - apply Forall_app. auto.
Qed.

Lemma advanced_emit (e : event) (w : World) : plain e -> advanced w (emit e w).
Proof.
  intros He. split; [repeat split|]. exists [e]. split; [reflexivity|].
  constructor; auto.
Qed.

Lemma ProcessEvents_off_main_advanced (P : Platform) self msec w :
  self <> g_main_thread w -> advanced w (snd (ProcessEvents P self msec w)).
Proof.
  intros H. rewrite ProcessEvents_off_main by assumption. cbn [snd].
  split; [repeat split|]. eexists. split; [reflexivity|].
  constructor; [split; reflexivity|constructor].
Qed.

Lemma advanced_main_thread (w w' : World) :
  advanced w w' -> g_main_thread w' = g_main_thread w.
Proof. intros [(_ & H & _) _]. exact H. Qed.

(** Off the main thread, a future that resolves by time [T] ends the loop
    within [T + 1] iterations. *)
Lemma WaitForFutureCompletion_loop_off_main (P : Platform) self future T :
  resolves_by future T ->
  forall fuel w,
    self <> g_main_thread w ->
    (T < clock w + fuel)%nat ->
    (0 < fuel)%nat ->
    exists w', WaitForFutureCompletion_loop P fuel self future w = Ret tt w'
               /\ advanced w w'.
Proof.
  intros Hres. induction fuel as [|fuel IH]; intros w Hoff HT Hpos; [lia|].
  cbn [WaitForFutureCompletion_loop].
  pose proof (ProcessEvents_off_main_advanced P self 1000 w Hoff) as Hadv.
  destruct (ProcessEvents_same_handles P self 1000 w) as [_ Hclock].
  destruct (ProcessEvents P self 1000 w) as [r w1]. cbn [snd] in *.
  destruct r; cbn [negb]; [eauto|].
  destruct (FutureStatus_eqb (Status future (clock w1)) kFutureStatusPending) eqn:Es;
    cbn [negb]; [|eauto].
  assert (Hpending : Status future (clock w1) = kFutureStatusPending)
    by (destruct (Status future (clock w1)); try discriminate; reflexivity).
  assert (Hlt : (clock w1 < T)%nat).
  { destruct (Nat.lt_ge_cases (clock w1) T) as [|Hge]; [assumption|].
    exfalso. exact (Hres _ Hge Hpending). }
  destruct (IH w1) as (w' & E & Hadv'); try lia.
  - rewrite (advanced_main_thread _ _ Hadv). exact Hoff.
  - exists w'. split; [exact E|]. eapply advanced_trans; eassumption.
Qed.

(** Off the main thread a call with arguments returns when the system log
    takes its entry. *)
Lemma LogMessage_va_off_main (P : Platform) (self : pthread_t) (format : string)
    (args : list fmt_arg) (w : World) :
  vprint_returns P ->
  self <> g_main_thread w ->
  exists entry,
    LogMessage_va P self format args w = Ret tt (emit (EvAndroidLog entry) w).
Proof.
  intros Hv Hoff. destruct args as [|arg args].
  - exists format. apply LogMessage_off_main, Hoff.
  - destruct (log_vprint_spent P (length (trace w)) format (arg :: args))
      as [entry|] eqn:E; [|exfalso; exact (Hv _ _ _ E)].
    exists entry. rewrite (LogMessage_va_entry P self _ _ _ entry w E).
    apply LogMessage_view_off_main. exact Hoff.
Qed.

Lemma WaitForFutureCompletion_off_main (P : Platform) self future T fuel w :
  vprint_returns P ->
  resolves_by future T ->
  self <> g_main_thread w ->
  (T < fuel)%nat ->
  exists w', WaitForFutureCompletion P fuel self future w = Ret tt w'
             /\ advanced w w'.
Proof.
  intros Hv Hres Hoff HT.
  destruct (WaitForFutureCompletion_loop_off_main P self future T Hres fuel w Hoff)
    as (w1 & E & Hadv); try lia.
  unfold WaitForFutureCompletion. rewrite (bind_Ret _ _ _ _ _ E).
  unfold report_future_error, bind, read.
  destruct (negb (Error future (clock w1) =? kAdMobErrorNone)).
  - destruct (LogMessage_va_off_main P self action_failed_format
                [ArgInt (Error future (clock w1));
                 ArgStr (ErrorMessage future (clock w1))] w1 Hv)
      as (entry & Elog);
      [rewrite (advanced_main_thread _ _ Hadv); exact Hoff|].
    rewrite Elog. eexists. split; [reflexivity|].
    eapply advanced_trans; [exact Hadv|]. apply advanced_emit. split; reflexivity.
  - exists w1. split; [reflexivity|exact Hadv].
Qed.

Lemma act_Ret (f : World -> World) (w : World) : act f w = Ret tt (f w).
Proof. reflexivity. Qed.

Lemma read_Ret {A} (f : World -> A) (w : World) : read f w = Ret (f w) w.
Proof. reflexivity. Qed.

Ltac run_act := rewrite (bind_Ret _ _ _ _ _ (act_Ret _ _)).
Ltac run_read := rewrite (bind_Ret _ _ _ _ _ (read_Ret _ _)).
Ltac run_log :=
  erewrite bind_Ret by (apply LogMessage_off_main; cbn; congruence).

(** The one-time initialisation, run by a thread other than the main
    thread. *)
Lemma InitializeFirebase_body_off_main (P : Platform) fuel self w T :
  vprint_returns P ->
  self <> g_main_thread w ->
  app_create P <> nullptr ->
  resolves_by (banner_InitializeLastResult P) T ->
  resolves_by (banner_ShowLastResult P) T ->
  (T < fuel)%nat ->
  exists w' rest,
    InitializeFirebase_body P fuel self w = Ret tt w'
    /\ trace w' = trace w ++ EvAppCreate (g_jni_env w) (g_activity w) :: rest
    /\ Forall plain rest
    /\ g_app w' = app_create P
    /\ g_main_thread w' = g_main_thread w
    /\ g_logging_utils_data w' = g_logging_utils_data w.
Proof.
  intros Hv Hoff Happ Hinit Hshow HT. unfold InitializeFirebase_body.
  rewrite (bind_Ret _ _ _ _ _ (GetJniEnv_off_main P self w Hoff)).
  rewrite (bind_Ret _ _ _ _ _ (GetActivityM_off_main self w Hoff)).
  run_act. run_act. run_read.
  match goal with
  | |- context [bind (LogMessage_va P self ?f ?a) _ ?w0] =>
      destruct (LogMessage_va_off_main P self f a w0 Hv) as (entry & Elog);
        [cbn; congruence|]
  end.
  rewrite (bind_Ret _ _ _ _ _ Elog).
  run_log. run_read.
  cbn [g_app set_app emit].
  assert (En : is_null (app_create P) = false) by (apply Z.eqb_neq; exact Happ).
  rewrite En. run_act. run_act. run_log. run_act. run_act.
  unfold GetWindowContextM.
  erewrite bind_Ret by (apply GetActivityM_off_main; cbn; congruence).
  run_act.
  match goal with
  | |- context [bind (WaitForFutureCompletion P fuel self _) _ ?w0] =>
      destruct (WaitForFutureCompletion_off_main P self
                  (banner_InitializeLastResult P) T fuel w0 Hv Hinit)
        as (w1 & E1 & Hadv1); [cbn; congruence|exact HT|]
  end.
  rewrite (bind_Ret _ _ _ _ _ E1).
  pose proof (advanced_main_thread _ _ Hadv1) as Hm1. cbn in Hm1.
  erewrite bind_Ret by (apply LogMessage_off_main; congruence).
  run_act.
  match goal with
  | |- context [bind (WaitForFutureCompletion P fuel self _) _ ?w0] =>
      destruct (WaitForFutureCompletion_off_main P self
                  (banner_ShowLastResult P) T fuel w0 Hv Hshow)
        as (w2 & E2 & Hadv2); [cbn; congruence|exact HT|]
  end.
  rewrite (bind_Ret _ _ _ _ _ E2).
  pose proof (advanced_main_thread _ _ Hadv2) as Hm2. cbn in Hm2.
  erewrite bind_Ret by (apply LogMessage_off_main; congruence).
  run_read.
  destruct Hadv1 as [Hs1 (l1 & T1 & F1)]. destruct Hadv2 as [Hs2 (l2 & T2 & F2)].
  unfold same_handles in Hs1, Hs2. cbn in Hs1, Hs2, T1, T2.
  destruct Hs1 as (_ & _ & Hd1 & _ & _ & _ & _ & Ha1 & _ & Hr1 & _).
  destruct Hs2 as (_ & _ & Hd2 & _ & _ & _ & _ & Ha2 & _ & Hr2 & _).
  cbn [g_request emit]. rewrite Hr2, Hr1.
  eexists. eexists. split; [reflexivity|].
  cbn [trace g_app g_main_thread g_logging_utils_data emit].
  rewrite T2, T1. rewrite <- !app_assoc. cbn [app].
  split; [reflexivity|].
  split.
  { repeat first [apply Forall_cons; [split; reflexivity|]
                 |apply Forall_app; split; [assumption|]
                 |apply Forall_nil]. }
  repeat split; congruence.
Qed.

Lemma count_events_app (p : event -> bool) (a b : list event) :
  count_events p (a ++ b) = (count_events p a + count_events p b)%nat.
Proof. unfold count_events. rewrite filter_app, length_app. reflexivity. Qed.

Lemma count_events_plain (l : list event) :
  Forall plain l ->
  count_events is_cond_signal l = 0%nat /\ count_events is_app_create l = 0%nat.
Proof.
  unfold count_events. induction 1 as [|e l [Hs Hc] _ [IHs IHc]]; [split; reflexivity|].
  cbn [filter]. rewrite Hs, Hc. split; assumption.
Qed.

Lemma count_events_cons (p : event -> bool) (e : event) (l : list event) :
  count_events p (e :: l) = ((if p e then 1 else 0) + count_events p l)%nat.
Proof. unfold count_events. cbn [filter]. destruct (p e); reflexivity. Qed.

(** With the application handle in place, [InitializeFirebase] returns at
    its first line, whatever the thread and the fuel. *)
Lemma InitializeFirebase_already (P : Platform) fuel self w :
  g_app w <> nullptr -> InitializeFirebase P fuel self w = Ret tt w.
Proof.
  intros H. unfold InitializeFirebase, bind, read.
  assert (E : is_null (g_app w) = false) by (apply Z.eqb_neq; exact H).
  rewrite E. reflexivity.
Qed.

Lemma InitializeFirebase_off_main (P : Platform) fuel self w T :
  vprint_returns P ->
  self <> g_main_thread w ->
  app_create P <> nullptr ->
  resolves_by (banner_InitializeLastResult P) T ->
  resolves_by (banner_ShowLastResult P) T ->
  (T < fuel)%nat ->
  exists w' evs,
    InitializeFirebase P fuel self w = Ret tt w'
    /\ trace w' = trace w ++ evs
    /\ count_events is_cond_signal evs = 0%nat
    /\ count_events is_app_create evs = (if is_null (g_app w) then 1 else 0)%nat
    /\ (is_null (g_app w) = true ->
        exists rest, evs = EvAppCreate (g_jni_env w) (g_activity w) :: rest)
    /\ g_app w' <> nullptr
    /\ g_main_thread w' = g_main_thread w
    /\ g_logging_utils_data w' = g_logging_utils_data w.
Proof.
  intros Hv Hoff Happ Hinit Hshow HT.
  destruct (is_null (g_app w)) eqn:En.
  - destruct (InitializeFirebase_body_off_main P fuel self w T Hv Hoff Happ Hinit Hshow HT)
      as (w' & rest & E & Ht & Hplain & Ha & Hm & Hd).
    exists w', (EvAppCreate (g_jni_env w) (g_activity w) :: rest).
    destruct (count_events_plain rest Hplain) as [Cs Cc].
    unfold InitializeFirebase, bind, read. rewrite En. cbn [negb].
    split; [exact E|]. split; [exact Ht|].
    split; [exact Cs|].
    split; [unfold count_events in *; cbn; rewrite Cc; reflexivity|].
    split; [eauto|].
    repeat split; congruence.
  - assert (Hn : g_app w <> nullptr) by (apply Z.eqb_neq; exact En).
    exists w, []. rewrite InitializeFirebase_already by assumption.
    rewrite app_nil_r. repeat split; auto. discriminate.
Qed.

(** One call of [nativeInit] from a thread of the managed runtime. *)
Lemma nativeInit_off_main (P : Platform) fuel self env thiz activity w T :
  vprint_returns P ->
  self <> g_main_thread w ->
  app_create P <> nullptr ->
  resolves_by (banner_InitializeLastResult P) T ->
  resolves_by (banner_ShowLastResult P) T ->
  (T < fuel)%nat ->
  exists w' evs,
    nativeInit P fuel self env thiz activity w = Ret tt w'
    /\ trace w' = trace w ++ evs
    /\ count_events is_cond_signal evs = 1%nat
    /\ count_events is_app_create evs = (if is_null (g_app w) then 1 else 0)%nat
    /\ (is_null (g_app w) = true -> In (EvAppCreate env activity) evs)
    /\ last evs EvCondSignal = EvCondSignal
    /\ g_initialized w' = true
    /\ g_app w' <> nullptr
    /\ g_main_thread w' = g_main_thread w
    /\ g_jni_env w' = nullptr
    /\ g_activity w' = nullptr.
Proof.
  intros Hv Hoff Happ Hinit Hshow HT. unfold nativeInit.
  run_log. run_act. run_act.
  match goal with
  | |- context [bind (InitializeFirebase P fuel self) _ ?w0] =>
      destruct (InitializeFirebase_off_main P fuel self w0 T Hv)
        as (w1 & evs & E & Ht & Cs & Cc & Hfirst & Ha & Hm & Hd);
        [cbn; congruence|assumption..|]
  end.
  rewrite (bind_Ret _ _ _ _ _ E). cbn in Ht, Cc, Hfirst, Hm.
  run_act. run_act. run_act. run_act. run_act.
  erewrite bind_Ret by (apply LogMessage_off_main; cbn; congruence).
  rewrite act_Ret.
  eexists. eexists. split; [reflexivity|].
  cbn [trace emit set_activity set_jni_env set_initialized].
  rewrite Ht. rewrite <- !app_assoc. cbn [app].
  split; [reflexivity|].
  split.
  { rewrite count_events_cons, count_events_app, Cs. reflexivity. }
  split.
  { rewrite count_events_cons, count_events_app, Cc. cbn. lia. }
  split.
  { intros Hnull. destruct (Hfirst Hnull) as (rest & ->). right. left. reflexivity. }
  split.
  { match goal with
    | |- last (?e :: evs ++ [?a; ?b; ?c; ?d]) _ = _ =>
        replace (e :: evs ++ [a; b; c; d]) with ((e :: evs ++ [a; b; c]) ++ [d])
          by (cbn [app]; rewrite <- app_assoc; reflexivity)
    end.
    apply last_last. }
  cbn. repeat split; auto.
Qed.

(** Once Firebase is initialised, a further call changes nothing but the
    trace. *)
Lemma nativeInit_again (P : Platform) fuel self env thiz activity w :
  self <> g_main_thread w ->
  g_app w <> nullptr ->
  g_initialized w = true ->
  g_jni_env w = nullptr ->
  g_activity w = nullptr ->
  nativeInit P fuel self env thiz activity w = Ret tt (emit_all early_init_again w).
Proof.
  intros Hoff Happ Hi He Ha. unfold nativeInit.
  run_log. run_act. run_act.
  erewrite bind_Ret by (apply InitializeFirebase_already; cbn; exact Happ).
  run_act. run_act. run_act. run_act. run_act.
  erewrite bind_Ret by (apply LogMessage_off_main; cbn; congruence).
  rewrite act_Ret. f_equal.
  destruct w. cbn in Hi, He, Ha. subst. reflexivity.
Qed.

Lemma nativeInit_calls_off_main (P : Platform) fuel self T :
  vprint_returns P ->
  app_create P <> nullptr ->
  resolves_by (banner_InitializeLastResult P) T ->
  resolves_by (banner_ShowLastResult P) T ->
  (T < fuel)%nat ->
  forall calls w,
    self <> g_main_thread w ->
    exists w' evs,
      nativeInit_calls P fuel self calls w = Ret tt w'
      /\ trace w' = trace w ++ evs
      /\ count_events is_cond_signal evs = length calls
      /\ count_events is_app_create evs
         = (if is_null (g_app w) then Nat.min 1 (length calls) else 0)%nat
      /\ (calls <> [] ->
          g_initialized w' = true /\ g_app w' <> nullptr
          /\ g_jni_env w' = nullptr /\ g_activity w' = nullptr)
      /\ g_main_thread w' = g_main_thread w.
Proof.
  intros Hv Happ Hinit Hshow HT.
  induction calls as [|[[env thiz] activity] calls IH]; intros w Hoff.
  - exists w, []. cbn. rewrite app_nil_r.
    repeat split; try congruence. destruct (is_null (g_app w)); reflexivity.
  - cbn [nativeInit_calls].
    destruct (nativeInit_off_main P fuel self env thiz activity w T
                Hv Hoff Happ Hinit Hshow HT)
      as (w1 & evs1 & E1 & Ht1 & Cs1 & Cc1 & _ & _ & Hi1 & Ha1 & Hm1 & He1 & Hact1).
    rewrite (bind_Ret _ _ _ _ _ E1).
    destruct (IH w1) as (w' & evs & E & Ht & Cs & Cc & Hne & Hm);
      [congruence|].
    exists w', (evs1 ++ evs).
    split; [exact E|].
    split; [rewrite Ht, Ht1, app_assoc; reflexivity|].
    split; [rewrite count_events_app, Cs1, Cs; reflexivity|].
    split.
    { rewrite count_events_app, Cc1, Cc.
      assert (En : is_null (g_app w1) = false) by (apply Z.eqb_neq; exact Ha1).
      rewrite En. cbn [length]. destruct (is_null (g_app w)); lia. }
    split; [|congruence].
    intros _. destruct calls as [|c calls].
    + cbn in E. injection E as <-. repeat split; assumption.
    + apply Hne. discriminate.
Qed.


(** ** Leaving the session *)

Lemma ProcessEvents_result (P : Platform) self msec w :
  fst (ProcessEvents P self msec w)
  = g_destroy_requested (snd (ProcessEvents P self msec w))
    || g_restarted (snd (ProcessEvents P self msec w)).
Proof.
  unfold ProcessEvents.
  destruct (negb (pthread_equal (g_main_thread w) self)); reflexivity.
Qed.

(** [common_main] comes back to [android_main] only with a destroy or a
    restart request up: this is the test at [Restart.InSession]. *)
Lemma common_main_wait_for_kill_returns (P : Platform) fuel self w w' :
  common_main_wait_for_kill P fuel self w = Ret tt w' ->
  g_destroy_requested w' || g_restarted w' = true.
Proof.
  revert w. induction fuel as [|fuel IH]; intros w; cbn [common_main_wait_for_kill];
    [discriminate|].
  pose proof (ProcessEvents_result P self 1000 w) as Hr.
  destruct (ProcessEvents P self 1000 w) as [r w1]. cbn [fst snd] in Hr.
  destruct r; cbn [negb].
  - intros E. injection E as <-. symmetry. exact Hr.
  - apply IH.
Qed.

(** ** The restart gate *)

Module RestartFacts.
Import Restart.

Lemma move_same (t : tid) (l : label) (f : tid -> label) : move t l f t = l.
Proof. unfold move. rewrite Nat.eqb_refl. reflexivity. Qed.

Lemma move_other (t u : tid) (l : label) (f : tid -> label) :
  u <> t -> move t l f u = f u.
Proof. intros H. unfold move. apply Nat.eqb_neq in H. rewrite H. reflexivity. Qed.

Lemma initial_invariant : gate_invariant initial.
Proof.
  split; cbn.
  - intros t. split; discriminate.
  - intros t. discriminate.
  - intros t u. discriminate.
  - intros t. discriminate.
Qed.

Lemma running_alive (l : label) : running l = true -> alive l = true.
Proof. destruct l; cbn; congruence. Qed.

Lemma running_past_acquisition (l : label) :
  running l = true -> past_acquisition l = true.
Proof. destruct l; cbn; congruence. Qed.

Lemma past_acquisition_alive (l : label) : past_acquisition l = true -> alive l = true.
Proof. destruct l; cbn; congruence. Qed.

(** At most one thread is past an acquisition. *)
Lemma owner_unique (s : state) (t u : tid) :
  gate_invariant s ->
  past_acquisition (at_label s t) = true ->
  past_acquisition (at_label s u) = true ->
  t = u.
Proof.
  intros I Ht Hu.
  apply (gate_owner s I) in Ht. apply (gate_owner s I) in Hu. congruence.
Qed.

Lemma invoke_invariant (t : tid) (s s' : state) :
  gate_invariant s -> invoke t s s' -> gate_invariant s'.
Proof.
  intros I [l' m' Hfresh Hwhen Hexec ->]. cbn [exec] in Hexec.
  injection Hexec as <- <-.
  assert (Hl' : forall l, l = (if g_started (mem s) then L294 else L299) ->
                          past_acquisition l = false /\ running l = false
                          /\ alive l = true /\ l <> L293).
  { intros l ->. destruct (g_started (mem s)); cbn; repeat split; discriminate. }
  destruct (Hl' _ eq_refl) as (Hpa & Hrun & Halive & H293).
  split; cbn [mem at_label].
  - intros u. destruct (Nat.eq_dec u t) as [->|Hne].
    + rewrite move_same, Hpa. rewrite <- (gate_owner s I t), Hfresh. reflexivity.
    + rewrite move_other by assumption. apply (gate_owner s I).
  - intros u. destruct (Nat.eq_dec u t) as [->|Hne].
    + rewrite move_same, Hrun. discriminate.
    + rewrite move_other by assumption. apply (gate_started s I).
  - intros t0 u. destruct (Nat.eq_dec t0 t) as [->|Hne0].
    + rewrite move_same. intros Hl Hu. rewrite move_other by assumption.
      destruct Hwhen as [Hdead | [v Hv]]; [apply Hdead|].
      apply (gate_started s I) in Hv. rewrite Hv in Hl. discriminate.
    + rewrite move_other by assumption. intros Hl Hu. exfalso.
      destruct Hwhen as [Hdead | [v Hv]].
      * specialize (Hdead t0). rewrite Hl in Hdead. discriminate.
      * assert (v <> t0) by (intros ->; rewrite Hl in Hv; discriminate).
        pose proof (gate_alone s I t0 v Hl H) as Hd.
        apply running_alive in Hv. congruence.
  - intros u. destruct (Nat.eq_dec u t) as [->|Hne].
    + rewrite move_same. exact H293.
    + rewrite move_other by assumption. apply (gate_tested s I).
Qed.

Lemma exec_alive (t : tid) (l l' : label) (m m' : shared) :
  exec t l m = Some (l', m') -> alive l = true.
Proof. destruct l; cbn; congruence. Qed.

Lemma dead_not_past_acquisition (l : label) :
  alive l = false -> past_acquisition l = false.
Proof. destruct l; cbn; congruence. Qed.

(** Splits on the statement a thread executes; lock statements leave the
    case in which the mutex is free. *)
Ltac exec_cases Hexec :=
  match type of Hexec with
  | exec _ ?l ?m = Some _ =>
      destruct l eqn:?Hl; cbn [exec] in Hexec; try discriminate Hexec;
      try (match type of Hexec with
           | context [mutex_lock] =>
               unfold mutex_lock in Hexec;
               destruct (g_started_mutex m) eqn:?Em; cbn [option_map] in Hexec;
               [discriminate Hexec|]
           end);
      injection Hexec as <- <-
  end.

Lemma advance_invariant (t : tid) (s s' : state) :
  gate_invariant s -> advance t s s' -> gate_invariant s'.
Proof.
  intros I [l' m' Hexec ->].
  pose proof (exec_alive _ _ _ _ _ Hexec) as Halive.
  pose proof (gate_tested s I t) as H293.
  pose proof (gate_owner s I t) as Hown.
  pose proof (gate_started s I t) as Hst.
  assert (Hothers : forall u, u <> t ->
            past_acquisition (at_label s t) = true ->
            past_acquisition (at_label s u) = false).
  { intros u Hne Ht. destruct (past_acquisition (at_label s u)) eqn:Hu; auto.
    exfalso. apply Hne. symmetry. eapply owner_unique; eassumption. }
  split; cbn [mem at_label].
  - intros u. destruct (Nat.eq_dec u t) as [->|Hne].
    + rewrite move_same.
      exec_cases Hexec; cbn in *; try tauto;
        try (split; congruence);
        try (destruct (g_destroy_requested (mem s) || g_restarted (mem s)); cbn; tauto).
      all: split; try discriminate; intros; try reflexivity; try congruence; tauto.
    + rewrite move_other by assumption.
      pose proof (gate_owner s I u) as Hu.
      pose proof (gate_alone s I t u) as Hal.
      exec_cases Hexec; cbn in *; try tauto.
      * rewrite Hu. split; congruence.
      * rewrite (Hothers u Hne eq_refl). split; discriminate.
      * rewrite (dead_not_past_acquisition _ (Hal eq_refl Hne)). split; discriminate.
      * rewrite Hu. split; congruence.
      * rewrite (Hothers u Hne eq_refl). split; discriminate.
  - intros u. destruct (Nat.eq_dec u t) as [->|Hne].
    + rewrite move_same.
      exec_cases Hexec; cbn in *; try discriminate; try tauto;
        try (destruct (g_destroy_requested (mem s) || g_restarted (mem s)); cbn; tauto).
    + rewrite move_other by assumption.
      pose proof (gate_started s I u) as Hu.
      exec_cases Hexec; cbn in *; try tauto.
      intros Hr. apply running_past_acquisition in Hr.
      rewrite (Hothers u Hne eq_refl) in Hr. discriminate.
  - intros t0 u. destruct (Nat.eq_dec t0 t) as [->|Hne0].
    + rewrite move_same. intros Hl. exfalso.
      exec_cases Hexec; try discriminate; try congruence.
      destruct (g_destroy_requested (mem s) || g_restarted (mem s)); discriminate.
    + rewrite move_other by assumption. intros Hl Hu. exfalso.
      pose proof (gate_alone s I t0 t Hl ltac:(congruence)). congruence.
  - intros u. destruct (Nat.eq_dec u t) as [->|Hne].
    + rewrite move_same.
      exec_cases Hexec; try discriminate; try congruence.
      destruct (g_destroy_requested (mem s) || g_restarted (mem s)); discriminate.
    + rewrite move_other by assumption. apply (gate_tested s I).
Qed.

Lemma step_invariant (s s' : state) :
  gate_invariant s -> step s s' -> gate_invariant s'.
Proof.
  intros I [t H | t H]; [eapply invoke_invariant|eapply advance_invariant]; eassumption.
Qed.

Lemma steps_invariant (s s' : state) :
  gate_invariant s -> steps s s' -> gate_invariant s'.
Proof.
  intros I H. induction H as [|s1 s2 _ IH Hstep]; [exact I|].
  eapply step_invariant; eassumption.
Qed.

Lemma reachable_invariant (s : state) : reachable s -> gate_invariant s.
Proof. apply steps_invariant, initial_invariant. Qed.

Lemma in_instance_past_acquisition (l : label) :
  in_instance l = true -> past_acquisition l = true.
Proof. destruct l; cbn; congruence. Qed.

Lemma running_in_instance (l : label) : running l = true -> in_instance l = true.
Proof. destruct l; cbn; congruence. Qed.

(** A thread that has left [android_main] stays where it is. *)
Lemma exited_stays (u : tid) (s s' : state) :
  step s s' -> at_label s u = Exited -> at_label s' u = Exited.
Proof.
  intros [t0 [l' m' Hfresh _ _ ->] | t0 [l' m' Hexec ->]] Hu; cbn [at_label].
  - rewrite move_other; [exact Hu|]. intros ->. congruence.
  - rewrite move_other; [exact Hu|]. intros ->. rewrite Hu in Hexec. discriminate.
Qed.

(** While the instance of [u] lasts, the restarting thread [t] stays in front
    of its first acquisition and the restart request stays up; one step. *)
Lemma restart_step (t u : tid) (s s' : state) :
  t <> u ->
  gate_invariant s ->
  step s s' ->
  (((at_label s t = L294 \/ at_label s t = L296) /\ in_instance (at_label s u) = true)
   \/ at_label s u = Exited) ->
  (at_label s t = L294 \/ g_restarted (mem s) = true
   \/ at_label s u = L379 \/ at_label s u = Exited) ->
  (((at_label s' t = L294 \/ at_label s' t = L296) /\ in_instance (at_label s' u) = true)
   \/ at_label s' u = Exited)
  /\ (at_label s' t = L294 \/ g_restarted (mem s') = true
      \/ at_label s' u = L379 \/ at_label s' u = Exited).
Proof.
  intros Htu I Hstep [[Ht Hu] | Hu] Hflag;
    [|pose proof (exited_stays u s s' Hstep Hu); tauto].
  pose proof (in_instance_past_acquisition _ Hu) as Hpa.
  pose proof (proj1 (gate_owner s I u) Hpa) as Hmutex.
  destruct Hstep as [t0 [l' m' Hfresh _ Hexec ->] | t0 [l' m' Hexec ->]];
    cbn [mem at_label].
  - (* another invocation arrives: [t] and [u] stay where they are *)
    cbn [exec] in Hexec. injection Hexec as <- <-.
    rewrite (move_other t0 u) by (intros ->; rewrite Hfresh in Hu; discriminate).
    rewrite (move_other t0 t) by (intros ->; destruct Ht; congruence).
    tauto.
  - destruct (Nat.eq_dec t0 t) as [->|Hnt].
    + (* the restarting thread moves: from 294 to 296, and no further *)
      rewrite move_same, (move_other t u) by congruence.
      destruct Ht as [Ht | Ht]; rewrite Ht in Hexec; cbn [exec] in Hexec.
      * injection Hexec as <- <-. cbn. tauto.
      * unfold mutex_lock in Hexec. rewrite Hmutex in Hexec. discriminate.
    + rewrite (move_other t0 t) by congruence.
      destruct (Nat.eq_dec t0 u) as [->|Hnu].
      * (* the running instance moves on, possibly out *)
        rewrite move_same.
        destruct (at_label s u) eqn:Hl; try discriminate Hu;
          cbn [exec] in Hexec; try discriminate Hexec;
          injection Hexec as <- <-; cbn;
          try (destruct (g_destroy_requested (mem s) || g_restarted (mem s)); cbn);
          intuition congruence.
      * (* a third thread moves: it does not own the mutex *)
        rewrite (move_other t0 u) by congruence.
        assert (Hnot : past_acquisition (at_label s t0) = false).
        { destruct (past_acquisition (at_label s t0)) eqn:E; auto.
          exfalso. apply Hnu. eapply owner_unique; eassumption. }
        destruct (at_label s t0) eqn:Hl; try discriminate Hnot;
          cbn [exec] in Hexec; try discriminate Hexec;
          try (unfold mutex_lock in Hexec; rewrite Hmutex in Hexec;
               discriminate Hexec);
          injection Hexec as <- <-; cbn;
          try (destruct (g_started (mem s)); cbn);
          intuition congruence.
Qed.

Lemma restart_steps (t u : tid) (s s' : state) :
  t <> u ->
  gate_invariant s ->
  steps s s' ->
  (((at_label s t = L294 \/ at_label s t = L296) /\ in_instance (at_label s u) = true)
   \/ at_label s u = Exited) ->
  (at_label s t = L294 \/ g_restarted (mem s) = true
   \/ at_label s u = L379 \/ at_label s u = Exited) ->
  (((at_label s' t = L294 \/ at_label s' t = L296) /\ in_instance (at_label s' u) = true)
   \/ at_label s' u = Exited)
  /\ (at_label s' t = L294 \/ g_restarted (mem s') = true
      \/ at_label s' u = L379 \/ at_label s' u = Exited).
Proof.
  intros Htu I Hsteps Hfront Hflag.
  induction Hsteps as [|s1 s2 Hsteps IH Hstep]; [split; assumption|].
  destruct IH as [Hfront1 Hflag1].
  apply (restart_step t u s1 s2 Htu); try assumption.
  eapply steps_invariant; eassumption.
Qed.

(** X2: the restarts the gate is built for.  In every state of every
    interleaving of [android_main] invocations in which no destroy command
    arrives and each invocation tests [g_started] either with no invocation
    alive or while an instance has [g_started] set (that instance has
    executed line 305 and has not yet executed line 377), at most one
    thread is inside the region of lines 301 to 379.
    An invocation [t] made while the instance of [u] has [g_started] set
    takes the branch of line 294, whose statement sets [g_restarted]; the
    flag is then up until [u] clears it at line 378; and [t] stays in front
    of its lock of line 296 for as long as [u] has not executed the unlock
    of line 379 and left.  Nothing is said of an invocation that arrives
    while the old instance is at line 378 or 379: it reads [g_started]
    false and takes the other branch. *)
Lemma restart_waits_for_running_instance (s : state) :
  reachable s ->
  (forall t u,
     in_instance (at_label s t) = true ->
     in_instance (at_label s u) = true -> t = u)
  /\ (forall t u s1,
        running (at_label s u) = true ->
        invoke t s s1 ->
        at_label s1 t = L294
        /\ exec t L294 (mem s1) = Some (L296, with_restarted true (mem s1))
        /\ forall s2, steps s1 s2 ->
             (at_label s2 t = L294 \/ at_label s2 t = L296
              \/ at_label s2 u = Exited)
             /\ (at_label s2 t = L294 \/ g_restarted (mem s2) = true
                 \/ at_label s2 u = L379 \/ at_label s2 u = Exited)).
Proof.
  intros Hreach. pose proof (reachable_invariant s Hreach) as I.
  split.
  { intros t u Ht Hu.
    apply (owner_unique s t u I); apply in_instance_past_acquisition; assumption. }
  intros t u s1 Hu Hinv.
  pose proof (invoke_invariant t s s1 I Hinv) as I1.
  destruct Hinv as [l' m' Hfresh Hwhen Hexec ->].
  cbn [exec] in Hexec. injection Hexec as <- <-.
  rewrite (gate_started s I u Hu). cbn [mem at_label] in *.
  rewrite (gate_started s I u Hu) in I1.
  assert (Htu : t <> u) by (intros ->; rewrite Hfresh in Hu; discriminate).
  rewrite move_same.
  split; [reflexivity|]. split; [reflexivity|].
  intros s2 Hsteps.
  destruct (restart_steps t u _ s2 Htu I1 Hsteps) as [Hfront Hflag].
  - left. cbn [at_label]. rewrite move_same, move_other by congruence.
    split; [left; reflexivity|]. apply running_in_instance. exact Hu.
  - left. cbn [at_label]. apply move_same.
  - split; [tauto|exact Hflag].
Qed.

Lemma after_advance_step (t : tid) (s : state) :
  exec t (at_label s t) (mem s) <> None -> step s (after_advance t s).
Proof.
  intros H. apply step_advance with (t := t).
  unfold after_advance, after_exec.
  destruct (exec t (at_label s t) (mem s)) as [[l' m']|] eqn:E; [|congruence].
  econstructor; [exact E|reflexivity].
Qed.

Lemma first_session_reachable : reachable first_session.
Proof.
  unfold reachable, first_session.
  repeat (eapply steps_more; [|apply after_advance_step; discriminate]).
  eapply steps_more; [apply steps_refl|].
  apply step_invoke with (t := 0%nat).
  econstructor; [reflexivity|left; intros u; reflexivity|reflexivity|reflexivity].
Qed.

Lemma restart_waits_for_first_session :
  at_label (after_invoke 1%nat first_session) 1%nat = L294
  /\ forall s2, steps (after_invoke 1%nat first_session) s2 ->
       at_label s2 1%nat = L294 \/ at_label s2 1%nat = L296
       \/ at_label s2 0%nat = Exited.
Proof.
  destruct (restart_waits_for_running_instance first_session first_session_reachable)
    as [_ Hrestart].
  destruct (Hrestart 1%nat 0%nat (after_invoke 1%nat first_session))
    as (H294 & _ & Hwait).
  - reflexivity.
  - econstructor;
      [reflexivity|right; exists 0%nat; reflexivity|reflexivity|reflexivity].
  - split; [exact H294|]. intros s2 Hs. apply (Hwait s2 Hs).
Defined.

(** *** Invocations that arrive at any moment *)

Lemma decide_step_any (d : decision) (s : state) :
  enabled d s = true -> step_any s (decide d s).
Proof.
  destruct d as [t|t]; cbn [enabled decide]; intros H.
  - apply step_arrive with (t := t). constructor; [|reflexivity].
    destruct (at_label s t); try discriminate H. reflexivity.
  - apply step_run with (t := t). unfold after_advance, after_exec.
    destruct (exec t (at_label s t) (mem s)) as [[l' m']|] eqn:E;
      [|discriminate H].
    econstructor; [exact E|reflexivity].
Qed.

Lemma schedule_steps_any (ds : list decision) :
  forall s0 s, steps_any s0 s -> all_enabled ds s = true ->
               steps_any s0 (schedule ds s).
Proof.
  induction ds as [|d ds IH]; intros s0 s Hs Hen; [exact Hs|].
  cbn [all_enabled] in Hen. apply andb_true_iff in Hen. destruct Hen as [Hd Hrest].
  cbn [schedule fold_left]. apply IH; [|exact Hrest].
  eapply steps_any_more; [exact Hs|]. apply decide_step_any. exact Hd.
Qed.

(** C1: the gate of lines 293 to 301 does not keep the instances apart when
    an invocation tests [g_started] before the previous one has set it.  With
    [racing_pair], two invocations both read [g_started = false], both run
    line 299, and both reach their session, neither having asked for a
    restart.  With [stalled_third], a thread that read [g_started = false]
    runs line 299 later, while thread 0 holds the mutex in its session and
    thread 1, which found thread 0 running and set [g_restarted], waits at
    line 296: the mutex is reset, and thread 1 gets past line 296 with thread
    0 still in its session. *)
Theorem racing_invocations_overlap :
  (let s := schedule racing_pair initial in
   steps_any initial s
   /\ at_label s 0%nat = InSession
   /\ at_label s 1%nat = InSession
   /\ g_restarted (mem s) = false)
  /\ (let a := schedule stalled_third initial in
      let b := schedule restart_arrives a in
      let c := schedule restart_overtakes b in
      steps_any initial a
      /\ running (at_label a 0%nat) = true
      /\ at_label a 1%nat = NotInvoked
      /\ steps_any a b
      /\ at_label b 1%nat = L294
      /\ steps_any b c
      /\ g_restarted (mem c) = true
      /\ at_label c 0%nat = InSession
      /\ at_label c 1%nat = L297
      /\ g_started_mutex (mem c) = Some 1%nat).
Proof.
  split; cbv zeta.
  - split; [apply schedule_steps_any; [apply steps_any_refl|reflexivity]|].
    repeat split.
  - split; [apply schedule_steps_any; [apply steps_any_refl|reflexivity]|].
    split; [reflexivity|]. split; [reflexivity|].
    split; [apply schedule_steps_any; [apply steps_any_refl|reflexivity]|].
    split; [reflexivity|].
    split; [apply schedule_steps_any; [apply steps_any_refl|reflexivity]|].
    repeat split.
Qed.

End RestartFacts.

(** * Further properties *)

(** ** Rules for specifications *)

Lemma spec_bind {A B} Pre (m : M A) (k : A -> M B) Mid Post Err :
  spec Pre m Mid Err -> (forall a, spec (Mid a) (k a) Post Err) ->
  spec Pre (bind m k) Post Err.
Proof.
  intros Hm Hk w Hw. unfold bind. specialize (Hm w Hw).
  destruct (m w) as [a w'| |]; auto. apply Hk. exact Hm.
Qed.

Lemma spec_weaken {A} (Pre Pre' : World -> Prop) (m : M A)
    (Post Post' : A -> World -> Prop) (Err Err' : World -> Prop) :
  spec Pre' m Post' Err' ->
  (forall w, Pre w -> Pre' w) ->
  (forall a w, Post' a w -> Post a w) ->
  (forall w, Err' w -> Err w) ->
  spec Pre m Post Err.
Proof.
  intros H HP HQ HE w Hw. specialize (H w (HP w Hw)).
  destruct (m w); auto.
Qed.

Lemma spec_ret {A} (I : World -> Prop) Err (a : A) : spec I (ret a) (fun _ => I) Err.
Proof. intros w Hw. exact Hw. Qed.

Lemma spec_stop {A} (I : World -> Prop) Post (f : fault) : spec I (@stop A f) Post I.
Proof. intros w Hw. exact Hw. Qed.

Lemma spec_act (I J : World -> Prop) Err (f : World -> World) :
  (forall w, I w -> J (f w)) -> spec I (act f) (fun _ => J) Err.
Proof. intros Hf w Hw. apply Hf. exact Hw. Qed.

Lemma ensures_bind {A B} (I : World -> Prop) (m : M A) (k : A -> M B) :
  ensures I m -> (forall a, ensures I (k a)) -> ensures I (bind m k).
Proof. intros Hm Hk. eapply spec_bind; [exact Hm|exact Hk]. Qed.

Lemma ensures_ret {A} (I : World -> Prop) (a : A) : ensures I (ret a).
Proof. apply spec_ret. Qed.

Lemma ensures_read {A} (I : World -> Prop) (f : World -> A) : ensures I (read f).
Proof. intros w Hw. exact Hw. Qed.

Lemma ensures_stop {A} (I : World -> Prop) (f : fault) : ensures I (@stop A f).
Proof. apply spec_stop. Qed.

Lemma ensures_assert (I : World -> Prop) (c : bool) : ensures I (assert c).
Proof. intros w Hw. unfold assert. destruct c; exact Hw. Qed.

Lemma ensures_act (I : World -> Prop) (f : World -> World) :
  (forall w, I w -> I (f w)) -> ensures I (act f).
Proof. apply spec_act. Qed.

Lemma pspec_bind {A B} Pre (m : PM A) (k : A -> PM B) Mid Post Err :
  pspec Pre m Mid Err -> (forall a, pspec (Mid a) (k a) Post Err) ->
  pspec Pre (pbind m k) Post Err.
Proof.
  intros Hm Hk p Hp. unfold pbind. specialize (Hm p Hp).
  destruct (m p) as [a p'| |]; auto. apply Hk. exact Hm.
Qed.

Lemma pspec_weaken {A} (Pre Pre' : Process -> Prop) (m : PM A)
    (Post Post' : A -> Process -> Prop) (Err Err' : Process -> Prop) :
  pspec Pre' m Post' Err' ->
  (forall p, Pre p -> Pre' p) ->
  (forall a p, Post' a p -> Post a p) ->
  (forall p, Err' p -> Err p) ->
  pspec Pre m Post Err.
Proof.
  intros H HP HQ HE p Hp. specialize (H p (HP p Hp)).
  destruct (m p); auto.
Qed.

Lemma pspec_ret {A} (I : Process -> Prop) Err (a : A) :
  pspec I (pret a) (fun _ => I) Err.
Proof. intros p Hp. exact Hp. Qed.

Lemma pspec_stop {A} (I : Process -> Prop) Post (f : fault) :
  pspec I (@pstop A f) Post I.
Proof. intros p Hp. exact Hp. Qed.

Lemma pspec_note (I J : Process -> Prop) Err (c : call) :
  (forall p, I p ->
     J {| world := world p;
          noted := noted p ++ [(length (trace (world p)), c)] |}) ->
  pspec I (note c) (fun _ => J) Err.
Proof. intros H p Hp. apply H. exact Hp. Qed.

(** A call of the first part keeps the notes as they are. *)
Lemma pspec_lift {A} (m : M A) (Pre : Process -> Prop)
    (Post : A -> Process -> Prop) (Err : Process -> Prop) :
  (forall n, spec (fun w => Pre {| world := w; noted := n |}) m
               (fun a w => Post a {| world := w; noted := n |})
               (fun w => Err {| world := w; noted := n |})) ->
  pspec Pre (lift m) Post Err.
Proof.
  intros H [w n] Hp. unfold lift. cbn [world noted].
  specialize (H n w Hp). destruct (m w); exact H.
Qed.

Lemma pensures_bind {A B} (I : Process -> Prop) (m : PM A) (k : A -> PM B) :
  pensures I m -> (forall a, pensures I (k a)) -> pensures I (pbind m k).
Proof. intros Hm Hk. eapply pspec_bind; [exact Hm|exact Hk]. Qed.

Lemma pensures_ret {A} (I : Process -> Prop) (a : A) : pensures I (pret a).
Proof. apply pspec_ret. Qed.

Lemma pensures_stop {A} (I : Process -> Prop) (f : fault) : pensures I (@pstop A f).
Proof. apply pspec_stop. Qed.

(** For an invariant of the world alone. *)
Lemma pensures_lift {A} (I : World -> Prop) (m : M A) :
  ensures I m -> pensures (fun p => I (world p)) (lift m).
Proof. intros H. apply pspec_lift. intros n. exact H. Qed.

Lemma pensures_note (I : World -> Prop) (c : call) :
  pensures (fun p => I (world p)) (note c).
Proof. apply pspec_note. intros p Hp. exact Hp. Qed.

(** ** What the calls of the first part keep, whatever their outcome *)

Section Keeps.

Variable P : Platform.
Variable E : event -> Prop.
Variable I : World -> Prop.
Hypothesis HI : stable_for P E I.

Lemma GetJniEnv_ensures self :
  E EvAttachCurrentThread -> ensures I (GetJniEnv P self).
Proof.
  intros HE w Hw. unfold GetJniEnv.
  destruct (negb (pthread_equal (g_main_thread w) self)); [exact Hw|].
  destruct (g_app_state w); [|exact Hw].
  apply (sf_emit P E I HI); assumption.
Qed.

Lemma AppendText_ensures self d text :
  (forall e, sink_event e -> E e) -> ensures I (AppendText P self d text).
Proof.
  intros HE. unfold AppendText.
  destruct (is_null (logging_utils_class_ d)); [apply ensures_ret|].
  apply ensures_bind; [apply GetJniEnv_ensures, HE; exact Logic.I|intros env].
  apply ensures_bind; [apply ensures_assert|intros _].
  apply ensures_act. intros w Hw. unfold call_addLogText.
  apply (sf_jni_call P E I HI). cbn [jni_pending emit].
  assert (H1 : I (emit (EvAddLogText (logging_utils_class_ d)
                          (logging_utils_add_log_text_ d) text) w))
    by (apply (sf_emit P E I HI); [apply HE; exact Logic.I|exact Hw]).
  destruct (jni_pending w); [exact H1|].
  apply (sf_jni_pending P E I HI), H1.
Qed.

Lemma CheckJNIException_ensures self :
  (forall e, sink_event e -> E e) -> ensures I (CheckJNIException P self).
Proof.
  intros HE. unfold CheckJNIException.
  apply ensures_bind; [apply GetJniEnv_ensures, HE; exact Logic.I|intros env].
  destruct (is_null env); [apply ensures_stop|].
  apply ensures_bind; [apply ensures_read|intros pending].
  destruct pending as [text|]; [|apply ensures_ret].
  repeat (apply ensures_bind;
          [apply ensures_act; intros w Hw;
           first [apply (sf_emit P E I HI); [apply HE; exact Logic.I|exact Hw]
                 |apply (sf_jni_pending P E I HI), Hw]
          |intros _]).
  apply ensures_assert.
Qed.

Lemma LogMessage_ensures self msg :
  (forall e, sink_event e -> E e) -> ensures I (LogMessage P self msg).
Proof.
  intros HE. unfold LogMessage.
  apply ensures_bind.
  { apply ensures_act. intros w Hw.
    apply (sf_emit P E I HI); [apply HE; exact Logic.I|exact Hw]. }
  intros _.
  apply ensures_bind; [apply ensures_read|intros main_thread].
  destruct (pthread_equal main_thread self); [|apply ensures_ret].
  apply ensures_bind; [apply ensures_read|intros data].
  destruct data as [d|]; [|apply ensures_ret].
  apply ensures_bind; [apply AppendText_ensures, HE|intros _].
  apply CheckJNIException_ensures, HE.
Qed.

Lemma LogMessage_view_ensures self msg :
  (forall e, sink_event e -> E e) -> ensures I (LogMessage_view P self msg).
Proof.
  intros HE. unfold LogMessage_view.
  apply ensures_bind; [apply ensures_read|intros main_thread].
  destruct (pthread_equal main_thread self); [|apply ensures_ret].
  apply ensures_bind; [apply ensures_read|intros data].
  destruct data as [d|]; [|apply ensures_ret].
  apply ensures_bind; [apply AppendText_ensures, HE|intros _].
  apply CheckJNIException_ensures, HE.
Qed.

Lemma LogMessage_va_ensures self format args :
  (forall e, sink_event e -> E e) -> ensures I (LogMessage_va P self format args).
Proof.
  intros HE. unfold LogMessage_va.
  destruct args as [|arg args]; [apply LogMessage_ensures, HE|].
  apply ensures_bind; [apply ensures_read|intros position].
  destruct (log_vprint_spent P position format (arg :: args)) as [entry|];
    [|apply ensures_stop].
  apply ensures_bind; [|intros _; apply LogMessage_view_ensures, HE].
  apply ensures_act. intros w Hw.
  apply (sf_emit P E I HI); [apply HE; exact Logic.I|exact Hw].
Qed.

Lemma source_process_keeps app src w : I w -> I (source_process app src w).
Proof.
  intros Hw. destruct src as [cmd|]; cbn; auto.
  destruct app as [a|]; auto. destruct (onAppCmd a) as [[]|]; auto.
  apply (sf_OnAppCmd P E I HI). exact Hw.
Qed.

Lemma ProcessEvents_keeps self msec w :
  (forall e, pump_event e -> E e) ->
  I w -> I (snd (ProcessEvents P self msec w)).
Proof.
  intros HE Hw. unfold ProcessEvents.
  destruct (negb (pthread_equal (g_main_thread w) self)); cbn [snd].
  - apply (sf_suspend P E I HI), (sf_emit P E I HI); [apply HE; exact Logic.I|exact Hw].
  - assert (H1 : I (suspend P (emit (EvPollAll msec) w))).
    { apply (sf_suspend P E I HI), (sf_emit P E I HI);
        [apply HE; exact Logic.I|exact Hw]. }
    destruct (source (poll P (clock w))) as [src|]; auto.
    destruct (0 <=? looperId (poll P (clock w))); auto.
    apply source_process_keeps.
    apply (sf_emit P E I HI); [apply HE; exact Logic.I|exact H1].
Qed.

Lemma ProcessEventsM_ensures self msec :
  (forall e, pump_event e -> E e) -> ensures I (ProcessEventsM P self msec).
Proof.
  intros HE w Hw. unfold ProcessEventsM.
  pose proof (ProcessEvents_keeps self msec w HE Hw) as H.
  destruct (ProcessEvents P self msec w). exact H.
Qed.

Lemma WaitForFutureCompletion_loop_ensures fuel self future :
  (forall e, pump_event e -> E e) ->
  ensures I (WaitForFutureCompletion_loop P fuel self future).
Proof.
  intros HE. induction fuel as [|fuel IH]; intros w Hw;
    cbn [WaitForFutureCompletion_loop]; [exact Logic.I|].
  pose proof (ProcessEvents_keeps self 1000 w HE Hw) as H.
  destruct (ProcessEvents P self 1000 w) as [r w1]. cbn [snd] in H.
  destruct r; cbn [negb]; [exact H|].
  destruct (negb (FutureStatus_eqb (Status future (clock w1)) kFutureStatusPending));
    [exact H|].
  apply IH. exact H.
Qed.

Lemma WaitForFutureCompletion_ensures fuel self future :
  (forall e, pump_event e -> E e) ->
  (forall e, sink_event e -> E e) ->
  ensures I (WaitForFutureCompletion P fuel self future).
Proof.
  intros HEp HEs. unfold WaitForFutureCompletion.
  apply ensures_bind; [apply WaitForFutureCompletion_loop_ensures, HEp|intros _].
  unfold report_future_error.
  apply ensures_bind; [apply ensures_read|intros now].
  destruct (negb (Error future now =? kAdMobErrorNone)).
  - apply LogMessage_va_ensures, HEs.
  - apply ensures_ret.
Qed.

Lemma common_main_wait_for_kill_ensures fuel self :
  (forall e, pump_event e -> E e) ->
  ensures I (common_main_wait_for_kill P fuel self).
Proof.
  intros HE. induction fuel as [|fuel IH]; intros w Hw;
    cbn [common_main_wait_for_kill]; [exact Logic.I|].
  pose proof (ProcessEvents_keeps self 1000 w HE Hw) as H.
  destruct (ProcessEvents P self 1000 w) as [r w1]. cbn [snd] in H.
  destruct r; cbn [negb]; [exact H|]. apply IH. exact H.
Qed.

Lemma wait_until_hidden_ensures (A : AdSdk) fuel self :
  (forall e, pump_event e -> E e) ->
  ensures I (wait_until_hidden P A fuel self).
Proof.
  intros HE. induction fuel as [|fuel IH]; intros w Hw;
    cbn [wait_until_hidden]; [exact Logic.I|].
  destruct (negb (PresentationState_eqb (interstitial_presentation A (clock w))
                    kPresentationStateHidden)); [|exact Hw].
  apply IH. apply ProcessEvents_keeps; assumption.
Qed.

End Keeps.

Lemma grown_stable_for (P : Platform) (tr0 : list event) (Q : event -> Prop) :
  stable_for P Q (grown tr0 Q).
Proof.
  split.
  - intros e w He (evs & Ht & Hq). exists (evs ++ [e]). split.
    + cbn. rewrite Ht, app_assoc. reflexivity.
    + apply Forall_app. split; [exact Hq|]. constructor; [exact He|constructor].
  - intros v w H. exact H.
  - intros w H. exact H.
  - intros w H. exact H.
  - intros cmd w H. exact H.
Qed.

Lemma grown_refl (Q : event -> Prop) (w : World) : grown (trace w) Q w.
Proof. exists []. rewrite app_nil_r. split; [reflexivity|constructor]. Qed.

(** ** The timed wait *)

(** X1: the deadline that line 337 hands to [pthread_cond_timedwait] is the
    time read by [clock_gettime] plus ten milliseconds, with [tv_nsec]
    carried into [tv_sec] so that it is back in range; the wait is the only
    call the statement makes and it touches no flag but [g_initialized]. *)
Theorem cond_timedwait_deadline (P : Platform) (w : World) :
  0 <= snd (realtime P (clock w)) < nsec_per_sec ->
  exists tv_sec tv_nsec,
    trace (cond_timedwait P w) = trace w ++ [EvCondTimedWait tv_sec tv_nsec]
    /\ tv_sec * nsec_per_sec + tv_nsec
       = fst (realtime P (clock w)) * nsec_per_sec
         + snd (realtime P (clock w)) + 10 * 1000000
    /\ 0 <= tv_nsec < nsec_per_sec
    /\ g_destroy_requested (cond_timedwait P w) = g_destroy_requested w
    /\ g_restarted (cond_timedwait P w) = g_restarted w
    /\ clock (cond_timedwait P w) = clock w.
Proof.
  intros H. destruct (realtime P (clock w)) as [sec nsec] eqn:E. cbn [fst snd] in *.
  destruct (time_to_wait_for_bounded sec nsec H) as [Hsum Hrange].
  exists (fst (time_to_wait_for (sec, nsec))), (snd (time_to_wait_for (sec, nsec))).
  unfold cond_timedwait. rewrite E. cbn [trace emit set_initialized
    g_destroy_requested g_restarted clock].
  split; [reflexivity|]. split; [rewrite Hsum; lia|].
  split; [exact Hrange|]. repeat split.
Qed.

Lemma cond_timedwait_deadline_witness :
  trace (cond_timedwait quiet_platform session_world)
  = [EvCondTimedWait 1700000001 5000000].
Proof.
  destruct (cond_timedwait_deadline quiet_platform session_world)
    as (tv_sec & tv_nsec & Ht & _).
  - split; [cbv; discriminate|reflexivity].
  - reflexivity.
Defined.

(** ** What ProcessEvents leaves alone *)

Lemma ProcessEvents_pump_events (P : Platform) self msec w :
  grown (trace w) pump_event (snd (ProcessEvents P self msec w)).
Proof.
  apply (ProcessEvents_keeps P pump_event).
  - apply grown_stable_for.
  - auto.
  - apply grown_refl.
Qed.

(** X3: a call of [ProcessEvents], from any thread and with any timeout,
    counts as one tick, adds to the trace only a sleep, a poll or a
    dispatch, and changes nothing else in the world but the two flags it
    reports: the handles, [g_started], [g_initialized], the statics of
    common_main.cc and the pending Java exception are as before.  The
    restarted flag can only go up. *)
Theorem ProcessEvents_touches_only_flags
    (P : Platform) (self : pthread_t) (msec : Z) (w : World) :
  let w' := snd (ProcessEvents P self msec w) in
  same_handles w w'
  /\ clock w' = S (clock w)
  /\ grown (trace w) pump_event w'
  /\ (g_restarted w = true -> g_restarted w' = true)
  /\ fst (ProcessEvents P self msec w) = g_destroy_requested w' || g_restarted w'.
Proof.
  cbv zeta.
  destruct (ProcessEvents_same_handles P self msec w) as [Hs Hc].
  split; [exact Hs|]. split; [exact Hc|].
  split; [apply ProcessEvents_pump_events|].
  split; [|apply ProcessEvents_result].
  intros Hr.
  assert (St : stable P (fun w => g_restarted w = true)).
  { split; cbn; auto. intros w0 ->. reflexivity. }
  exact (ProcessEvents_stable P _ self msec w St Hr).
Qed.

(** ** How long WaitForFutureCompletion pumps *)

Lemma WaitForFutureCompletion_loop_pumped (P : Platform) self future :
  forall fuel w w',
    WaitForFutureCompletion_loop P fuel self future w = Ret tt w' ->
    exists k, (k < fuel)%nat /\ w' = pump P self (S k) w
              /\ last_iteration P self future (pump P self k w) = true
              /\ forall j, (j < k)%nat ->
                   last_iteration P self future (pump P self j w) = false.
Proof.
  induction fuel as [|fuel IH]; intros w w' E; [discriminate|].
  cbn [WaitForFutureCompletion_loop] in E.
  destruct (last_iteration P self future w) eqn:Hlast.
  - exists 0%nat. cbn [pump]. split; [lia|].
    split; [|split; [exact Hlast|intros j Hj; lia]].
    unfold last_iteration in Hlast.
    destruct (ProcessEvents P self 1000 w) as [r w1]. cbn [fst snd] in *.
    destruct r; cbn [negb orb] in *.
    + injection E as <-. reflexivity.
    + rewrite Hlast in E. injection E as <-. reflexivity.
  - pose proof Hlast as Hl0. unfold last_iteration in Hlast.
    destruct (ProcessEvents P self 1000 w) as [r w1] eqn:Ep. cbn [fst snd] in *.
    apply orb_false_iff in Hlast. destruct Hlast as [-> Hs].
    cbn [negb] in E. rewrite Hs in E.
    destruct (IH w1 w' E) as (k & Hk & Hw' & Hl & Hb).
    exists (S k). cbn [pump]. rewrite Ep. cbn [snd].
    split; [lia|]. split; [exact Hw'|]. split; [exact Hl|].
    intros [|j] Hj; [exact Hl0|]. cbn [pump]. rewrite Ep. apply Hb. lia.
Qed.

(** X4: [WaitForFutureCompletion] tests the future only after a first
    [ProcessEvents(1000)].  Whenever its loop returns it has made between
    one and [fuel] calls, all but the last of which found no termination
    request and a pending future; in particular a future that is complete
    before the call still costs one call, which off the main thread is a
    sleep of one second. *)
Theorem WaitForFutureCompletion_pumps_first
    (P : Platform) (self : pthread_t) (future : FutureBase) (fuel : nat)
    (w w' : World) :
  WaitForFutureCompletion_loop P fuel self future w = Ret tt w' ->
  (exists k, (k < fuel)%nat /\ w' = pump P self (S k) w
             /\ clock w' = (clock w + S k)%nat
             /\ last_iteration P self future (pump P self k w) = true
             /\ forall j, (j < k)%nat ->
                  last_iteration P self future (pump P self j w) = false)
  /\ (self <> g_main_thread w ->
      exists rest, trace w' = trace w ++ EvUsleep 1000000 :: rest).
Proof.
  intros E.
  destruct (WaitForFutureCompletion_loop_pumped P self future fuel w w' E)
    as (k & Hk & Hw' & Hl & Hb).
  split.
  - exists k. repeat split; auto.
    subst w'. apply (pump_same_handles P self (S k) w).
  - intros Hoff. subst w'. cbn [pump].
    assert (Hfirst : trace (snd (ProcessEvents P self 1000 w))
                     = trace w ++ [EvUsleep 1000000]).
    { rewrite ProcessEvents_off_main by assumption. reflexivity. }
    assert (Hg : forall n v, grown (trace v) (fun _ => True) (pump P self n v)).
    { induction n as [|n IHn]; intros v; cbn [pump]; [apply grown_refl|].
      destruct (IHn (snd (ProcessEvents P self 1000 v))) as (e2 & T2 & _).
      destruct (ProcessEvents_pump_events P self 1000 v) as (e1 & T1 & _).
      exists (e1 ++ e2). split; [|apply Forall_forall; auto].
      rewrite T2, T1, app_assoc. reflexivity. }
    destruct (Hg k (snd (ProcessEvents P self 1000 w))) as (rest & Ht & _).
    exists rest. rewrite Ht, Hfirst, <- app_assoc. reflexivity.
Qed.

Lemma WaitForFutureCompletion_pumps_first_witness :
  exists w',
    WaitForFutureCompletion_loop quiet_platform 4 ui_thread resolved_future
      session_world = Ret tt w'
    /\ clock w' = 1%nat
    /\ trace w' = [EvUsleep 1000000].
Proof.
  eexists. split; [reflexivity|].
  destruct (WaitForFutureCompletion_pumps_first quiet_platform ui_thread
              resolved_future 4 session_world _ eq_refl)
    as [(k & Hk & Hw' & Hc & Hl & Hb) _].
  split; reflexivity.
Defined.

(** X5: once a destroy or restart request is up, every wait is a single
    call of [ProcessEvents(1000)]: the loop returns after it whether or not
    the future has resolved, so a future that is still pending is not
    waited for. *)
Theorem WaitForFutureCompletion_cut_short
    (P : Platform) (self : pthread_t) (future : FutureBase) (fuel : nat)
    (w : World) :
  g_destroy_requested w = true \/ g_restarted w = true ->
  WaitForFutureCompletion_loop P (S fuel) self future w
  = Ret tt (snd (ProcessEvents P self 1000 w))
  /\ clock (snd (ProcessEvents P self 1000 w)) = S (clock w).
Proof.
  intros H. split; [|apply ProcessEvents_same_handles].
  cbn [WaitForFutureCompletion_loop].
  assert (Hr : fst (ProcessEvents P self 1000 w) = true).
  { destruct H as [H | H].
    - apply ProcessEvents_destroy_seen. exact H.
    - rewrite ProcessEvents_result. apply orb_true_iff. right.
      assert (St : stable P (fun w => g_restarted w = true)).
      { split; cbn; auto. intros w0 ->. reflexivity. }
      exact (ProcessEvents_stable P _ self 1000 w St H). }
  destruct (ProcessEvents P self 1000 w) as [r w1]. cbn [fst snd] in *.
  subst r. reflexivity.
Qed.

Lemma WaitForFutureCompletion_cut_short_witness :
  WaitForFutureCompletion_loop quiet_platform 1 ui_thread failed_future
    (set_destroy_requested true session_world)
  = Ret tt (snd (ProcessEvents quiet_platform ui_thread 1000
                   (set_destroy_requested true session_world))).
Proof.
  apply (WaitForFutureCompletion_cut_short quiet_platform ui_thread failed_future 0
           (set_destroy_requested true session_world)).
  left. reflexivity.
Defined.

(** ** The line buffer of LogMessage *)

Lemma length_append (a b : string) :
  String.length (a ++ b) = (String.length a + String.length b)%nat.
Proof. induction a as [|c a IH]; cbn; [reflexivity|]. rewrite IH. reflexivity. Qed.

Lemma length_substring_0 (n : nat) (s : string) :
  String.length (substring 0 n s) = Nat.min n (String.length s).
Proof.
  revert s. induction n as [|n IH]; intros s.
  - destruct s; reflexivity.
  - destruct s as [|c s]; cbn; [reflexivity|]. rewrite IH. reflexivity.
Qed.

Lemma substring_0_length (n : nat) (s : string) :
  substring 0 (String.length (substring 0 n s)) s = substring 0 n s.
Proof.
  revert s. induction n as [|n IH]; intros s.
  - destruct s; reflexivity.
  - destruct s as [|c s]; cbn; [reflexivity|]. rewrite IH. reflexivity.
Qed.

Lemma prefix_refl (a : string) : prefix a a = true.
Proof. induction a as [|c a IH]; cbn; [reflexivity|].
  destruct (ascii_dec c c); [exact IH|congruence]. Qed.

Lemma prefix_substring_0 (n : nat) (s : string) : prefix (substring 0 n s) s = true.
Proof. apply prefix_correct. apply substring_0_length. Qed.

Lemma prefix_trans_append (a s b : string) :
  prefix a s = true -> prefix a (s ++ b) = true.
Proof.
  revert s. induction a as [|c a IH]; intros s H; cbn.
  - destruct (s ++ b)%string; reflexivity.
  - destruct s as [|d s]; cbn in *; [discriminate|].
    destruct (ascii_dec c d); [apply IH; exact H|discriminate].
Qed.

(** X6: the line that [LogMessage] hands to the on-screen view always fits
    its buffer of [kLineBufferSize + 2] bytes: it is a prefix of the
    formatted message followed by a line break, at most [kLineBufferSize]
    characters long.  A message shorter than [kLineBufferSize] arrives whole
    with its line break; a longer one is cut to [kLineBufferSize - 1]
    characters and has no line break, because the break is written behind
    the terminator that [vsnprintf] put. *)
Theorem line_buffer_fits (msg : string) :
  let newline := String (ascii_of_nat 10) EmptyString in
  prefix (line_buffer msg) (msg ++ newline) = true
  /\ (String.length (line_buffer msg) <= kLineBufferSize)%nat
  /\ ((String.length msg < kLineBufferSize)%nat ->
      line_buffer msg = (msg ++ newline)%string)
  /\ ((kLineBufferSize <= String.length msg)%nat ->
      String.length (line_buffer msg) = (kLineBufferSize - 1)%nat
      /\ prefix (line_buffer msg) msg = true).
Proof.
  cbv zeta. unfold line_buffer.
  destruct (Nat.ltb_spec (String.length msg) kLineBufferSize) as [Hlt | Hge].
  - split; [apply prefix_refl|].
    split; [rewrite length_append; cbn; lia|].
    split; [reflexivity|]. intros H. lia.
  - split; [apply prefix_trans_append, prefix_substring_0|].
    rewrite length_substring_0.
    split; [unfold kLineBufferSize in *; lia|].
    split; [intros H; lia|]. intros _.
    split; [unfold kLineBufferSize in *; lia|apply prefix_substring_0].
Qed.

Lemma line_buffer_fits_witness :
  line_buffer "Logging display up"
  = ("Logging display up" ++ String (ascii_of_nat 10) EmptyString)%string.
Proof.
  destruct (line_buffer_fits "Logging display up") as (_ & _ & Hshort & _).
  apply Hshort. cbv. repeat constructor.
Defined.

(** ** The system log *)

Lemma halts_bind {A B} (m : M A) (k : A -> M B) :
  halts m -> (forall a, halts (k a)) -> halts (bind m k).
Proof.
  intros Hm Hk w. unfold bind. specialize (Hm w).
  destruct (m w) as [a w'|f w'|]; [apply Hk|discriminate|congruence].
Qed.

Lemma halts_ret {A} (a : A) : halts (ret a).
Proof. intros w. discriminate. Qed.

Lemma halts_act (f : World -> World) : halts (act f).
Proof. intros w. discriminate. Qed.

Lemma halts_read {A} (f : World -> A) : halts (read f).
Proof. intros w. discriminate. Qed.

Lemma halts_stop {A} (f : fault) : halts (@stop A f).
Proof. intros w. discriminate. Qed.

Lemma halts_assert (c : bool) : halts (assert c).
Proof. intros w. unfold assert. destruct c; discriminate. Qed.

Lemma GetJniEnv_halts (P : Platform) self : halts (GetJniEnv P self).
Proof.
  intros w. unfold GetJniEnv.
  destruct (negb (pthread_equal (g_main_thread w) self)); [discriminate|].
  destruct (g_app_state w); discriminate.
Qed.

Lemma AppendText_halts (P : Platform) self d text : halts (AppendText P self d text).
Proof.
  unfold AppendText. destruct (is_null (logging_utils_class_ d)); [apply halts_ret|].
  apply halts_bind; [apply GetJniEnv_halts|intros env].
  apply halts_bind; [apply halts_assert|intros _]. apply halts_act.
Qed.

Lemma CheckJNIException_halts (P : Platform) self : halts (CheckJNIException P self).
Proof.
  unfold CheckJNIException.
  apply halts_bind; [apply GetJniEnv_halts|intros env].
  destruct (is_null env); [apply halts_stop|].
  apply halts_bind; [apply halts_read|intros pending].
  destruct pending; [|apply halts_ret].
  repeat (apply halts_bind; [apply halts_act|intros _]).
  apply halts_assert.
Qed.

Lemma LogMessage_view_halts (P : Platform) self msg : halts (LogMessage_view P self msg).
Proof.
  unfold LogMessage_view.
  apply halts_bind; [apply halts_read|intros main_thread].
  destruct (pthread_equal main_thread self); [|apply halts_ret].
  apply halts_bind; [apply halts_read|intros data].
  destruct data; [|apply halts_ret].
  apply halts_bind; [apply AppendText_halts|intros _].
  apply CheckJNIException_halts.
Qed.

(** Behind its system log entry, a call makes calls of the logging sink
    only, and then returns or stops. *)
Lemma LogMessage_view_after_entry (P : Platform) self msg entry w :
  match LogMessage_view P self msg (emit (EvAndroidLog entry) w) with
  | Ret _ w' | Stop _ w' =>
      exists evs, trace w' = trace w ++ EvAndroidLog entry :: evs
                  /\ Forall sink_event evs
  | Spin => False
  end.
Proof.
  pose proof (LogMessage_view_ensures P sink_event
                (grown (trace w ++ [EvAndroidLog entry]) sink_event)
                (grown_stable_for P _ _) self msg (fun e H => H)
                (emit (EvAndroidLog entry) w) (grown_refl _ _)) as Hg.
  pose proof (LogMessage_view_halts P self msg (emit (EvAndroidLog entry) w)) as Hns.
  destruct (LogMessage_view P self msg (emit (EvAndroidLog entry) w))
    as [a w'|f w'|]; [| |congruence].
  - destruct Hg as (evs & Ht & Hq). exists evs.
    rewrite Ht, <- app_assoc. split; [reflexivity|exact Hq].
  - destruct Hg as (evs & Ht & Hq). exists evs.
    rewrite Ht, <- app_assoc. split; [reflexivity|exact Hq].
Qed.

(** X7: what [LogMessage] writes to the system log comes before anything
    else it does.  For a call without arguments the entry is the format;
    for a call with arguments it is what the platform's
    [__android_log_vprint] makes of the [va_list] that [vsnprintf] has
    already read, and the call stops at once, with nothing written, if that
    read faults.  Once the entry is written, whether the call returns or
    stops the process, the trace is the old one, then the entry, then calls
    of the logging sink only.  [LogMessage] has no loop, so it always
    returns or stops.  From a thread other than the main thread the entry
    is its only effect, also when the on-screen view exists. *)
Theorem LogMessage_system_log_first
    (P : Platform) (self : pthread_t) (format : string) (args : list fmt_arg)
    (w : World) :
  match LogMessage_va P self format args w with
  | Ret _ w' | Stop _ w' =>
      match system_log_entry P format args w with
      | Some entry =>
          exists evs, trace w' = trace w ++ EvAndroidLog entry :: evs
                      /\ Forall sink_event evs
      | None => w' = w
      end
  | Spin => False
  end
  /\ (system_log_entry P format args w = None ->
      LogMessage_va P self format args w = Stop InvalidRead w)
  /\ (self <> g_main_thread w ->
      forall entry, system_log_entry P format args w = Some entry ->
        LogMessage_va P self format args w = Ret tt (emit (EvAndroidLog entry) w)).
Proof.
  unfold system_log_entry. destruct args as [|arg args].
  - cbn [LogMessage_va]. rewrite LogMessage_entry_view.
    split; [apply LogMessage_view_after_entry|].
    split; [discriminate|].
    intros Hoff entry [= <-]. apply LogMessage_view_off_main. exact Hoff.
  - destruct (log_vprint_spent P (length (trace w)) format (arg :: args))
      as [entry|] eqn:E.
    + rewrite (LogMessage_va_entry P self _ _ _ entry w E).
      split; [apply LogMessage_view_after_entry|].
      split; [discriminate|].
      intros Hoff entry' [= <-]. apply LogMessage_view_off_main. exact Hoff.
    + rewrite (LogMessage_va_fault P self _ _ _ w E).
      split; [reflexivity|]. split; [reflexivity|discriminate].
Qed.

Lemma LogMessage_system_log_first_witness :
  LogMessage_va throwing_platform ui_thread action_failed_format
    [ArgInt 3; ArgStr "No fill"] logging_world
  = Ret tt (emit (EvAndroidLog (action_failed_message 3 "No fill")) logging_world)
  /\ LogMessage_va unreadable_platform ui_thread action_failed_format
       [ArgInt 3; ArgStr "No fill"] logging_world
     = Stop InvalidRead logging_world.
Proof.
  destruct (LogMessage_system_log_first throwing_platform ui_thread
              action_failed_format [ArgInt 3; ArgStr "No fill"] logging_world)
    as (_ & _ & Hoff).
  destruct (LogMessage_system_log_first unreadable_platform ui_thread
              action_failed_format [ArgInt 3; ArgStr "No fill"] logging_world)
    as (_ & Hfault & _).
  split.
  - apply Hoff; [cbv; discriminate|reflexivity].
  - apply Hfault. reflexivity.
Defined.

(** ** The wait for nativeInit, when nativeInit comes *)

Lemma wait_for_nativeInit_loop_ends_on_init (P : Platform) self :
  (forall t, restart_signal P t = false) ->
  forall k w,
    waiting self w ->
    (forall j, (j <= k)%nat -> delivers_destroy (poll P (clock w + j)) = false) ->
    (forall j, (j < k)%nat -> early_init_signal P (clock w + S j) = false) ->
    early_init_signal P (clock w + S k) = true ->
    exists w',
      (forall fuel, (S k < fuel)%nat ->
         wait_for_nativeInit_loop P fuel self w = Ret tt w')
      /\ g_initialized w' = true
      /\ clock w' = (clock w + S k)%nat
      /\ g_destroy_requested w' = false
      /\ g_restarted w' = false
      /\ exists evs tv_sec tv_nsec,
           trace w' = trace w ++ evs ++ [EvCondTimedWait tv_sec tv_nsec].
Proof.
  intros Hrestart. induction k as [|k IH]; intros w Hw Hpoll Hquiet Hinit.
  - destruct (ProcessEvents_waiting P self w Hrestart Hw) as (Hret & Hw1 & evs & Ht).
    { rewrite <- (Nat.add_0_r (clock w)). apply Hpoll. lia. }
    destruct (ProcessEvents_same_handles P self 10 w) as [_ Hclock].
    set (w1 := snd (ProcessEvents P self 10 w)) in *.
    exists (cond_timedwait P w1).
    destruct Hw1 as (_ & _ & Hi1 & Hd1 & Hr1).
    assert (Hi2 : g_initialized (cond_timedwait P w1) = true).
    { cbn. rewrite Hi1, Hclock.
      replace (S (clock w)) with (clock w + 1)%nat by lia. exact Hinit. }
    split.
    { intros [|[|fuel]] Hf; try lia. cbn [wait_for_nativeInit_loop].
      destruct Hw as (_ & _ & Hi & _). rewrite Hi. cbn [negb].
      destruct (ProcessEvents P self 10 w) as [r w1'] eqn:E.
      cbn [fst snd] in *. subst w1. rewrite Hret, Hi2. reflexivity. }
    split; [exact Hi2|]. split; [cbn; lia|].
    split; [exact Hd1|]. split; [exact Hr1|].
    exists evs. eexists. eexists. cbn [cond_timedwait trace emit set_initialized].
    rewrite Ht, <- app_assoc. reflexivity.
  - destruct (ProcessEvents_waiting P self w Hrestart Hw) as (Hret & Hw1 & evs & Ht).
    { rewrite <- (Nat.add_0_r (clock w)). apply Hpoll. lia. }
    destruct (ProcessEvents_same_handles P self 10 w) as [_ Hclock].
    set (w1 := snd (ProcessEvents P self 10 w)) in *.
    assert (Hc2 : clock (cond_timedwait P w1) = S (clock w)) by (cbn; exact Hclock).
    assert (Hw2 : waiting self (cond_timedwait P w1)).
    { destruct Hw1 as (Hm & Happ & Hi1 & Hd1 & Hr1).
      unfold waiting. cbn. rewrite Hi1, Hclock.
      replace (S (clock w)) with (clock w + 1)%nat by lia.
      rewrite (Hquiet 0%nat) by lia. repeat split; assumption. }
    destruct (IH (cond_timedwait P w1) Hw2) as
      (w' & Hrun & Hi' & Hcl & Hd' & Hr' & evs' & s' & n' & Ht').
    { intros j Hj. rewrite Hc2.
      replace (S (clock w) + j)%nat with (clock w + S j)%nat by lia.
      apply Hpoll. lia. }
    { intros j Hj. rewrite Hc2.
      replace (S (clock w) + S j)%nat with (clock w + S (S j))%nat by lia.
      apply Hquiet. lia. }
    { rewrite Hc2.
      replace (S (clock w) + S k)%nat with (clock w + S (S k))%nat by lia.
      exact Hinit. }
    exists w'. split.
    { intros [|fuel] Hf; [lia|]. cbn [wait_for_nativeInit_loop].
      destruct Hw as (_ & _ & Hi & _). rewrite Hi. cbn [negb].
      destruct (ProcessEvents P self 10 w) as [r w1'] eqn:E.
      cbn [fst snd] in *. subst w1. rewrite Hret. apply Hrun. lia. }
    split; [exact Hi'|]. split; [rewrite Hcl, Hc2; lia|].
    split; [exact Hd'|]. split; [exact Hr'|].
    eexists (evs ++ EvCondTimedWait _ _ :: evs'). exists s', n'.
    rewrite Ht'. cbn [cond_timedwait trace emit set_initialized].
    rewrite Ht, <- !app_assoc. reflexivity.
Qed.

(** X8: the wait of lines 323 to 339 ends when [nativeInit] comes.  With no
    destroy or restart request in the way, if [nativeInit] stores
    [g_initialized] during the timed wait of iteration [k] and not before,
    the loop makes exactly [k + 1] calls of [ProcessEvents(10)], each
    followed by a timed wait, sees the flag at its next test and leaves by
    its condition; [g_init_mutex] is released after it. *)
Theorem wait_for_nativeInit_ends_on_early_init
    (P : Platform) (self : pthread_t) (w : World) (k : nat) :
  waiting self w ->
  (forall t, restart_signal P t = false) ->
  (forall j, (j <= k)%nat -> delivers_destroy (poll P (clock w + j)) = false) ->
  (forall j, (j < k)%nat -> early_init_signal P (clock w + S j) = false) ->
  early_init_signal P (clock w + S k) = true ->
  exists w',
    (forall fuel, (S k < fuel)%nat -> wait_for_nativeInit P fuel self w = Ret tt w')
    /\ g_initialized w' = true
    /\ clock w' = (clock w + S k)%nat
    /\ g_destroy_requested w' = false
    /\ g_restarted w' = false
    /\ exists evs tv_sec tv_nsec,
         trace w' = trace w ++ EvMutexLock init_mutex :: evs
                    ++ [EvCondTimedWait tv_sec tv_nsec; EvMutexUnlock init_mutex].
Proof.
  intros Hw Hrestart Hpoll Hquiet Hinit.
  assert (Hw0 : waiting self (emit (EvMutexLock init_mutex) w)) by exact Hw.
  destruct (wait_for_nativeInit_loop_ends_on_init P self Hrestart k
              (emit (EvMutexLock init_mutex) w) Hw0 Hpoll Hquiet Hinit)
    as (w1 & Hrun & Hi & Hc & Hd & Hr & evs & s' & n' & Ht).
  exists (emit (EvMutexUnlock init_mutex) w1).
  split.
  { intros fuel Hf. unfold wait_for_nativeInit, bind, act.
    rewrite (Hrun fuel Hf). reflexivity. }
  cbn [clock g_destroy_requested g_initialized g_restarted trace emit] in *.
  repeat split; auto.
  exists evs, s', n'. rewrite Ht, <- !app_assoc. reflexivity.
Qed.

Lemma wait_for_nativeInit_ends_on_early_init_witness :
  exists w',
    wait_for_nativeInit initialising_platform 3 worker_thread session_world = Ret tt w'
    /\ g_initialized w' = true
    /\ clock w' = 2%nat.
Proof.
  destruct (wait_for_nativeInit_ends_on_early_init
              initialising_platform worker_thread session_world 1)
    as (w' & Hrun & Hi & Hc & _).
  - unfold waiting. cbn. repeat split; eauto.
  - reflexivity.
  - intros j _. reflexivity.
  - intros [|j] Hj; [reflexivity|lia].
  - reflexivity.
  - exists w'. split; [apply Hrun; lia|]. split; assumption.
Defined.

(** ** When the thread cannot be attached *)

(** X9: when [AttachCurrentThread] fails on the main thread, [GetJniEnv]
    returns nullptr and the callers that assert on it stop the process:
    [LogMessage], once the on-screen view exists, stops right after its
    system log entry, and the teardown of [android_main] stops in the
    destructor of the logging data, after its [ProcessEvents(10)], leaving
    [g_started] set, the activity unfinished and [g_started_mutex] locked. *)
Theorem attach_failure_stops
    (P : Platform) (self : pthread_t) (state app : android_app)
    (d : LoggingUtilsData) (msg : string) (w : World) :
  self = g_main_thread w ->
  g_app_state w = Some app ->
  g_logging_utils_data w = Some d ->
  logging_utils_class_ d <> nullptr ->
  attach_ok P = false ->
  GetJniEnv P self w = Ret nullptr (emit EvAttachCurrentThread w)
  /\ LogMessage P self msg w
     = Stop AssertionFailed (emit EvAttachCurrentThread (emit (EvAndroidLog msg) w))
  /\ android_main_leave P self state w
     = Stop AssertionFailed
         (emit EvAttachCurrentThread (snd (ProcessEvents P self 10 w)))
  /\ g_started (snd (ProcessEvents P self 10 w)) = g_started w.
Proof.
  intros -> Happ Hdata Hcls Hok.
  assert (Ec : is_null (logging_utils_class_ d) = false) by (apply Z.eqb_neq; exact Hcls).
  split.
  { rewrite (GetJniEnv_on_main P w app Happ), Hok. reflexivity. }
  split.
  { unfold LogMessage, bind at 1 2 3, act, read.
    cbn [g_main_thread emit]. rewrite pthread_equal_refl.
    cbn [g_logging_utils_data emit]. rewrite Hdata. unfold bind at 1.
    unfold AppendText. rewrite Ec. unfold bind at 1.
    pose proof (GetJniEnv_on_main P (emit (EvAndroidLog msg) w) app Happ) as Hg.
    cbn [g_main_thread emit] in Hg. rewrite Hg, Hok. reflexivity. }
  destruct (ProcessEvents_same_handles P (g_main_thread w) 10 w)
    as [(Hs_app & Hs_main & Hs_data & _ & Hs_started & _) _].
  split; [|exact Hs_started].
  unfold android_main_leave, bind at 1, ProcessEventsM.
  destruct (ProcessEvents P (g_main_thread w) 10 w) as [r w1]. cbn [snd] in *.
  unfold bind at 1, read. rewrite Hs_data. unfold bind at 1.
  unfold LoggingUtilsData_destroy, bind at 1.
  assert (Happ1 : g_app_state w1 = Some app) by congruence.
  pose proof (GetJniEnv_on_main P w1 app Happ1) as Hg.
  rewrite Hs_main in Hg. rewrite Hdata, Hg, Hok. reflexivity.
Qed.

Lemma attach_failure_stops_witness :
  android_main_leave detached_platform worker_thread sample_state logging_world
  = Stop AssertionFailed
      (emit EvAttachCurrentThread
         (snd (ProcessEvents detached_platform worker_thread 10 logging_world))).
Proof.
  destruct (attach_failure_stops detached_platform worker_thread sample_state
              {| activity := activity sample_state; onAppCmd := Some Cb_OnAppCmd |}
              sample_logging_utils "Done!" logging_world)
    as (_ & _ & Hleave & _).
  - reflexivity.
  - reflexivity.
  - reflexivity.
  - cbv. discriminate.
  - reflexivity.
  - exact Hleave.
Defined.

(** ** When the Firebase app cannot be created *)

Lemma bind_Stop {A B} (m : M A) (k : A -> M B) (w w1 : World) (f : fault) :
  m w = Stop f w1 -> bind m k w = Stop f w1.
Proof. intros H. unfold bind. rewrite H. reflexivity. Qed.

Lemma InitializeFirebase_without_app (P : Platform) fuel self w :
  self <> g_main_thread w ->
  g_app w = nullptr ->
  app_create P = nullptr ->
  let created := set_app nullptr (emit (EvAppCreate (g_jni_env w) (g_activity w)) w) in
  InitializeFirebase P fuel self w
  = match log_vprint_spent P (length (trace created))
            "Created the Firebase App %x." [ArgInt nullptr] with
    | Some entry =>
        Stop NullDereference
          (emit (EvAndroidLog "Initializing the AdMob with Firebase API.")
             (emit (EvAndroidLog entry) created))
    | None => Stop InvalidRead created
    end.
Proof.
  intros Hoff Happ Hnone created. unfold InitializeFirebase.
  run_read. rewrite Happ. change (negb (is_null nullptr)) with false. cbn iota.
  unfold InitializeFirebase_body.
  rewrite (bind_Ret _ _ _ _ _ (GetJniEnv_off_main P self w Hoff)).
  rewrite (bind_Ret _ _ _ _ _ (GetActivityM_off_main self w Hoff)).
  run_act. run_act. run_read.
  cbn [g_app set_app emit]. rewrite Hnone. fold created.
  destruct (log_vprint_spent P (length (trace created))
              "Created the Firebase App %x." [ArgInt nullptr]) as [entry|] eqn:E.
  - assert (Hlog : LogMessage_va P self "Created the Firebase App %x."
                     [ArgInt nullptr] created
                   = Ret tt (emit (EvAndroidLog entry) created)).
    { rewrite (LogMessage_va_entry P self _ _ _ entry created E).
      apply LogMessage_view_off_main. exact Hoff. }
    rewrite (bind_Ret _ _ _ _ _ Hlog).
    run_log. run_read.
    cbn [g_app set_app emit created].
    change (is_null nullptr) with true. cbn iota.
    apply bind_Stop. reflexivity.
  - apply bind_Stop, LogMessage_va_fault, E.
Qed.

(** X10: when [firebase::App::Create] returns nullptr inside [nativeInit]
    (a thread other than the main thread), the call does not return:
    [g_initialized] is not set and the condition is not signalled.
    [InitializeFirebase] logs the handle with a format that has an
    argument; where the system log takes an entry for it, the next
    announcement follows and the process stops at the dereference of
    [g_app]; where the read of the spent [va_list] faults, it stops there,
    after [App::Create].  Which entry the system log receives is the
    platform's answer. *)
Theorem nativeInit_without_app
    (P : Platform) (fuel : nat) (self : pthread_t)
    (env : JNIEnv_ptr) (thiz activity : jobject) (w : World) :
  self <> g_main_thread w ->
  g_app w = nullptr ->
  app_create P = nullptr ->
  exists f w',
    nativeInit P fuel self env thiz activity w = Stop f w'
    /\ g_app w' = nullptr
    /\ g_initialized w' = g_initialized w
    /\ match log_vprint_spent P (length (trace w) + 2)
               "Created the Firebase App %x." [ArgInt nullptr] with
       | Some entry =>
           f = NullDereference
           /\ trace w' = trace w
                ++ [EvAndroidLog "Early init called."; EvAppCreate env activity;
                    EvAndroidLog entry;
                    EvAndroidLog "Initializing the AdMob with Firebase API."]
       | None =>
           f = InvalidRead
           /\ trace w' = trace w
                ++ [EvAndroidLog "Early init called."; EvAppCreate env activity]
       end.
Proof.
  intros Hoff Happ Hnone. unfold nativeInit.
  run_log. run_act. run_act.
  match goal with
  | |- context [bind (InitializeFirebase P fuel self) _ ?w0] =>
      pose proof (InitializeFirebase_without_app P fuel self w0) as H
  end.
  cbn [g_main_thread g_app g_jni_env g_activity trace set_activity set_jni_env
       set_app emit] in H.
  specialize (H Hoff Happ Hnone).
  replace (length ((trace w ++ [EvAndroidLog "Early init called."])
                   ++ [EvAppCreate env activity]))
    with (length (trace w) + 2)%nat in H
    by (rewrite !length_app; cbn [length]; lia).
  destruct (log_vprint_spent P (length (trace w) + 2)
              "Created the Firebase App %x." [ArgInt nullptr]) as [entry|].
  - rewrite (bind_Stop _ _ _ _ _ H).
    eexists. eexists. split; [reflexivity|].
    cbn. rewrite <- !app_assoc. repeat split.
  - rewrite (bind_Stop _ _ _ _ _ H).
    eexists. eexists. split; [reflexivity|].
    cbn. rewrite <- !app_assoc. repeat split.
Qed.

Lemma nativeInit_without_app_witness :
  exists w',
    nativeInit appless_platform 1 ui_thread 4096 70 500 session_world
    = Stop NullDereference w'
    /\ g_initialized w' = false
    /\ trace w'
       = [EvAndroidLog "Early init called."; EvAppCreate 4096 500;
          EvAndroidLog "Created the Firebase App 0.";
          EvAndroidLog "Initializing the AdMob with Firebase API."].
Proof.
  destruct (nativeInit_without_app appless_platform 1 ui_thread 4096 70 500
              session_world) as (f & w' & E & _ & Hi & Hentry).
  - cbv. discriminate.
  - reflexivity.
  - reflexivity.
  - cbn in Hentry. destruct Hentry as [-> Ht].
    exists w'. split; [exact E|]. split; [exact Hi|exact Ht].
Defined.

(** ** Rules for calls that need no fuel *)

Lemma ptotal_bind {A B} Pre (m : PM A) (k : A -> PM B) Mid Post Err :
  ptotal Pre m Mid Err -> (forall a, ptotal (Mid a) (k a) Post Err) ->
  ptotal Pre (pbind m k) Post Err.
Proof.
  intros Hm Hk p Hp. unfold pbind. specialize (Hm p Hp).
  destruct (m p) as [a p'| |]; auto. apply Hk. exact Hm.
Qed.

Lemma ptotal_weaken {A} (Pre Pre' : Process -> Prop) (m : PM A)
    (Post Post' : A -> Process -> Prop) (Err Err' : fault -> Process -> Prop) :
  ptotal Pre' m Post' Err' ->
  (forall p, Pre p -> Pre' p) ->
  (forall a p, Post' a p -> Post a p) ->
  (forall f p, Err' f p -> Err f p) ->
  ptotal Pre m Post Err.
Proof.
  intros H HP HQ HE p Hp. specialize (H p (HP p Hp)).
  destruct (m p); auto.
Qed.

Lemma ptotal_assert_keeps (K : Process -> Prop) (c : bool) :
  ptotal K (passert c) (fun _ => K) (fun _ => K).
Proof. intros p Hp. unfold passert. destruct c; exact Hp. Qed.

Lemma ptotal_assert_true (K : Process -> Prop) Err :
  ptotal K (passert true) (fun _ => K) Err.
Proof. intros p Hp. exact Hp. Qed.

Lemma ptotal_lift {A} (m : M A) (Pre : Process -> Prop)
    (Post : A -> Process -> Prop) (Err : fault -> Process -> Prop) :
  (forall n, total (fun w => Pre {| world := w; noted := n |}) m
               (fun a w => Post a {| world := w; noted := n |})
               (fun f w => Err f {| world := w; noted := n |})) ->
  ptotal Pre (lift m) Post Err.
Proof.
  intros H [w n] Hp. unfold lift. cbn [world noted].
  specialize (H n w Hp). destruct (m w); exact H.
Qed.

(** An invariant of the world alone, through a call of the first part. *)
Lemma ptotal_lift_world {A} (m : M A) (I : World -> Prop)
    (Q : A -> World -> Prop) (R : fault -> World -> Prop) :
  total I m Q R ->
  ptotal (fun p => I (world p)) (lift m)
    (fun a p => Q a (world p)) (fun f p => R f (world p)).
Proof. intros H. apply ptotal_lift. intros n. exact H. Qed.

Lemma ptotal_note_world (I : World -> Prop) Err (c : call) :
  ptotal (fun p => I (world p)) (note c) (fun _ p => I (world p)) Err.
Proof. intros p Hp. exact Hp. Qed.

Lemma total_act (I J : World -> Prop) Err (f : World -> World) :
  (forall w, I w -> J (f w)) -> total I (act f) (fun _ => J) Err.
Proof. intros Hf w Hw. apply Hf. exact Hw. Qed.

(** ** FindClass *)

Section FindClassKeeps.

Variable J : JavaRuntime.
Variable I : World -> Prop.
Hypothesis Hclear : forall w, I w -> I (emit EvExceptionClear w).
Hypothesis Hpending : forall v w, I w -> I (set_jni_pending v w).

Lemma jni_throw_keeps exc w : I w -> I (jni_throw exc w).
Proof.
  intros Hw. unfold jni_throw. destruct (jni_pending w); [exact Hw|].
  apply Hpending, Hw.
Qed.

Lemma jni_keeps c exc Err :
  ptotal (fun p => I (world p)) (jni c exc) (fun _ p => I (world p)) Err.
Proof.
  unfold jni. eapply ptotal_bind; [apply ptotal_note_world|intros u].
  apply ptotal_lift. intros n. apply total_act. intros w. apply jni_throw_keeps.
Qed.

Lemma is_null_true (v : Z) : is_null v = true <-> v = nullptr.
Proof. apply Z.eqb_eq. Qed.

Lemma is_null_false (v : Z) : is_null v = false <-> v <> nullptr.
Proof. apply Z.eqb_neq. Qed.

(** After the check of lines 112 and 141 no exception is pending, and the
    result tells whether one was. *)
Lemma clear_if_pending_keeps (v : option string) Err :
  ptotal (fun p => I (world p) /\ jni_pending (world p) = v) clear_if_pending
    (fun b p' => I (world p') /\ jni_pending (world p') = None
                 /\ b = match v with Some _ => true | None => false end)
    Err.
Proof.
  intros [w n] [Hw Hv]. unfold clear_if_pending, pbind, lift, read, act, pret.
  cbn [world noted] in *. rewrite Hv.
  destruct v as [exc|]; cbn [world noted].
  - split; [apply Hpending, Hclear, Hw|]. split; reflexivity.
  - split; [exact Hw|]. split; [exact Hv|reflexivity].
Qed.

Lemma clear_if_pending_clears Err :
  ptotal (fun p => I (world p)) clear_if_pending
    (fun _ p' => I (world p') /\ jni_pending (world p') = None) Err.
Proof.
  intros p Hp.
  pose proof (clear_if_pending_keeps (jni_pending (world p)) Err p
                (conj Hp eq_refl)) as H.
  destruct (clear_if_pending p); [|exact H|exact H].
  destruct H as (H1 & H2 & _). split; assumption.
Qed.

Lemma assert_keeps_I env c :
  ptotal (fun p => I (world p)) (passert c)
    (fun _ p => I (world p)) (FindClass_fault I env).
Proof.
  intros p Hp. unfold passert. destruct c; [exact Hp|].
  split; [exact Hp|left; reflexivity].
Qed.

Lemma ret_keeps {A} (K : Process -> Prop) Err (a : A) :
  ptotal K (pret a) (fun _ => K) Err.
Proof. intros p Hp. exact Hp. Qed.

Ltac keep_jni :=
  eapply ptotal_bind; [apply jni_keeps|intros ?].
Ltac keep_note K :=
  eapply ptotal_bind; [apply (ptotal_note_world K)|intros ?].
Ltac keep_assert env :=
  eapply ptotal_bind; [apply (assert_keeps_I env)|intros ?].

Lemma FindClass_keeps env activity_object class_name :
  ptotal (fun p => I (world p)) (FindClass J env activity_object class_name)
    (fun _ p' => I (world p') /\ jni_pending (world p') = None)
    (FindClass_fault I env).
Proof.
  unfold FindClass. destruct (is_null env) eqn:Henv.
  { intros p Hp. split; [exact Hp|right].
    split; [reflexivity|apply is_null_true, Henv]. }
  keep_jni.
  eapply ptotal_bind; [apply clear_if_pending_clears|intros not_found].
  destruct not_found; [|apply ret_keeps].
  eapply ptotal_weaken with (Pre' := fun p => I (world p));
    [|intros p [H _]; exact H|intros ? ? H; exact H|intros ? ? H; exact H].
  keep_jni. keep_assert env. keep_jni. keep_assert env.
  keep_jni. keep_assert env. keep_jni. keep_assert env.
  keep_jni. keep_assert env. keep_note I. keep_assert env.
  keep_jni. keep_assert env.
  eapply ptotal_bind; [apply clear_if_pending_clears|intros failed].
  keep_note (fun w => I w /\ jni_pending w = None).
  keep_note (fun w => I w /\ jni_pending w = None).
  apply ret_keeps.
Qed.

End FindClassKeeps.

(** X11: [FindClass] never returns with a Java exception pending, whatever
    was pending when it was called and whatever the runtime answers: both
    paths end behind an [ExceptionCheck] that clears.  It needs no fuel, it
    stops only at one of its asserts or on a null [env], and all it does to
    the process besides its JNI calls is [ExceptionClear]: the statics of the
    program are as before. *)
Theorem FindClass_leaves_no_exception
    (J : JavaRuntime) (env : JNIEnv_ptr) (activity_object : jobject)
    (class_name : string) (p : Process) :
  match FindClass J env activity_object class_name p with
  | PRet _ p' =>
      jni_pending (world p') = None
      /\ same_statics (world p) (world p')
      /\ grown (trace (world p)) is_exception_clear (world p')
  | PStop f p' =>
      (f = AssertionFailed \/ (f = NullDereference /\ env = nullptr))
      /\ same_statics (world p) (world p')
      /\ grown (trace (world p)) is_exception_clear (world p')
  | PSpin => False
  end.
Proof.
  pose (I := fun w' => same_statics (world p) w'
                       /\ grown (trace (world p)) is_exception_clear w').
  assert (Hclear : forall w, I w -> I (emit EvExceptionClear w)).
  { intros w [Hs Hg]. split; [exact Hs|].
    apply (sf_emit quiet_platform _ _ (grown_stable_for quiet_platform _ _));
      [reflexivity|exact Hg]. }
  assert (Hpending : forall v w, I w -> I (set_jni_pending v w)).
  { intros v w [Hs Hg]. split; [exact Hs|exact Hg]. }
  assert (H0 : I (world p)).
  { split; [unfold same_statics; repeat split|apply grown_refl]. }
  pose proof (FindClass_keeps J I Hclear Hpending env activity_object class_name
                p H0) as H.
  destruct (FindClass J env activity_object class_name p) as [c p'|f p'|].
  - destruct H as [[Hs Hg] Hn]. auto.
  - destruct H as [[Hs Hg] Hf]. auto.
  - exact H.
Qed.

Lemma ptotal_pure {A} (Q : Prop) (Pre : Process -> Prop) (m : PM A) Post Err :
  (Q -> ptotal Pre m Post Err) -> ptotal (fun p => Pre p /\ Q) m Post Err.
Proof. intros H p [Hp Hq]. apply H; assumption. Qed.

Lemma assert_or_stop (Pre : Process -> Prop) (c : bool) :
  ptotal Pre (passert c) (fun _ p => Pre p /\ c = true) (fun _ _ => True).
Proof. intros p Hp. unfold passert. destruct c; auto. Qed.

Lemma jni_from_clean (c : call) (exc : option string) Err :
  ptotal no_exception (jni c exc) (fun _ p => jni_pending (world p) = exc) Err.
Proof.
  intros [w n] Hclean. unfold no_exception in Hclean.
  unfold jni, pbind, note, lift, act, jni_throw.
  cbn [world noted] in *. rewrite Hclean. reflexivity.
Qed.

Lemma jni_assert_clean {B} (r : Z * option string) (c : call)
    (k : PM B) (Post : B -> Process -> Prop) :
  (snd r <> None -> fst r = nullptr) ->
  (fst r <> nullptr -> ptotal no_exception k Post (fun _ _ => True)) ->
  ptotal no_exception
    (pbind (jni c (snd r))
       (fun _ => pbind (passert (negb (is_null (fst r)))) (fun _ => k)))
    Post (fun _ _ => True).
Proof.
  intros Hr Hk.
  eapply ptotal_bind; [apply jni_from_clean|intros u].
  eapply ptotal_bind; [apply assert_or_stop|intros u'].
  intros p [Hp Hc]. apply negb_true_iff, is_null_false in Hc.
  apply (Hk Hc). unfold no_exception. rewrite Hp.
  destruct (snd r) as [exc|] eqn:E; [|reflexivity].
  exfalso. apply Hc, Hr. discriminate.
Qed.

(** X12: with a runtime in which a function that raises returns null,
    [FindClass] called with no exception pending never returns nullptr from
    its fallback.  Either the first lookup did not raise and its result is
    returned as it is, or the class came from [loadClass] and is not null:
    when [loadClass] raises, [assert(class_object)] of line 139 stops the
    process before the check of line 141 is reached. *)
Theorem FindClass_fallback_never_null
    (J : JavaRuntime) (env : JNIEnv_ptr) (activity_object : jobject)
    (class_name : string) (p : Process) :
  raises_null J ->
  jni_pending (world p) = None ->
  match FindClass J env activity_object class_name p with
  | PRet c p' =>
      (snd (find_class J class_name) = None /\ c = fst (find_class J class_name))
      \/ (snd (find_class J class_name) <> None /\ c <> nullptr)
  | PStop f _ => True
  | PSpin => False
  end.
Proof.
  intros [Hfc Hgm Hcm] Hclean.
  enough (H : ptotal no_exception
                (FindClass J env activity_object class_name)
                (fun c _ =>
                   (snd (find_class J class_name) = None
                    /\ c = fst (find_class J class_name))
                   \/ (snd (find_class J class_name) <> None /\ c <> nullptr))
                (fun _ _ => True)).
  { specialize (H p Hclean).
    destruct (FindClass J env activity_object class_name p); exact H. }
  clear p Hclean. unfold FindClass. cbv zeta.
  destruct (is_null env); [intros p _; exact Logic.I|].
  eapply ptotal_bind; [apply jni_from_clean|intros u].
  eapply ptotal_bind.
  { eapply ptotal_weaken;
      [apply (clear_if_pending_keeps (fun _ => True)
                (fun _ _ => Logic.I) (fun _ _ _ => Logic.I)
                (snd (find_class J class_name)))
      |intros p Hp; split; [exact Logic.I|exact Hp]
      |intros b p H; exact H|intros f p H; exact H]. }
  intros not_found. cbv beta.
  eapply ptotal_weaken with
    (Pre' := fun p => no_exception p
                      /\ not_found = match snd (find_class J class_name) with
                                     | Some _ => true | None => false end);
    [|intros p (_ & H1 & H2); split; assumption
     |intros ? ? H; exact H|intros ? ? H; exact H].
  apply ptotal_pure. intros Hnf.
  destruct not_found.
  2:{ intros p _. left. split; [|reflexivity].
      destruct (snd (find_class J class_name)); [discriminate|reflexivity]. }
  assert (Hraised : snd (find_class J class_name) <> None)
    by (destruct (snd (find_class J class_name)); discriminate).
  eapply ptotal_weaken with (Post' := fun c _ => c <> nullptr);
    [|intros ? H; exact H|intros c ? H; right; split; assumption
     |intros ? ? H; exact H].
  apply jni_assert_clean; [apply Hfc|intros _].
  apply jni_assert_clean; [apply Hgm|intros _].
  apply jni_assert_clean; [apply Hcm|intros _].
  apply jni_assert_clean; [apply Hfc|intros _].
  apply jni_assert_clean; [apply Hgm|intros _].
  eapply ptotal_bind;
    [apply (ptotal_note_world (fun w => jni_pending w = None))|intros u1].
  eapply ptotal_bind;
    [apply (assert_or_stop (fun p => jni_pending (world p) = None))|intros u2].
  eapply ptotal_weaken with (Pre' := no_exception);
    [|intros p [H _]; exact H|intros ? ? H; exact H|intros ? ? H; exact H].
  apply jni_assert_clean; [apply Hcm|intros Hloaded].
  eapply ptotal_bind.
  { eapply ptotal_weaken;
      [apply (clear_if_pending_keeps (fun _ => True)
                (fun _ _ => Logic.I) (fun _ _ _ => Logic.I) None)
      |intros p Hp; split; [exact Logic.I|exact Hp]
      |intros b p H; exact H|intros f p H; exact H]. }
  intros failed. cbv beta.
  intros [w n] (_ & _ & ->). cbn. exact Hloaded.
Qed.

Lemma fallback_java_raises_null : raises_null fallback_java.
Proof.
  split.
  - intros name. cbn. destruct (String.eqb name logging_utils_name); cbn; congruence.
  - intros cls name sig. cbn. congruence.
  - intros obj method args. cbn. congruence.
Qed.

Lemma FindClass_fallback_never_null_witness :
  raises_null fallback_java
  /\ jni_pending (world fresh_process) = None
  /\ match FindClass fallback_java 4096 500 logging_utils_name fresh_process with
     | PRet c p' =>
         (snd (find_class fallback_java logging_utils_name) = None
          /\ c = fst (find_class fallback_java logging_utils_name))
         \/ (snd (find_class fallback_java logging_utils_name) <> None
             /\ c <> nullptr)
     | PStop f _ => True
     | PSpin => False
     end.
Proof.
  split; [exact fallback_java_raises_null|]. split; [reflexivity|].
  apply (FindClass_fallback_never_null fallback_java 4096 500 logging_utils_name
           fresh_process).
  - exact fallback_java_raises_null.
  - reflexivity.
Defined.

(** ** LoggingUtilsData::Init *)

Section InitKeeps.

Variable P : Platform.
Variable J : JavaRuntime.
Variable self : pthread_t.
Variable tr0 : list event.

Lemma building_emit e w : init_event e -> building tr0 w -> building tr0 (emit e w).
Proof.
  intros He [Hd Hg]. split; [exact Hd|].
  apply (sf_emit P _ _ (grown_stable_for P tr0 init_event)); assumption.
Qed.

Lemma LogMessage_building msg :
  In msg init_messages ->
  total (building tr0) (LogMessage P self msg)
    (fun _ => building tr0) (fun _ => building tr0).
Proof.
  intros Hin w Hw. rewrite LogMessage_without_view by apply Hw.
  apply building_emit; [exact Hin|exact Hw].
Qed.

Lemma GetJniEnv_building :
  total (building tr0) (GetJniEnv P self)
    (fun _ => building tr0) (fun _ => building tr0).
Proof.
  intros w Hw. unfold GetJniEnv.
  destruct (negb (pthread_equal (g_main_thread w) self)); [exact Hw|].
  destruct (g_app_state w); [|exact Hw].
  apply building_emit; [exact Logic.I|exact Hw].
Qed.

Lemma GetActivityM_building :
  total (building tr0) (GetActivityM self)
    (fun _ => building tr0) (fun _ => building tr0).
Proof.
  intros w Hw. unfold GetActivityM. destruct (GetActivity self w); exact Hw.
Qed.

(** With no exception pending the check of line 175 reports nothing. *)
Lemma CheckJNIException_building :
  total (fun w => building tr0 w /\ jni_pending w = None)
    (CheckJNIException P self)
    (fun _ => building tr0) (fun _ => building tr0).
Proof.
  intros w [Hw Hn]. unfold CheckJNIException, bind.
  pose proof (GetJniEnv_building w Hw) as H.
  assert (Hp : match GetJniEnv P self w with
               | Ret _ w' | Stop _ w' => jni_pending w' = None
               | Spin => True
               end).
  { unfold GetJniEnv.
    destruct (negb (pthread_equal (g_main_thread w) self)); [exact Hn|].
    destruct (g_app_state w); exact Hn. }
  destruct (GetJniEnv P self w) as [env w1|f w1|]; [|exact H|exact H].
  destruct (is_null env); [exact H|].
  unfold read. rewrite Hp. exact H.
Qed.

Lemma building_clear w : building tr0 w -> building tr0 (emit EvExceptionClear w).
Proof. apply building_emit. exact Logic.I. Qed.

Lemma building_pending v w : building tr0 w -> building tr0 (set_jni_pending v w).
Proof. intros H. exact H. Qed.

Ltac building_lift L :=
  eapply ptotal_bind;
    [apply (ptotal_lift_world _ (building tr0) (fun _ => building tr0)
              (fun _ => building tr0)); apply L
    |intros ?].
Ltac building_log :=
  eapply ptotal_bind;
    [apply (ptotal_lift_world _ (building tr0) (fun _ => building tr0)
              (fun _ => building tr0));
     apply LogMessage_building; cbn; tauto
    |intros ?].
Ltac building_jni :=
  eapply ptotal_bind;
    [apply (jni_keeps (building tr0) building_pending)|intros ?].
Ltac building_note :=
  eapply ptotal_bind; [apply (ptotal_note_world (building tr0))|intros ?].

Lemma LoggingUtilsData_Init_building :
  ptotal (fun p => building tr0 (world p)) (LoggingUtilsData_Init P J self)
    (fun _ p => building tr0 (world p)) (fun _ p => building tr0 (world p)).
Proof.
  unfold LoggingUtilsData_Init. cbv zeta.
  building_log. building_lift GetJniEnv_building.
  eapply ptotal_bind;
    [apply (ptotal_assert_keeps (fun p => building tr0 (world p)))|intros ?].
  building_log. building_lift GetActivityM_building.
  eapply ptotal_bind.
  { eapply ptotal_weaken;
      [apply (FindClass_keeps J (building tr0) building_clear building_pending)
      |intros ? H; exact H|intros ? ? H; exact H|intros ? ? [H _]; exact H]. }
  intros logging_utils_class. cbv beta.
  eapply ptotal_bind.
  { apply (ptotal_lift_world _ (fun w => building tr0 w /\ jni_pending w = None)
             (fun _ => building tr0) (fun _ => building tr0)).
    apply CheckJNIException_building. }
  intros ?. cbv beta.
  eapply ptotal_bind;
    [apply (ptotal_assert_keeps (fun p => building tr0 (world p)))|intros ?].
  building_log. building_note. building_note.
  building_log. building_jni. building_log. building_jni.
  building_log. building_lift GetActivityM_building. building_jni.
  intros p Hp. exact Hp.
Qed.

End InitKeeps.

(** X13: while [LoggingUtilsData::Init] runs from [android_main],
    [g_logging_utils_data] is still null, so none of its six messages
    reaches the log view and no Java exception is reported: whatever the
    runtime answers and however [Init] ends, the process has only written
    these messages to the system log, attached the thread and cleared
    exceptions.  The check of line 175 finds nothing, as [FindClass] has
    cleared what was pending, and the exceptions of the calls that follow it
    are not looked at.  [Init] needs no fuel. *)
Theorem LoggingUtilsData_Init_reports_nothing
    (P : Platform) (J : JavaRuntime) (self : pthread_t) (p : Process) :
  g_logging_utils_data (world p) = None ->
  match LoggingUtilsData_Init P J self p with
  | PRet _ p' | PStop _ p' =>
      g_logging_utils_data (world p') = None
      /\ grown (trace (world p)) init_event (world p')
  | PSpin => False
  end.
Proof.
  intros Hd.
  pose proof (LoggingUtilsData_Init_building P J self (trace (world p)) p
                (conj Hd (grown_refl _ _))) as H.
  destruct (LoggingUtilsData_Init P J self p); exact H.
Qed.

Lemma LoggingUtilsData_Init_reports_nothing_witness :
  exists d p',
    LoggingUtilsData_Init quiet_platform windowless_java worker_thread
      session_process = PRet d p'
    /\ g_logging_utils_data (world p') = None
    /\ grown (trace (world session_process)) init_event (world p')
    /\ jni_pending (world p') = Some "java.lang.RuntimeException"%string
    /\ length (trace (world p')) = 8%nat.
Proof.
  pose proof (LoggingUtilsData_Init_reports_nothing quiet_platform windowless_java
                worker_thread session_process eq_refl) as H.
  destruct (LoggingUtilsData_Init quiet_platform windowless_java worker_thread
              session_process) as [d p'|f p'|] eqn:E.
  - exists d, p'. split; [reflexivity|].
    destruct H as [Hd Hg]. split; [exact Hd|]. split; [exact Hg|].
    vm_compute in E. injection E as <- <-. split; reflexivity.
  - vm_compute in E. discriminate.
  - destruct H.
Defined.

(** ** An exception raised while the log window is built *)

Section InitOnMain.

Variable P : Platform.
Variable J : JavaRuntime.
Variable self : pthread_t.
Variable app : android_app.
Hypothesis Hok : attach_ok P = true.
Hypothesis Henv : attach_env P <> nullptr.

Lemma LogMessage_in_session v msg :
  total (in_session self app None v) (LogMessage P self msg)
    (fun _ => in_session self app None v) (fun _ _ => False).
Proof.
  intros w Hw. rewrite LogMessage_without_view by apply Hw. exact Hw.
Qed.

Lemma GetJniEnv_in_session data v :
  total (in_session self app data v) (GetJniEnv P self)
    (fun env w => in_session self app data v w /\ env = attach_env P)
    (fun _ _ => False).
Proof.
  intros w Hw. destruct Hw as (Hm & Ha & Hd & Hp).
  rewrite <- Hm, (GetJniEnv_on_main P w app Ha), Hok.
  split; [|reflexivity]. repeat split; assumption.
Qed.

Lemma GetActivityM_in_session data v :
  total (in_session self app data v) (GetActivityM self)
    (fun a w => in_session self app data v w /\ a = clazz (activity app))
    (fun _ _ => False).
Proof.
  intros w Hw. destruct Hw as (Hm & Ha & Hd & Hp).
  unfold GetActivityM, GetActivity.
  rewrite Hm, pthread_equal_refl, Ha. cbn [negb].
  split; [|reflexivity]. repeat split; assumption.
Qed.

Lemma CheckJNIException_in_session data :
  total (in_session self app data None) (CheckJNIException P self)
    (fun _ => in_session self app data None) (fun _ _ => False).
Proof.
  intros w Hw. destruct Hw as (Hm & Ha & Hd & Hp).
  rewrite <- Hm, (CheckJNIException_on_main P w app Ha Hok Henv), Hp.
  repeat split; assumption.
Qed.

Lemma jni_in_session data v c exc Err :
  ptotal (fun p => in_session self app data v (world p)) (jni c exc)
    (fun _ p => in_session self app data (first_raised v exc) (world p)) Err.
Proof.
  intros [w n] Hw. cbn [world] in Hw. destruct Hw as (Hm & Ha & Hd & Hp).
  unfold jni, pbind, note, lift, act, jni_throw. cbn [world noted].
  rewrite Hp. unfold first_raised.
  destruct v; repeat split; assumption.
Qed.

Lemma FindClass_in_session data env activity_object class_name c :
  env <> nullptr ->
  find_class J class_name = (c, None) ->
  ptotal (fun p => in_session self app data None (world p))
    (FindClass J env activity_object class_name)
    (fun c' p => in_session self app data None (world p) /\ c' = c)
    (fun _ _ => False).
Proof.
  intros Hnn Hfc [w n] Hw. cbn [world] in Hw. destruct Hw as (Hm & Ha & Hd & Hp).
  apply is_null_false in Hnn.
  unfold FindClass. rewrite Hnn, Hfc. cbv zeta. cbn [fst snd].
  unfold pbind at 1 2, jni, pbind, note, lift, act, jni_throw, clear_if_pending,
    read, pret.
  cbn [world noted]. rewrite Hp. cbn [world noted jni_pending set_jni_pending].
  split; [|reflexivity]. repeat split; assumption.
Qed.

Ltac session_lift L :=
  eapply ptotal_bind;
    [apply (ptotal_lift_world _ _ _ _ L)|intros ?; cbv beta].
Ltac session_note :=
  eapply ptotal_bind;
    [apply (ptotal_note_world (in_session self app None _))|intros ?; cbv beta].
Ltac session_jni :=
  eapply ptotal_bind; [apply jni_in_session|intros ?; cbv beta].

(** On the main thread of a session whose runtime finds the logging class
    at the first lookup, [Init] returns.  It leaves pending the first
    exception raised behind [FindClass]. *)
Lemma LoggingUtilsData_Init_in_session (c : jclass) :
  find_class J "com/google/firebase/example/LoggingUtils" = (c, None) ->
  c <> nullptr ->
  ptotal (fun p => in_session self app None None (world p))
    (LoggingUtilsData_Init P J self)
    (fun d p =>
       in_session self app None (Init_exception J (new_global_ref J c)) (world p)
       /\ d = {| logging_utils_class_ := new_global_ref J c;
                 logging_utils_add_log_text_ :=
                   fst (get_static_method_id J (new_global_ref J c) "addLogText"
                          "(Ljava/lang/String;)V");
                 logging_utils_init_log_window_ :=
                   fst (get_static_method_id J (new_global_ref J c) "initLogWindow"
                          "(Landroid/app/Activity;)V") |})
    (fun _ _ => False).
Proof.
  intros Hfc Hc. unfold LoggingUtilsData_Init. cbv zeta.
  session_lift (LogMessage_in_session None "get env").
  session_lift (GetJniEnv_in_session None None).
  apply ptotal_pure. intros ->.
  assert (Ee : negb (is_null (attach_env P)) = true)
    by (apply negb_true_iff, is_null_false, Henv).
  rewrite Ee.
  eapply ptotal_bind;
    [apply (ptotal_assert_true
              (fun p => in_session self app None None (world p)))
    |intros ?; cbv beta].
  session_lift (LogMessage_in_session None "find logging utils").
  session_lift (GetActivityM_in_session None None).
  apply ptotal_pure. intros ->.
  eapply ptotal_bind;
    [apply (FindClass_in_session None (attach_env P) _ _ c Henv Hfc)
    |intros logging_utils_class; cbv beta].
  apply ptotal_pure. intros ->.
  session_lift (CheckJNIException_in_session None).
  assert (Ec : negb (is_null c) = true)
    by (apply negb_true_iff, is_null_false, Hc).
  rewrite Ec.
  eapply ptotal_bind;
    [apply (ptotal_assert_true
              (fun p => in_session self app None None (world p)))
    |intros ?; cbv beta].
  session_lift (LogMessage_in_session None "reference class").
  session_note. session_note.
  session_lift (LogMessage_in_session None "get init log window").
  session_jni.
  session_lift (LogMessage_in_session
                  (first_raised None
                     (snd (get_static_method_id J (new_global_ref J c)
                             "initLogWindow" "(Landroid/app/Activity;)V")))
                  "get add log text").
  session_jni.
  session_lift (LogMessage_in_session
                  (first_raised
                     (first_raised None
                        (snd (get_static_method_id J (new_global_ref J c)
                                "initLogWindow" "(Landroid/app/Activity;)V")))
                     (snd (get_static_method_id J (new_global_ref J c)
                             "addLogText" "(Ljava/lang/String;)V")))
                  "call init").
  session_lift (GetActivityM_in_session None
                  (first_raised
                     (first_raised None
                        (snd (get_static_method_id J (new_global_ref J c)
                                "initLogWindow" "(Landroid/app/Activity;)V")))
                     (snd (get_static_method_id J (new_global_ref J c)
                             "addLogText" "(Ljava/lang/String;)V")))).
  apply ptotal_pure. intros ->.
  session_jni.
  intros p Hp. unfold pret. split; [|reflexivity].
  unfold Init_exception. unfold first_raised in Hp. cbn [world] in *.
  destruct (snd (get_static_method_id J (new_global_ref J c) "initLogWindow"
                   "(Landroid/app/Activity;)V"));
    [exact Hp|].
  destruct (snd (get_static_method_id J (new_global_ref J c) "addLogText"
                   "(Ljava/lang/String;)V")); exact Hp.
Qed.

End InitOnMain.

Lemma LogMessage_surfaces_pending (P : Platform) (self : pthread_t)
    (app : android_app) (d : LoggingUtilsData) (exc msg : string) :
  attach_ok P = true ->
  attach_env P <> nullptr ->
  logging_utils_class_ d <> nullptr ->
  total (in_session self app (Some d) (Some exc)) (LogMessage P self msg)
    (fun _ _ => False)
    (fun f w' =>
       f = AssertionFailed
       /\ exists tr,
            trace w' = tr ++ [EvAndroidLog msg; EvAttachCurrentThread;
                              EvAddLogText (logging_utils_class_ d)
                                (logging_utils_add_log_text_ d) (line_buffer msg);
                              EvAttachCurrentThread] ++ surfaced exc).
Proof.
  intros Hok Henv Hcls w (Hm & Ha & Hd & Hp).
  destruct (LogMessage_on_main_outcome P msg w app d Ha Hd Hcls Hok Henv)
    as [Htr Hout].
  assert (Hp1 : jni_pending
                  (call_addLogText P d (line_buffer msg)
                     (emit EvAttachCurrentThread (emit (EvAndroidLog msg) w)))
                = Some exc).
  { unfold call_addLogText. cbn [jni_pending emit]. rewrite Hp. exact Hp. }
  rewrite Hp1 in Hout. destruct Hout as (w2 & Hstop & _ & Htr2).
  rewrite <- Hm, Hstop. split; [reflexivity|].
  exists (trace w). rewrite Htr2, Htr, <- app_assoc. reflexivity.
Qed.

(** X14: an exception raised while the log window is built is found only by
    the first message logged afterwards.  In a session whose runtime finds
    the logging class at the first lookup, [Init] returns with the first
    exception raised by [GetStaticMethodID] or [initLogWindow] still
    pending; [LogMessage("Logging display up")] then calls [addLogText] with
    that exception pending, [CheckJNIException] clears and logs it, and
    [assert(false)] stops [android_main] before it waits for [nativeInit]. *)
Theorem Init_exception_stops_at_first_line
    (P : Platform) (J : JavaRuntime) (A : AdSdk) (fuel : nat)
    (self : pthread_t) (state : android_app) (p : Process)
    (c : jclass) (exc : string) :
  attach_ok P = true ->
  attach_env P <> nullptr ->
  g_logging_utils_data (world p) = None ->
  jni_pending (world p) = None ->
  find_class J "com/google/firebase/example/LoggingUtils" = (c, None) ->
  c <> nullptr ->
  new_global_ref J c <> nullptr ->
  Init_exception J (new_global_ref J c) = Some exc ->
  exists p' tr,
    android_main_session P J A fuel self state p = PStop AssertionFailed p'
    /\ trace (world p')
       = tr ++ [EvAndroidLog "Logging display up"; EvAttachCurrentThread;
                EvAddLogText (new_global_ref J c)
                  (fst (get_static_method_id J (new_global_ref J c) "addLogText"
                          "(Ljava/lang/String;)V"))
                  (line_buffer "Logging display up");
                EvAttachCurrentThread] ++ surfaced exc.
Proof.
  intros Hok Henv Hdata Hclean Hfc Hc Hglobal Hexc.
  set (app := {| activity := activity state; onAppCmd := Some Cb_OnAppCmd |}).
  set (d := {| logging_utils_class_ := new_global_ref J c;
               logging_utils_add_log_text_ :=
                 fst (get_static_method_id J (new_global_ref J c) "addLogText"
                        "(Ljava/lang/String;)V");
               logging_utils_init_log_window_ :=
                 fst (get_static_method_id J (new_global_ref J c) "initLogWindow"
                        "(Landroid/app/Activity;)V") |}).
  enough (H : ptotal
                (fun q => g_logging_utils_data (world q) = None
                          /\ jni_pending (world q) = None)
                (android_main_session P J A fuel self state)
                (fun _ _ => False)
                (fun f q =>
                   f = AssertionFailed
                   /\ exists tr,
                        trace (world q)
                        = tr ++ [EvAndroidLog "Logging display up";
                                 EvAttachCurrentThread;
                                 EvAddLogText (logging_utils_class_ d)
                                   (logging_utils_add_log_text_ d)
                                   (line_buffer "Logging display up");
                                 EvAttachCurrentThread] ++ surfaced exc)).
  { specialize (H p (conj Hdata Hclean)).
    destruct (android_main_session P J A fuel self state p) as [u q|f q|];
      [destruct H| |destruct H].
    destruct H as (-> & tr & Htr). exists q, tr. split; [reflexivity|exact Htr]. }
  unfold android_main_session.
  eapply ptotal_bind with
    (Mid := fun _ q => in_session self app None None (world q)).
  { apply ptotal_lift. intros n. apply total_act.
    intros w [Hd Hp]. repeat split; assumption. }
  intros ?.
  eapply ptotal_bind with
    (Mid := fun _ q => in_session self app (Some d) (Some exc) (world q)).
  { unfold create_logging_display.
    eapply ptotal_bind.
    - eapply ptotal_weaken;
        [apply (LoggingUtilsData_Init_in_session P J self app Hok Henv c Hfc Hc)
        |intros ? H; exact H|intros ? ? H; exact H|intros ? ? []].
    - intros data. cbv beta. apply ptotal_pure. intros ->. fold d.
      rewrite Hexc.
      apply ptotal_lift. intros n. apply total_act.
      intros w (Hm & Ha & _ & Hp). repeat split; assumption. }
  intros ?.
  eapply ptotal_bind with (Mid := fun _ _ => False).
  { unfold log.
    apply (ptotal_lift_world _ _ _ _
             (LogMessage_surfaces_pending P self app d exc "Logging display up"
                Hok Henv Hglobal)). }
  intros ? ? [].
Qed.

Lemma Init_exception_stops_at_first_line_witness :
  exists p' tr,
    android_main_session quiet_platform windowless_java closing_sdk 1
      worker_thread sample_state fresh_process = PStop AssertionFailed p'
    /\ trace (world p')
       = tr ++ [EvAndroidLog "Logging display up"; EvAttachCurrentThread;
                EvAddLogText 701 720 (line_buffer "Logging display up");
                EvAttachCurrentThread]
            ++ surfaced "java.lang.RuntimeException".
Proof.
  apply (Init_exception_stops_at_first_line quiet_platform windowless_java
           closing_sdk 1 worker_thread sample_state fresh_process 700
           "java.lang.RuntimeException").
  - reflexivity.
  - cbv. discriminate.
  - reflexivity.
  - reflexivity.
  - reflexivity.
  - cbv. discriminate.
  - cbv. discriminate.
  - reflexivity.
Defined.

(** ** common_main *)

Lemma pspec_any {A} (m : PM A) :
  pspec (fun _ => True) m (fun _ _ => True) (fun _ => True).
Proof. intros p _. destruct (m p); exact Logic.I. Qed.

Lemma pspec_false {A} (m : PM A) Post Err : pspec (fun _ => False) m Post Err.
Proof. intros p []. Qed.

Ltac skip_to_last_loop :=
  lazymatch goal with
  | |- pspec _ (pbind (lift (common_main_wait_for_kill _ _ _)) _) _ _ => fail
  | |- pspec _ (pbind _ _) _ _ =>
      eapply pspec_bind; [apply pspec_any|intros ?; cbv beta]
  end.

Ltac skip_to_interstitial :=
  lazymatch goal with
  | |- pspec _ (pbind (lift (wait_until_hidden _ _ _ _)) _) _ _ => fail
  | |- pspec _ (pbind _ _) _ _ =>
      eapply pspec_bind; [apply pspec_any|intros ?; cbv beta]
  end.

Lemma common_main_torn_down (P : Platform) (A : AdSdk) fuel self :
  pspec (fun _ => True) (common_main P A fuel self)
    (fun r p' =>
       r = 0
       /\ g_destroy_requested (world p') || g_restarted (world p') = true
       /\ g_banner (world p') = nullptr
       /\ g_app (world p') = nullptr
       /\ exists banner app,
            map snd (skipn (length (noted p') - 4) (noted p'))
            = [SdkBannerDelete banner;
               SdkInterstitialDelete (interstitial_new A);
               SdkAdmobTerminate; SdkAppDelete app])
    (fun _ => True).
Proof.
  unfold common_main. cbv zeta. repeat skip_to_last_loop.
  eapply pspec_bind with
    (Mid := fun _ q => g_destroy_requested (world q) || g_restarted (world q) = true).
  { apply pspec_lift. intros n w _.
    pose proof (common_main_wait_for_kill_returns P fuel self w) as H.
    destruct (common_main_wait_for_kill P fuel self w) as [[] w'| |];
      [|exact Logic.I|exact Logic.I].
    apply (H w'). reflexivity. }
  intros ? [w n] Hflags.
  unfold pbind, lift, read, act, note, pret. cbn [world noted] in *.
  split; [reflexivity|]. split; [exact Hflags|].
  split; [reflexivity|]. split; [reflexivity|].
  exists (g_banner w), (g_app w).
  rewrite <- !app_assoc. cbn [app].
  rewrite length_app. cbn [length].
  replace (length n + 4 - 4)%nat with (length n + 0)%nat by lia.
  rewrite skipn_app, Nat.add_0_r, skipn_all.
  replace (length n - length n)%nat with 0%nat by lia. reflexivity.
Qed.

(** X15: [common_main] gives control back to [android_main] only once a
    destroy or a restart request is up, and then with the banner view, the
    interstitial, AdMob and the Firebase app torn down, in this order, as
    its last four calls: [g_banner] and [g_app] are null, so that the next
    session initialises Firebase again.  Its result is 0. *)
Theorem common_main_returns_torn_down
    (P : Platform) (A : AdSdk) (fuel : nat) (self : pthread_t) (p : Process) :
  match common_main P A fuel self p with
  | PRet r p' =>
      r = 0
      /\ g_destroy_requested (world p') || g_restarted (world p') = true
      /\ g_banner (world p') = nullptr
      /\ g_app (world p') = nullptr
      /\ exists banner app,
           map snd (skipn (length (noted p') - 4) (noted p'))
           = [SdkBannerDelete banner; SdkInterstitialDelete (interstitial_new A);
              SdkAdmobTerminate; SdkAppDelete app]
  | PStop _ _ | PSpin => True
  end.
Proof.
  pose proof (common_main_torn_down P A fuel self p Logic.I) as H.
  destruct (common_main P A fuel self p); exact H.
Qed.

Lemma wait_until_hidden_covered (P : Platform) (A : AdSdk) fuel self w :
  (forall t, interstitial_presentation A t <> kPresentationStateHidden) ->
  wait_until_hidden P A fuel self w = Spin.
Proof.
  intros Hcover. revert w. induction fuel as [|fuel IH]; intros w;
    cbn [wait_until_hidden]; [reflexivity|].
  specialize (Hcover (clock w)).
  destruct (interstitial_presentation A (clock w)); [congruence|].
  cbn. apply IH.
Qed.

(** X16: the loop that waits for the user to close the interstitial ignores
    what [ProcessEvents] returns.  If the interstitial is never reported
    hidden, [common_main] does not return and does not reach its teardown,
    whatever the fuel, also when a destroy or restart request is up. *)
Theorem common_main_waits_for_interstitial
    (P : Platform) (A : AdSdk) (fuel : nat) (self : pthread_t) (p : Process) :
  (forall t, interstitial_presentation A t <> kPresentationStateHidden) ->
  match common_main P A fuel self p with
  | PRet _ _ => False
  | PStop _ _ | PSpin => True
  end.
Proof.
  intros Hcover.
  enough (H : pspec (fun _ => True) (common_main P A fuel self)
                (fun _ _ => False) (fun _ => True)).
  { specialize (H p Logic.I). destruct (common_main P A fuel self p); exact H. }
  unfold common_main. cbv zeta. repeat skip_to_interstitial.
  eapply pspec_bind with (Mid := fun _ _ => False).
  { apply pspec_lift. intros n w _.
    rewrite (wait_until_hidden_covered P A fuel self w Hcover). exact Logic.I. }
  intros ?. apply pspec_false.
Qed.

Lemma common_main_waits_for_interstitial_witness :
  match common_main destroying_platform covering_sdk 50 worker_thread
          {| world := logging_world; noted := [] |} with
  | PRet _ _ => False
  | PStop _ _ | PSpin => True
  end.
Proof.
  apply (common_main_waits_for_interstitial destroying_platform covering_sdk 50
           worker_thread {| world := logging_world; noted := [] |}).
  intros t. cbn. discriminate.
Defined.

Lemma GetActivityM_ensures (I : World -> Prop) self : ensures I (GetActivityM self).
Proof.
  intros w Hw. unfold GetActivityM. destruct (GetActivity self w); exact Hw.
Qed.

Lemma demo_event_sink e : sink_event e -> demo_event e.
Proof. intros H. left. exact H. Qed.

Lemma demo_event_pump e : pump_event e -> demo_event e.
Proof. intros H. right. left. exact H. Qed.

Section DemoKeeps.

Variable P : Platform.
Variable A : AdSdk.
Variable self : pthread_t.
Variable fuel : nat.
Variable tr0 : list event.

Lemma demo_stable : stable_for P demo_event (grown tr0 demo_event).
Proof. apply grown_stable_for. Qed.

Ltac demo_world :=
  first
    [ apply (LogMessage_ensures P demo_event _ demo_stable), demo_event_sink
    | apply (WaitForFutureCompletion_ensures P demo_event _ demo_stable);
        [apply demo_event_pump|apply demo_event_sink]
    | apply (wait_until_hidden_ensures P demo_event _ demo_stable), demo_event_pump
    | apply (common_main_wait_for_kill_ensures P demo_event _ demo_stable),
        demo_event_pump
    | apply GetActivityM_ensures
    | apply ensures_read
    | apply ensures_act; intros w Hw;
        first [ exact Hw
              | apply (sf_emit P _ _ demo_stable);
                  [right; right; reflexivity|exact Hw] ] ].

Ltac demo_step :=
  first
    [ apply pensures_lift; demo_world
    | apply pensures_note
    | apply pensures_ret
    | apply pensures_stop ].

(** Everything in [common_main] behind the call of [InitializeFirebase]. *)
Lemma common_main_demo_events :
  pspec (fun p => g_app (world p) <> nullptr /\ grown tr0 demo_event (world p))
    (common_main P A fuel self)
    (fun _ p => grown tr0 demo_event (world p))
    (fun p => grown tr0 demo_event (world p)).
Proof.
  unfold common_main, log, wait, GetWindowContextM. cbv zeta.
  intros p [Happ Hgrown].
  unfold pbind at 1. unfold lift at 1.
  pose proof (LogMessage_ensures P demo_event _ demo_stable self
                "Initializing the AdMob library." demo_event_sink (world p) Hgrown)
    as Hlog.
  assert (Hsame : match LogMessage P self "Initializing the AdMob library." (world p) with
                  | Ret _ w' => g_app w' = g_app (world p)
                  | _ => True
                  end).
  { pose proof (LogMessage_preserves P (fun w => g_app w = g_app (world p)) self
                  "Initializing the AdMob library.") as H.
    apply H; [split; cbn; auto|reflexivity]. }
  destruct (LogMessage P self "Initializing the AdMob library." (world p))
    as [[] w1|f w1|]; [|exact Hlog|exact Logic.I].
  unfold pbind at 1. unfold lift at 1. cbn [world noted].
  rewrite InitializeFirebase_already by (rewrite Hsame; exact Happ).
  match goal with
  | |- match ?k ?q with _ => _ end =>
      enough (H : pensures (fun p => grown tr0 demo_event (world p)) k)
  end.
  { match goal with
    | |- match ?k ?q with _ => _ end => exact (H q Hlog)
    end. }
  apply pensures_bind; [demo_step|intros banner].
  apply pensures_bind; [destruct (is_null banner); demo_step|intros ?].
  repeat (apply pensures_bind; [demo_step|intros ?]). demo_step.
Qed.

End DemoKeeps.

(** X17: entered with the Firebase app in place, as after [nativeInit],
    [common_main] creates nothing a second time.  Its call of
    [InitializeFirebase] returns at the first line, and however
    [common_main] ends, what it has added to the trace are calls of the
    logging sink, of the event pump and of [BannerView::Show]: no
    [App::Create], no [admob::Initialize], no second banner view. *)
Theorem common_main_after_early_init
    (P : Platform) (A : AdSdk) (fuel : nat) (self : pthread_t) (p : Process) :
  g_app (world p) <> nullptr ->
  match common_main P A fuel self p with
  | PRet _ p' | PStop _ p' => grown (trace (world p)) demo_event (world p')
  | PSpin => True
  end.
Proof.
  intros Happ.
  pose proof (common_main_demo_events P A self fuel (trace (world p)) p
                (conj Happ (grown_refl _ _))) as H.
  destruct (common_main P A fuel self p); exact H.
Qed.

Lemma common_main_after_early_init_witness :
  match common_main destroying_platform closing_sdk 30 worker_thread
          initialised_process with
  | PRet _ p' | PStop _ p' =>
      grown (trace (world initialised_process)) demo_event (world p')
  | PSpin => True
  end.
Proof.
  apply (common_main_after_early_init destroying_platform closing_sdk 30 worker_thread
           initialised_process).
  cbv. discriminate.
Defined.

(** ** common_main under a destroy request *)

Section WindingDown.

Variable P : Platform.
Variable A : AdSdk.
Variable self : pthread_t.
Variable app : android_app.
Variable d : LoggingUtilsData.
Variable w0 : World.
Hypothesis Hok : attach_ok P = true.
Hypothesis Henv : attach_env P <> nullptr.
Hypothesis Hquiet : forall n, add_log_text_throws P n = None.
Hypothesis Hvprint : vprint_returns P.
Hypothesis Hhidden :
  forall t, interstitial_presentation A t = kPresentationStateHidden.









Hypothesis Happ : g_app w0 <> nullptr.
Hypothesis Hbanner : g_banner w0 <> nullptr.










End WindingDown.



(** ** A whole session *)

Lemma LoggingUtilsData_destroy_ensures (P : Platform) (I : World -> Prop) self d :
  (forall e w, I w -> I (emit e w)) ->
  ensures I (LoggingUtilsData_destroy P self d).
Proof.
  intros Hemit. unfold LoggingUtilsData_destroy.
  apply ensures_bind.
  { intros w Hw. unfold GetJniEnv.
    destruct (negb (pthread_equal (g_main_thread w) self)); [exact Hw|].
    destruct (g_app_state w); [apply Hemit|]; exact Hw. }
  intros env. apply ensures_bind; [apply ensures_assert|intros _].
  destruct (negb (is_null (logging_utils_class_ d)));
    [apply ensures_act, Hemit|apply ensures_ret].
Qed.

(** Lines 363 to 379 reset what they reset and leave the handles of the
    advertising SDK alone. *)
Lemma android_main_leave_resets (P : Platform) self state :
  spec (fun w => g_app w = nullptr /\ g_banner w = nullptr)
    (android_main_leave P self state)
    (fun _ w' =>
       g_app w' = nullptr /\ g_banner w' = nullptr
       /\ g_logging_utils_data w' = None
       /\ g_initialized w' = false
       /\ g_started w' = false
       /\ g_restarted w' = false)
    (fun _ => True).
Proof.
  set (I := fun w => g_app w = nullptr /\ g_banner w = nullptr).
  assert (HI : stable_for P (fun _ => True) I).
  { split; intros; assumption. }
  unfold android_main_leave.
  eapply spec_bind with (Mid := fun _ => I).
  { eapply spec_weaken;
      [apply (ProcessEventsM_ensures P _ I HI self 10); auto
      |auto|auto|auto]. }
  intros _.
  eapply spec_bind with (Mid := fun _ => I).
  { intros w Hw. exact Hw. }
  intros data.
  eapply spec_bind with (Mid := fun _ => I).
  { intros w Hw.
    assert (H : ensures I (match data with
                           | Some d => LoggingUtilsData_destroy P self d
                           | None => ret tt
                           end)).
    { destruct data;
        [apply LoggingUtilsData_destroy_ensures; intros; assumption
        |apply ensures_ret]. }
    specialize (H w Hw).
    destruct (match data with
              | Some d => LoggingUtilsData_destroy P self d
              | None => ret tt
              end w); auto. }
  intros _ w [Ha Hb].
  unfold bind, act, read.
  cbn [g_restarted set_initialized set_logging_utils_data].
  destruct (g_restarted w); cbn [negb ret emit g_app_state set_initialized
                                 set_logging_utils_data];
    destruct (g_app_state w); cbn; auto 10.
Qed.

(** X19: a session that runs to its end leaves the statics as a first
    start finds them.  When [android_main] returns, [common_main] has torn
    down the Firebase app and the banner view and lines 366 to 378 have
    reset the rest: [g_app], [g_banner] and [g_logging_utils_data] are null
    and [g_initialized], [g_started] and [g_restarted] are false, so the
    session of a restart has to wait for [nativeInit] and to initialise
    Firebase again. *)
Theorem android_main_session_returns_reset
    (P : Platform) (J : JavaRuntime) (A : AdSdk) (fuel : nat)
    (self : pthread_t) (state : android_app) (p : Process) :
  match android_main_session P J A fuel self state p with
  | PRet _ p' =>
      g_app (world p') = nullptr
      /\ g_banner (world p') = nullptr
      /\ g_logging_utils_data (world p') = None
      /\ g_initialized (world p') = false
      /\ g_started (world p') = false
      /\ g_restarted (world p') = false
  | PStop _ _ | PSpin => True
  end.
Proof.
  enough (H : pspec (fun _ => True) (android_main_session P J A fuel self state)
                (fun _ p' =>
                   g_app (world p') = nullptr
                   /\ g_banner (world p') = nullptr
                   /\ g_logging_utils_data (world p') = None
                   /\ g_initialized (world p') = false
                   /\ g_started (world p') = false
                   /\ g_restarted (world p') = false)
                (fun _ => True)).
  { specialize (H p Logic.I).
    destruct (android_main_session P J A fuel self state p); exact H. }
  unfold android_main_session.
  do 4 (eapply pspec_bind; [apply pspec_any|intros ?; cbv beta]).
  eapply pspec_bind with
    (Mid := fun _ q => g_app (world q) = nullptr /\ g_banner (world q) = nullptr).
  { eapply pspec_weaken;
      [apply (common_main_torn_down P A fuel self)
      |intros ? H; exact H
      |intros r q (_ & _ & Hb & Ha & _); split; assumption
      |intros ? H; exact H]. }
  intros r. cbv beta.
  apply pspec_lift. intros n. apply android_main_leave_resets.
Qed.

(** The session of a short-lived activity, whose destroy command arrives at
    the third poll, runs to its end. *)
Lemma short_session_returns :
  exists p',
    android_main_session destroying_platform fallback_java closing_sdk 50
      worker_thread sample_state fresh_process = PRet tt p'.
Proof. eexists. vm_compute. reflexivity. Qed.

(** ** The handles seen during early initialisation *)

Lemma any_event_stable (P : Platform) (tr0 : list event) :
  stable_for P (fun _ => True) (grown tr0 (fun _ => True)).
Proof. apply grown_stable_for. Qed.

Ltac created_world P tr0 :=
  first
    [ apply (LogMessage_ensures P _ _ (any_event_stable P tr0)); auto
    | apply (LogMessage_va_ensures P _ _ (any_event_stable P tr0)); auto
    | apply (WaitForFutureCompletion_ensures P _ _ (any_event_stable P tr0)); auto
    | apply GetActivityM_ensures
    | apply ensures_read
    | apply ensures_stop
    | apply ensures_act; intros ? ?;
        first [ assumption
              | apply (sf_emit P _ _ (any_event_stable P tr0));
                  [exact Logic.I|assumption] ] ].

(** Whatever the platform answers and however it ends, the body of
    [InitializeFirebase] run off the main thread begins by handing
    [firebase::App::Create] the transient handles. *)
Lemma InitializeFirebase_body_creates (P : Platform) fuel self w :
  self <> g_main_thread w ->
  match InitializeFirebase_body P fuel self w with
  | Ret _ w' | Stop _ w' =>
      grown (trace w ++ [EvAppCreate (g_jni_env w) (g_activity w)])
        (fun _ => True) w'
  | Spin => True
  end.
Proof.
  intros Hoff. unfold InitializeFirebase_body.
  rewrite (bind_Ret _ _ _ _ _ (GetJniEnv_off_main P self w Hoff)).
  rewrite (bind_Ret _ _ _ _ _ (GetActivityM_off_main self w Hoff)).
  run_act.
  set (tr0 := trace w ++ [EvAppCreate (g_jni_env w) (g_activity w)]).
  match goal with
  | |- match ?m ?w1 with _ => _ end =>
      enough (H : ensures (grown tr0 (fun _ => True)) m)
        by exact (H w1 (grown_refl _ _))
  end.
  apply ensures_bind; [created_world P tr0|intros ?].
  apply ensures_bind; [created_world P tr0|intros app].
  apply ensures_bind; [created_world P tr0|intros ?].
  apply ensures_bind; [created_world P tr0|intros ?].
  apply ensures_bind; [created_world P tr0|intros app'].
  apply ensures_bind; [destruct (is_null app'); created_world P tr0|intros ?].
  unfold GetWindowContextM.
  repeat (apply ensures_bind; [created_world P tr0|intros ?]).
  match goal with
  | |- ensures _ (match ?r with _ => _ end) => destruct r; created_world P tr0
  end.
Qed.

Lemma nativeInit_creates_with_handles (P : Platform) fuel self env thiz activity w :
  self <> g_main_thread w ->
  g_app w = nullptr ->
  match nativeInit P fuel self env thiz activity w with
  | Ret _ w' | Stop _ w' =>
      exists evs, trace w' = trace w ++ EvAndroidLog "Early init called."
                               :: EvAppCreate env activity :: evs
  | Spin => True
  end.
Proof.
  intros Hoff Happ. unfold nativeInit.
  run_log. run_act. run_act.
  set (w0 := set_activity activity
               (set_jni_env env (emit (EvAndroidLog "Early init called.") w))).
  set (tr0 := trace w0 ++ [EvAppCreate env activity]).
  assert (Hinit : match InitializeFirebase P fuel self w0 with
                  | Ret _ w' | Stop _ w' => grown tr0 (fun _ => True) w'
                  | Spin => True
                  end).
  { unfold InitializeFirebase. run_read.
    change (g_app w0) with (g_app w). rewrite Happ.
    change (negb (is_null nullptr)) with false. cbn iota.
    apply (InitializeFirebase_body_creates P fuel self w0). exact Hoff. }
  assert (Hrest : forall w1, grown tr0 (fun _ => True) w1 ->
            exists evs, trace w1 = trace w ++ EvAndroidLog "Early init called."
                                     :: EvAppCreate env activity :: evs).
  { intros w1 (evs & Ht & _). exists evs. rewrite Ht. unfold tr0, w0.
    cbn [trace set_activity set_jni_env emit]. rewrite <- !app_assoc. reflexivity. }
  unfold bind at 1.
  destruct (InitializeFirebase P fuel self w0) as [[] w1|f w1|];
    [|apply Hrest, Hinit|exact Logic.I].
  match goal with
  | |- match ?m ?w1 with _ => _ end =>
      assert (H : ensures (grown tr0 (fun _ => True)) m)
  end.
  { repeat (apply ensures_bind; [created_world P tr0|intros ?]).
    created_world P tr0. }
  specialize (H w1 Hinit).
  match goal with
  | |- match ?r with _ => _ end => destruct r; auto
  end.
Qed.

(** C8: off the canonical main thread, [GetActivity] and [GetWindowContext]
    return the transient handle [g_activity]; this is the activity that
    [nativeInit] records in its line 61, so that the call of
    [firebase::App::Create] made inside [nativeInit] receives the very
    activity (and environment) that the managed runtime passed in.  On the
    main thread both functions return the [clazz] of the activity attached
    to the current application state. *)
Theorem GetActivity_by_thread (P : Platform) (self : pthread_t) (w : World) :
  (self <> g_main_thread w ->
     GetActivity self w = Some (g_activity w)
     /\ GetWindowContext self w = Some (g_activity w)
     /\ (forall env activity,
          GetActivity self (set_activity activity (set_jni_env env w)) = Some activity
          /\ GetWindowContext self (set_activity activity (set_jni_env env w))
             = Some activity)
     /\ (forall fuel T env thiz activity,
          vprint_returns P ->
          g_app w = nullptr ->
          app_create P <> nullptr ->
          resolves_by (banner_InitializeLastResult P) T ->
          resolves_by (banner_ShowLastResult P) T ->
          (T < fuel)%nat ->
          exists w' evs,
            nativeInit P fuel self env thiz activity w = Ret tt w'
            /\ trace w' = trace w ++ evs
            /\ In (EvAppCreate env activity) evs
            /\ g_activity w' = nullptr)
     /\ (forall fuel env thiz activity,
          g_app w = nullptr ->
          match nativeInit P fuel self env thiz activity w with
          | Ret _ w' | Stop _ w' =>
              exists evs,
                trace w' = trace w ++ EvAndroidLog "Early init called."
                             :: EvAppCreate env activity :: evs
          | Spin => True
          end))
  /\ (self = g_main_thread w ->
      forall app, g_app_state w = Some app ->
        GetActivity self w = Some (clazz (activity app))
        /\ GetWindowContext self w = Some (clazz (activity app))).
Proof.
  split.
  - intros H. unfold GetWindowContext.
    rewrite GetActivity_off_main by assumption.
    split; [reflexivity|]. split; [reflexivity|]. split; [|split].
    + intros env activity. split; apply GetActivity_off_main; cbn; assumption.
    + intros fuel T env thiz activity Hv Happ0 Happ Hinit Hshow HT.
      destruct (nativeInit_off_main P fuel self env thiz activity w T
                  Hv H Happ Hinit Hshow HT)
        as (w' & evs & E & Ht & _ & _ & Hin & _ & _ & _ & _ & _ & Hact).
      exists w', evs. repeat split; auto.
      apply Hin. unfold is_null. rewrite Happ0. reflexivity.
    + intros fuel env thiz activity Happ0.
      apply nativeInit_creates_with_handles; assumption.
  - intros -> app Happ. unfold GetWindowContext, GetActivity.
    rewrite pthread_equal_refl, Happ. cbn. split; reflexivity.
Qed.

Lemma GetActivity_by_thread_witness :
  GetActivity ui_thread (set_activity 500 (set_jni_env 4096 session_world)) = Some 500
  /\ GetWindowContext worker_thread session_world = Some 500
  /\ exists w' evs,
       nativeInit quiet_platform 1 ui_thread 4096 70 500 session_world = Ret tt w'
       /\ trace w' = trace session_world ++ evs
       /\ In (EvAppCreate 4096 500) evs.
Proof.
  destruct (GetActivity_by_thread quiet_platform ui_thread session_world)
    as [Hoff _].
  destruct (GetActivity_by_thread quiet_platform worker_thread session_world)
    as [_ Hon].
  destruct Hoff as (_ & _ & Hrec & Hinit & _); [cbv; discriminate|].
  split; [apply (Hrec 4096 500)|]. split.
  - apply (Hon eq_refl {| activity := activity sample_state;
                          onAppCmd := Some Cb_OnAppCmd |} eq_refl).
  - destruct (Hinit 1%nat 0%nat 4096 70 500) as (w' & evs & E & Ht & Hin & _).
    + intros position format args. discriminate.
    + reflexivity.
    + cbv. discriminate.
    + intros t _. discriminate.
    + intros t _. discriminate.
    + lia.
    + exists w', evs. repeat split; assumption.
Defined.

(** ** nativeInit on any platform *)

Lemma sink_plain (e : event) : sink_event e -> plain e.
Proof. destruct e; cbn; intros H; try contradiction; split; reflexivity. Qed.

Lemma pump_plain (e : event) : pump_event e -> plain e.
Proof. destruct e; cbn; intros H; try contradiction; split; reflexivity. Qed.

Lemma counted_emit (tr0 : list event) s c e w :
  counted tr0 s c w ->
  counted tr0 ((if is_cond_signal e then 1 else 0) + s)
    ((if is_app_create e then 1 else 0) + c) (emit e w).
Proof.
  intros (evs & Ht & Hs & Hc). exists (evs ++ [e]). cbn [trace emit].
  rewrite Ht, app_assoc, !count_events_app, Hs, Hc.
  unfold count_events. cbn [filter].
  destruct (is_cond_signal e), (is_app_create e); cbn [length]; repeat split; lia.
Qed.

Lemma counted_emit_plain (tr0 : list event) s c e w :
  plain e -> counted tr0 s c w -> counted tr0 s c (emit e w).
Proof.
  intros [Hs Hc] H. pose proof (counted_emit tr0 s c e w H) as H'.
  rewrite Hs, Hc in H'. exact H'.
Qed.

Lemma counted_stable (P : Platform) (tr0 : list event) s c :
  stable_for P plain (counted tr0 s c).
Proof.
  split; try (intros; assumption).
  intros e w He H. apply counted_emit_plain; assumption.
Qed.

Lemma counted_app_stable (P : Platform) (tr0 : list event) s c :
  stable_for P plain (fun w => counted tr0 s c w /\ g_app w <> nullptr).
Proof.
  split; try (intros; assumption).
  intros e w He [H Ha]. split; [apply counted_emit_plain; assumption|exact Ha].
Qed.

Lemma ensures_spec {A} (I : World -> Prop) (m : M A) (Err : World -> Prop) :
  ensures I m -> (forall w, I w -> Err w) -> spec I m (fun _ => I) Err.
Proof.
  intros H HE w Hw. specialize (H w Hw). destruct (m w); auto.
Qed.

(** The calls that neither signal nor create: they keep an invariant that
    plain calls keep. *)
Ltac plain_call P HI :=
  first
    [ apply (LogMessage_ensures P _ _ HI), sink_plain
    | apply (LogMessage_va_ensures P _ _ HI), sink_plain
    | apply (WaitForFutureCompletion_ensures P _ _ HI);
        [apply pump_plain|apply sink_plain]
    | apply (GetJniEnv_ensures P _ _ HI); split; reflexivity
    | apply GetActivityM_ensures
    | apply ensures_read
    | apply ensures_stop
    | apply ensures_ret
    | apply ensures_act; intros ? ?;
        first [ assumption
              | apply (sf_emit P _ _ HI); [split; reflexivity|assumption] ] ].

Lemma InitializeFirebase_body_counted (P : Platform) fuel self tr0 s c :
  spec (counted tr0 s c) (InitializeFirebase_body P fuel self)
    (fun _ w => counted tr0 s (S c) w /\ g_app w <> nullptr)
    (fun w => counted tr0 s c w \/ counted tr0 s (S c) w).
Proof.
  unfold InitializeFirebase_body, GetWindowContextM.
  eapply spec_bind;
    [apply ensures_spec; [plain_call P (counted_stable P tr0 s c)|auto]|intros env].
  eapply spec_bind;
    [apply ensures_spec; [plain_call P (counted_stable P tr0 s c)|auto]|intros activity].
  eapply spec_bind with (Mid := fun _ => counted tr0 s (S c)).
  { apply spec_act. intros w H.
    exact (counted_emit tr0 s c (EvAppCreate env activity) w H). }
  intros _.
  do 4 (eapply spec_bind;
          [apply ensures_spec; [plain_call P (counted_stable P tr0 s (S c))|auto]
          |intros ?]).
  eapply spec_bind with (Mid := fun app w => counted tr0 s (S c) w /\ app = g_app w).
  { intros w H. split; [exact H|reflexivity]. }
  intros app.
  eapply spec_bind with
    (Mid := fun _ w => counted tr0 s (S c) w /\ g_app w <> nullptr).
  { intros w [H ->]. destruct (is_null (g_app w)) eqn:E.
    - right. exact H.
    - split; [|apply is_null_false, E].
      apply counted_emit_plain; [split; reflexivity|exact H]. }
  intros _.
  repeat (eapply spec_bind;
            [apply ensures_spec;
               [plain_call P (counted_app_stable P tr0 s (S c))
               |intros ? [? _]; right; assumption]
            |intros ?]).
  match goal with
  | |- spec _ (match ?r with _ => _ end) _ _ => destruct r
  end.
  - intros w [H Ha]. split; [|exact Ha].
    apply counted_emit_plain; [split; reflexivity|exact H].
  - intros w [H _]. right. exact H.
Qed.

Lemma counted_null_stable (P : Platform) (tr0 : list event) s c (b : bool) :
  stable_for P plain (fun w => counted tr0 s c w /\ is_null (g_app w) = b).
Proof.
  split; try (intros; assumption).
  intros e w He [H Ha]. split; [apply counted_emit_plain; assumption|exact Ha].
Qed.

Lemma counted_ready_stable (P : Platform) (tr0 : list event) s c :
  stable_for P plain
    (fun w => counted tr0 s c w /\ is_null (g_app w) = false
              /\ g_initialized w = true).
Proof.
  split; try (intros; assumption).
  intros e w He (H & Ha & Hi).
  split; [apply counted_emit_plain; assumption|split; assumption].
Qed.

(** [InitializeFirebase] reaches [firebase::App::Create] when [g_app] is
    null and not otherwise; when it returns, [g_app] is set. *)
Lemma InitializeFirebase_counted (P : Platform) fuel self tr0 s c (b : bool) :
  spec (fun w => counted tr0 s c w /\ is_null (g_app w) = b)
    (InitializeFirebase P fuel self)
    (fun _ w => counted tr0 s (if b then S c else c) w
                /\ is_null (g_app w) = false)
    (fun w => counted tr0 s c w \/ (b = true /\ counted tr0 s (S c) w)).
Proof.
  intros w [H Hb]. unfold InitializeFirebase, bind, read. rewrite Hb.
  destruct b; cbn [negb].
  - pose proof (InitializeFirebase_body_counted P fuel self tr0 s c w H) as Hbody.
    destruct (InitializeFirebase_body P fuel self w) as [[] w'|f w'|]; auto.
    + destruct Hbody as [Hc Ha]. split; [exact Hc|apply is_null_false, Ha].
    + destruct Hbody as [Hc|Hc]; auto.
  - split; assumption.
Qed.

(** One call of [nativeInit]: one signal more, [firebase::App::Create]
    reached only with [g_app] null, and the flag set when it returns. *)
Lemma nativeInit_counted (P : Platform) fuel self env thiz activity tr0 s c (b : bool) :
  spec (fun w => counted tr0 s c w /\ is_null (g_app w) = b)
    (nativeInit P fuel self env thiz activity)
    (fun _ w => counted tr0 (S s) (if b then S c else c) w
                /\ is_null (g_app w) = false /\ g_initialized w = true)
    (fun w => counted tr0 s c w \/ (b = true /\ counted tr0 s (S c) w)).
Proof.
  unfold nativeInit.
  do 3 (eapply spec_bind;
          [apply ensures_spec;
             [plain_call P (counted_null_stable P tr0 s c b)
             |intros ? [? _]; left; assumption]
          |intros ?]).
  eapply spec_bind; [apply InitializeFirebase_counted|intros ?].
  assert (Herr : forall w, counted tr0 s (if b then S c else c) w ->
                           counted tr0 s c w \/ (b = true /\ counted tr0 s (S c) w))
    by (intros w H; destruct b; auto).
  eapply spec_bind;
    [apply ensures_spec;
       [plain_call P (counted_null_stable P tr0 s (if b then S c else c) false)
       |intros ? [? _]; auto]
    |intros ?].
  eapply spec_bind with
    (Mid := fun _ w => counted tr0 s (if b then S c else c) w
                       /\ is_null (g_app w) = false /\ g_initialized w = true).
  { apply spec_act. intros w [H Ha]. repeat split; assumption. }
  intros ?.
  do 4 (eapply spec_bind;
          [apply ensures_spec;
             [plain_call P (counted_ready_stable P tr0 s (if b then S c else c))
             |intros ? [? _]; auto]
          |intros ?]).
  apply spec_act. intros w (H & Ha & Hi).
  split; [|split; assumption].
  exact (counted_emit tr0 s (if b then S c else c) EvCondSignal w H).
Qed.

(** Once [g_app] is set, any number of calls adds one signal each and no
    creation; a call that stops has not signalled. *)
Lemma nativeInit_calls_counted (P : Platform) fuel self tr0 c calls :
  forall s,
    spec (fun w => counted tr0 s c w /\ is_null (g_app w) = false
                   /\ g_initialized w = true)
      (nativeInit_calls P fuel self calls)
      (fun _ w => counted tr0 (length calls + s) c w
                  /\ is_null (g_app w) = false /\ g_initialized w = true)
      (fun w => exists s', (s' < length calls + s)%nat /\ counted tr0 s' c w).
Proof.
  induction calls as [|[[env thiz] activity] rest IH]; intros s.
  - intros w H. exact H.
  - cbn [nativeInit_calls length].
    eapply spec_bind with
      (Mid := fun _ w => counted tr0 (S s) c w /\ is_null (g_app w) = false
                         /\ g_initialized w = true).
    + eapply spec_weaken;
        [apply (nativeInit_counted P fuel self env thiz activity tr0 s c false)| | |].
      * intros w (H & Ha & _). split; assumption.
      * intros ? w H. exact H.
      * intros w [H|H].
        -- exists s. split; [lia|exact H].
        -- destruct H as [H _]. discriminate H.
    + intros ?. eapply spec_weaken; [apply (IH (S s))| | |].
      * intros w H. exact H.
      * intros ? w (H & Ha & Hi).
        replace (S (length rest) + s)%nat with (length rest + S s)%nat by lia.
        repeat split; assumption.
      * intros w (s' & Hs & H). exists s'. split; [lia|exact H].
Qed.

(** C4: [nativeInit] can be called any number of times by the managed
    runtime.  On every platform and from every world, whatever the SDK and
    the system log do: calls that all return have signalled [g_init_cond]
    once each and leave [g_initialized] and [g_app] set; over all the calls
    [firebase::App::Create] is reached at most once, and never when [g_app]
    was set before; a sequence cut short by a fault has signalled once for
    each call that returned and has not reached [firebase::App::Create]
    more than once either.

    When the calls come from a thread other than the main thread, the SDK
    delivers an application handle and resolves the two banner futures, and
    the system log returns when [LogMessage] hands it the spent [va_list] of
    a call with arguments (as the first call does for the application handle
    and for a banner future that failed), every call returns; a thread
    waiting in the loop of line 325 leaves it at its next test of the flag,
    signal or not.  The body of [InitializeFirebase] runs in the first call
    only: with [g_app] set the function returns at its first line.  After
    the first call, one more call changes the world only by the five calls
    of [early_init_again] that it adds to the trace. *)
Theorem nativeInit_idempotent
    (P : Platform) (fuel : nat) (self : pthread_t) (T : nat)
    (calls : list (JNIEnv_ptr * jobject * jobject)) (w : World) :
  match nativeInit_calls P fuel self calls w with
  | Ret _ w' =>
      exists creates,
        counted (trace w) (length calls) creates w'
        /\ (creates <= 1)%nat
        /\ (g_app w <> nullptr -> creates = 0%nat)
        /\ (calls <> [] -> g_initialized w' = true /\ g_app w' <> nullptr)
  | Stop _ w' =>
      exists signals creates,
        counted (trace w) signals creates w'
        /\ (signals < length calls)%nat
        /\ (creates <= 1)%nat
        /\ (g_app w <> nullptr -> creates = 0%nat)
  | Spin => True
  end
  /\ (vprint_returns P ->
      self <> g_main_thread w ->
      app_create P <> nullptr ->
      resolves_by (banner_InitializeLastResult P) T ->
      resolves_by (banner_ShowLastResult P) T ->
      (T < fuel)%nat ->
      exists w' evs,
        nativeInit_calls P fuel self calls w = Ret tt w'
        /\ trace w' = trace w ++ evs
        /\ count_events is_cond_signal evs = length calls
        /\ (count_events is_app_create evs <= 1)%nat
        /\ (g_app w <> nullptr -> count_events is_app_create evs = 0%nat)
        /\ (calls <> [] ->
            g_initialized w' = true
            /\ g_app w' <> nullptr
            /\ InitializeFirebase P fuel self w' = Ret tt w'
            /\ (forall fuel' worker,
                  wait_for_nativeInit_loop P (S fuel') worker w' = Ret tt w')
            /\ (forall env thiz activity,
                  nativeInit P fuel self env thiz activity w'
                  = Ret tt (emit_all early_init_again w')))).
Proof.
  split.
  - assert (H0 : counted (trace w) 0 0 w)
      by (exists []; rewrite app_nil_r; repeat split).
    assert (Hb : forall c, (c <= if is_null (g_app w) then 1 else 0)%nat ->
                 (c <= 1)%nat /\ (g_app w <> nullptr -> c = 0%nat)).
    { intros c Hc. split.
      - destruct (is_null (g_app w)); lia.
      - intros Hset. apply is_null_false in Hset. rewrite Hset in Hc. lia. }
    destruct calls as [|[[env thiz] activity] rest].
    + cbn. exists 0%nat. split; [exact H0|]. split; [lia|].
      split; [reflexivity|]. intros Hne. contradiction Hne. reflexivity.
    + cbn [nativeInit_calls length]. unfold bind.
      pose proof (nativeInit_counted P fuel self env thiz activity (trace w) 0 0
                    (is_null (g_app w)) w (conj H0 eq_refl)) as H1.
      destruct (nativeInit P fuel self env thiz activity w) as [[] w1|f w1|];
        [| |exact I].
      * pose proof (nativeInit_calls_counted P fuel self (trace w) _ rest 1 w1 H1)
          as H2.
        destruct (nativeInit_calls P fuel self rest w1) as [[] w2|f w2|];
          [| |exact I].
        -- destruct H2 as (Hc & Ha & Hi).
           exists (if is_null (g_app w) then 1%nat else 0%nat).
           replace (S (length rest)) with (length rest + 1)%nat by lia.
           split; [exact Hc|].
           destruct (Hb _ (Nat.le_refl _)) as [Hle Hset].
           split; [exact Hle|]. split; [exact Hset|].
           intros _. split; [exact Hi|apply is_null_false, Ha].
        -- destruct H2 as (s' & Hs & Hc).
           exists s', (if is_null (g_app w) then 1%nat else 0%nat).
           destruct (Hb _ (Nat.le_refl _)) as [Hle Hset].
           split; [exact Hc|]. split; [lia|]. split; [exact Hle|exact Hset].
      * destruct H1 as [Hc|[Hnull Hc]].
        -- exists 0%nat, 0%nat. split; [exact Hc|]. split; [lia|].
           split; [lia|reflexivity].
        -- exists 0%nat, 1%nat. split; [exact Hc|]. split; [lia|].
           split; [lia|]. intros Hset. apply is_null_false in Hset. congruence.
  - intros Hv Hoff Happ Hinit Hshow HT.
    destruct (nativeInit_calls_off_main P fuel self T Hv Happ Hinit Hshow HT calls w Hoff)
      as (w' & evs & E & Ht & Cs & Cc & Hne & Hmain).
    exists w', evs.
    split; [exact E|]. split; [exact Ht|]. split; [exact Cs|].
    split; [rewrite Cc; destruct (is_null (g_app w)); lia|].
    split.
    { intros Hset. rewrite Cc.
      assert (En : is_null (g_app w) = false) by (apply Z.eqb_neq; exact Hset).
      rewrite En. reflexivity. }
    intros Hcalls. destruct (Hne Hcalls) as (Hi & Ha & Henv & Hact).
    split; [exact Hi|]. split; [exact Ha|].
    split; [apply InitializeFirebase_already; exact Ha|].
    split.
    + intros fuel' worker. cbn [wait_for_nativeInit_loop]. rewrite Hi. reflexivity.
    + intros env thiz activity. apply nativeInit_again; congruence.
Qed.

Lemma nativeInit_idempotent_witness :
  exists w' evs,
    nativeInit_calls quiet_platform 1 ui_thread
      [(4096, 70, 500); (4096, 70, 500); (4096, 70, 500)] session_world = Ret tt w'
    /\ trace w' = trace session_world ++ evs
    /\ count_events is_cond_signal evs = 3%nat
    /\ count_events is_app_create evs = 1%nat
    /\ g_initialized w' = true.
Proof.
  destruct (nativeInit_idempotent quiet_platform 1 ui_thread 0
              [(4096, 70, 500); (4096, 70, 500); (4096, 70, 500)] session_world)
    as [_ Hrun].
  destruct Hrun as (w' & evs & E & Ht & Cs & Cc & _ & Hlast).
  - intros position format args. discriminate.
  - cbv. discriminate.
  - cbv. discriminate.
  - intros t _. discriminate.
  - intros t _. discriminate.
  - lia.
  - exists w', evs. split; [exact E|]. split; [exact Ht|]. split; [exact Cs|].
    split.
    + assert (Hw' : Ret tt w' = nativeInit_calls quiet_platform 1 ui_thread
                [(4096, 70, 500); (4096, 70, 500); (4096, 70, 500)] session_world)
        by (symmetry; exact E).
      change (trace session_world) with (@nil event) in Ht. cbn [app] in Ht.
      subst evs. vm_compute in Hw'. injection Hw' as ->. reflexivity.
    + apply Hlast. discriminate.
Defined.

